(** * Lock-in risk engine: clause extraction and weighted scoring

    A shallow embedding of the deterministic core of the contract risk
    assessment tool:

    - [scoring_algorithm.py]  : [ContractScorer] (category scores, total, tier,
                                 critical issues);
    - [risk_assessor.py]      : [ContractAnalyzer] (section splitting, category
                                 matching, lock-in mechanism labelling) and
                                 [RiskAssessmentEngine] (assessment of a
                                 contract, comparison of several);
    - [interactive_assessment.py] : the questionnaire scorer;
    - [app.py]                : the upload filter and the questionnaire
                                 endpoint.

    Conventions of the embedding.

    - Python [str] is [string]; a character is a code point below 256.
    - Python [float] is modelled by exact rationals [Q]: arithmetic is
      exact, and [round(x, n)] rounds the exact value to [n] decimals, ties
      to even.  The code computes in 64-bit binary floating point, whose
      error is in the last place of a result; it can change a rounded
      value only when the exact value lies at a midpoint between two
      decimals, or within that error of one, and there the code may store
      either neighbour.  Scores are compared with [==] on [Q], or with [=]
      where the code's own expression is meant.
    - Python [int] is [Z], exact and of any size; arithmetic that mixes it
      with a [float] converts it first, and raises [OverflowError] when it
      has no [float].
    - A Python [dict] is an association list in insertion order.
    - A [for] loop with accumulators is a [fold_left] over its body.
    - Code that may raise returns a [result]: a value or the exception. *)

From Stdlib Require Import List String Ascii Bool Arith ZArith QArith Qround.
From Stdlib Require Import Lia Lqa DecimalString DecimalNat.
From Stdlib Require Import Permutation.
Import ListNotations.

Open Scope string_scope.

(** ** Python values and dictionaries *)

Module Py.

(** The scalar values that occur in clause and category-detail dicts. *)
Inductive pyval : Type :=
| VNone
| VBool (b : bool)
| VInt (z : Z)
| VFloat (q : Q)
| VStr (s : string).

(** [dict[str, V]], insertion ordered. *)
Definition dict (V : Type) : Type := list (string * V).

Definition pydict : Type := dict pyval.

(** [d.get(k)] *)
Fixpoint dict_get {V : Type} (k : string) (d : dict V) : option V :=
  match d with
  | [] => None
  | (k', v) :: d' => if String.eqb k k' then Some v else dict_get k d'
  end.

(** [d.get(k, default)] *)
Definition dict_get_default {V : Type} (k : string) (default : V) (d : dict V) : V :=
  match dict_get k d with
  | Some v => v
  | None => default
  end.

(** [d[k] = v]: an existing key keeps its position, a new key goes last. *)
Fixpoint dict_set {V : Type} (k : string) (v : V) (d : dict V) : dict V :=
  match d with
  | [] => [(k, v)]
  | (k', v') :: d' =>
      if String.eqb k k' then (k, v) :: d' else (k', v') :: dict_set k v d'
  end.

(** [k in d] *)
Definition dict_has {V : Type} (k : string) (d : dict V) : bool :=
  match dict_get k d with
  | Some _ => true
  | None => false
  end.

(** [d.values()] *)
Definition dict_values {V : Type} (d : dict V) : list V := map snd d.

(** [d.keys()] *)
Definition dict_keys {V : Type} (d : dict V) : list string := map fst d.

(** [v == s] for a string literal [s]: only a [str] equals a [str]. *)
Definition val_eq_str (v : pyval) (s : string) : bool :=
  match v with
  | VStr t => String.eqb t s
  | _ => false
  end.

(** Nearest integer, ties to the even neighbour. *)
Definition round_half_even (q : Q) : Z :=
  let f := Qfloor q in
  match (q - inject_Z f ?= 1 # 2)%Q with
  | Lt => f
  | Gt => (f + 1)%Z
  | Eq => if Z.even f then f else (f + 1)%Z
  end.

(** [10 ** ndigits] *)
Definition scale (ndigits : nat) : Q := inject_Z (10 ^ Z.of_nat ndigits).

(** [round(q, ndigits)] of the exact value [q].  At a midpoint between two
    decimals this takes the even neighbour; the code, which rounds the
    binary float nearest to [q], may take the other one. *)
Definition round (q : Q) (ndigits : nat) : Q :=
  (inject_Z (round_half_even (q * scale ndigits)) / scale ndigits)%Q.

(** [sum(xs)] on numbers: starts from [0] and adds left to right. *)
Definition sum (xs : list Q) : Q := fold_left Qplus xs 0%Q.

(** [len(xs)] as a Python integer. *)
Definition len {A : Type} (xs : list A) : Z := Z.of_nat (List.length xs).

(** [str(n)] for a non-negative integer. *)
Definition str_of_nat (n : nat) : string :=
  NilEmpty.string_of_uint (Nat.to_uint n).

End Py.

(** ** Python string operations *)

Module PyStr.

Local Open Scope nat_scope.

Definition code (c : ascii) : nat := nat_of_ascii c.

Definition newline : ascii := ascii_of_nat 10.

Definition is_newline (c : ascii) : bool := code c =? 10.

(** [c.isspace()] below U+0100: TAB..CR, FS..US, SPACE, NEL, NBSP.  This is
    also the whitespace class of a [str] pattern. *)
Definition is_space (c : ascii) : bool :=
  let n := code c in
  ((9 <=? n) && (n <=? 13)) || ((28 <=? n) && (n <=? 32))
  || (n =? 133) || (n =? 160).

(** [[A-Z]] *)
Definition is_upper_AZ (c : ascii) : bool :=
  let n := code c in (65 <=? n) && (n <=? 90).

(** [[0-9]] *)
Definition is_digit (c : ascii) : bool :=
  let n := code c in (48 <=? n) && (n <=? 57).

(** [c.lower()] below U+0100: A-Z and the Latin-1 capitals (U+00C0..U+00DE
    except the multiplication sign U+00D7) move up by 32. *)
Definition lower_char (c : ascii) : ascii :=
  let n := code c in
  if ((65 <=? n) && (n <=? 90))
     || ((192 <=? n) && (n <=? 222) && negb (n =? 215))
  then ascii_of_nat (n + 32) else c.

(** [s.lower()] *)
Fixpoint lower (s : string) : string :=
  match s with
  | EmptyString => EmptyString
  | String c s' => String (lower_char c) (lower s')
  end.

(** [pat in s]: substring containment. *)
Fixpoint contains (pat s : string) : bool :=
  if String.prefix pat s then true
  else match s with
       | EmptyString => false
       | String _ s' => contains pat s'
       end.

(** [s.lstrip()] *)
Fixpoint lstrip (s : string) : string :=
  match s with
  | EmptyString => EmptyString
  | String c s' => if is_space c then lstrip s' else s
  end.

(** [s.rstrip()] *)
Fixpoint rstrip (s : string) : string :=
  match s with
  | EmptyString => EmptyString
  | String c s' =>
      match rstrip s' with
      | EmptyString => if is_space c then EmptyString else String c EmptyString
      | t => String c t
      end
  end.

(** [s.strip()] *)
Definition strip (s : string) : string := rstrip (lstrip s).

(** [s.split(sep)] for a one-character separator. *)
Fixpoint split_char (sep : ascii) (s : string) : list string :=
  match s with
  | EmptyString => [EmptyString]
  | String c s' =>
      match split_char sep s' with
      | [] => [EmptyString]
      | h :: t =>
          if Ascii.eqb c sep then EmptyString :: h :: t
          else String c h :: t
      end
  end.

(** [s[:n]] *)
Definition take (n : nat) (s : string) : string := substring 0 n s.

(** [c * n] *)
Fixpoint repeat_char (c : ascii) (n : nat) : string :=
  match n with
  | O => EmptyString
  | S n' => String c (repeat_char c n')
  end.

End PyStr.

(** ** scoring_algorithm.py *)

Module Scoring.

Import Py.

Local Open Scope Q_scope.

(** Category weights (the 100-point system). *)
Definition CATEGORY_WEIGHTS : dict Z :=
  [ ("service_level", 25%Z);
    ("pricing_terms", 25%Z);
    ("termination_exit", 20%Z);
    ("data_portability", 15%Z);
    ("support_obligations", 15%Z) ].

(** Risk multipliers for lock-in mechanisms. *)
Definition LOCK_IN_MULTIPLIERS : dict Q :=
  [ ("no_compensation", 1);
    ("price_increase_risk", 1);
    ("data_restriction", 1);
    ("unilateral_pricing", 1);
    ("no_sla", 1);
    ("discontinuation_risk", 7 # 10);
    ("automatic_renewal", 7 # 10);
    ("limited_remedies", 7 # 10);
    ("no_commitment", 7 # 10);
    ("no_guarantee", 7 # 10);
    ("cancellation_penalty", 1 # 2);
    ("no_support_guarantee", 1 # 2);
    ("exit_fees", 1 # 2);
    ("no_notice_changes", 1 # 2);
    ("standard", 3 # 10) ].

(** Risk thresholds: level -> (lowest, highest) points. *)
Definition RISK_THRESHOLDS : dict (Z * Z) :=
  [ ("low", (0, 33)%Z);
    ("medium", (34, 66)%Z);
    ("high", (67, 100)%Z) ].

(** [self.risk_thresholds[level]]; the three levels looked up exist. *)
Definition risk_threshold (level : string) : Z * Z :=
  dict_get_default level (0, 0)%Z RISK_THRESHOLDS.

(** [self.lock_in_multipliers.get(lock_in_type, default)]: the table is
    keyed by strings, so no other value is found in it. *)
Definition multiplier_get (lock_in_type : pyval) (default : Q) : Q :=
  match lock_in_type with
  | VStr s => dict_get_default s default LOCK_IN_MULTIPLIERS
  | _ => default
  end.

(** [c.get('clause_category') == category] *)
Definition in_category (category : string) (c : pydict) : bool :=
  match dict_get "clause_category" c with
  | Some v => val_eq_str v category
  | None => false
  end.

(** Body of the loop over [category_clauses]; the state is
    [(total_penalty, high_risk_count)]. *)
Definition penalty_step (st : Q * Z) (clause : pydict) : Q * Z :=
  let '(total_penalty, high_risk_count) := st in
  let risk_level := dict_get_default "risk_level" (VStr "Medium") clause in
  let lock_in_type := dict_get_default "lock_in_mechanism" (VStr "standard") clause in
  if val_eq_str risk_level "High" then
    let high_risk_count := (high_risk_count + 1)%Z in
    let multiplier := multiplier_get lock_in_type (1 # 2) in
    (total_penalty + multiplier, high_risk_count)
  else
    let multiplier := multiplier_get lock_in_type (3 # 10) in
    (total_penalty + multiplier * (1 # 2), high_risk_count).

(** Body of the loop over [self.category_weights.items()]; the state is
    [(category_scores, category_details)]. *)
Definition category_step (clauses : list pydict)
    (st : dict Q * dict pydict) (item : string * Z) : dict Q * dict pydict :=
  let '(category_scores, category_details) := st in
  let '(category, max_points) := item in
  let category_clauses := filter (in_category category) clauses in
  match category_clauses with
  | [] =>
      (dict_set category (inject_Z max_points * (1 # 2)) category_scores,
       dict_set category
         [ ("score", VFloat (inject_Z max_points * (1 # 2)));
           ("max_points", VInt max_points);
           ("clause_count", VInt 0);
           ("high_risk_count", VInt 0);
           ("missing_coverage", VBool true);
           ("penalty_reason", VStr "No clauses found in this category") ]
         category_details)
  | _ :: _ =>
      let '(total_penalty, high_risk_count) :=
        fold_left penalty_step category_clauses (0, 0%Z) in
      let avg_penalty := total_penalty / inject_Z (len category_clauses) in
      let category_score := inject_Z max_points * avg_penalty in
      (dict_set category (round category_score 2) category_scores,
       dict_set category
         [ ("score", VFloat (round category_score 2));
           ("max_points", VInt max_points);
           ("clause_count", VInt (len category_clauses));
           ("high_risk_count", VInt high_risk_count);
           ("high_risk_percentage",
             VFloat (round (inject_Z high_risk_count
                            / inject_Z (len category_clauses) * 100) 1));
           ("missing_coverage", VBool false) ]
         category_details)
  end.

(** [ContractScorer.calculate_category_score] *)
Definition calculate_category_score (clauses : list pydict)
    : dict Q * dict pydict :=
  fold_left (category_step clauses) CATEGORY_WEIGHTS ([], []).

(** The tier chain of [calculate_total_score], on the rounded total. *)
Definition risk_level_of (total_score : Q) : string :=
  if Qle_bool (inject_Z (fst (risk_threshold "low"))) total_score
     && Qle_bool total_score (inject_Z (snd (risk_threshold "low")))
  then "LOW"
  else if Qle_bool (inject_Z (fst (risk_threshold "medium"))) total_score
          && Qle_bool total_score (inject_Z (snd (risk_threshold "medium")))
  then "MEDIUM"
  else "HIGH".

(** [ContractScorer.calculate_total_score] *)
Definition calculate_total_score (category_scores : dict Q) : Q * string :=
  let total_score := sum (dict_values category_scores) in
  let total_score := round total_score 2 in
  (total_score, risk_level_of total_score).

(** Values of the report dict: a scalar, a dict of scalars, a dict of
    dicts, or a list of dicts. *)
Inductive pyobj : Type :=
| Scalar (v : pyval)
| Dict (d : pydict)
| DictOfDicts (d : dict pydict)
| ListOfDicts (l : list pydict).

Definition report : Type := dict pyobj.

(** [ContractScorer.score_contract].  The keys [critical_issues],
    [recommendations] and [score_interpretation] hold rendered text derived
    from the values below and are left out of the report here. *)
Definition score_contract (clauses : list pydict) : report :=
  let '(category_scores, category_details) := calculate_category_score clauses in
  let '(total_score, risk_level) := calculate_total_score category_scores in
  [ ("total_score", Scalar (VFloat total_score));
    ("risk_level", Scalar (VStr risk_level));
    ("category_scores", Dict (map (fun kv => (fst kv, VFloat (snd kv))) category_scores));
    ("category_details", DictOfDicts category_details) ].

End Scoring.

(** ** risk_assessor.py *)

Module Analyzer.

Import Py PyStr.

Local Open Scope nat_scope.

(** One entry of [CLAUSE_CATEGORIES]. *)
Record category_config : Type := {
  keywords : list string;
  negative_keywords : list string;
  required_phrases : list string
}.

(** Clause detection rules, in the table's order. *)
Definition CLAUSE_CATEGORIES : dict category_config :=
  [ ("data_portability",
     {| keywords :=
          [ "data export"; "data portability"; "data migration"; "export data";
            "data transfer"; "download data"; "retrieve data"; "data extraction";
            "data backup"; "api access"; "bulk export"; "data ownership";
            "portable format"; "standard format"; "data retrieval" ];
        negative_keywords :=
          [ "no obligation to provide"; "may not export"; "cannot export";
            "prohibit export"; "restrict export"; "no portability";
            "proprietary format only"; "no api access"; "limited export" ];
        required_phrases :=
          [ "export"; "portability"; "migration"; "api"; "retrieval" ] |});
    ("pricing_terms",
     {| keywords :=
          [ "pricing"; "fees"; "payment"; "cost"; "subscription"; "charges";
            "price increase"; "rate change"; "fee change"; "pricing change";
            "billing"; "invoice"; "payment terms"; "price adjustment";
            "renewal fee"; "price lock"; "pricing guarantee"; "price modification" ];
        negative_keywords :=
          [ "increase prices"; "raise fees"; "modify pricing"; "change fees";
            "at our discretion"; "sole discretion"; "without notice";
            "unilateral"; "at any time"; "right to change"; "may increase" ];
        required_phrases :=
          [ "pric"; "fee"; "cost"; "payment"; "subscription" ] |});
    ("support_obligations",
     {| keywords :=
          [ "support"; "technical support"; "customer support"; "assistance";
            "help desk"; "support hours"; "support availability"; "support level";
            "maintenance"; "updates"; "patches"; "bug fixes"; "response time";
            "support tier"; "support plan"; "customer service"; "service availability" ];
        negative_keywords :=
          [ "no support"; "no obligation to support"; "may discontinue support";
            "at our discretion"; "no guarantee"; "best effort"; "as is";
            "no commitment"; "may suspend"; "right to discontinue" ];
        required_phrases :=
          [ "support"; "maintenance"; "assistance"; "service" ] |});
    ("termination_exit",
     {| keywords :=
          [ "termination"; "terminate"; "cancel"; "cancellation"; "exit";
            "end of term"; "contract end"; "notice period"; "termination fee";
            "early termination"; "wind down"; "transition"; "off-boarding";
            "data deletion"; "account closure"; "suspension"; "renewal" ];
        negative_keywords :=
          [ "termination fee"; "penalty"; "early termination fee"; "cannot terminate";
            "must continue"; "auto-renew"; "automatic renewal"; "no refund";
            "immediately delete"; "forfeit"; "early cancellation fee" ];
        required_phrases :=
          [ "terminat"; "cancel"; "exit"; "renewal"; "end" ] |});
    ("service_level",
     {| keywords :=
          [ "sla"; "service level"; "uptime"; "availability"; "performance";
            "guarantee"; "commitment"; "downtime"; "credits"; "compensation";
            "reliability"; "service credit"; "remedies"; "service performance";
            "service guarantee"; "warranty"; "service quality" ];
        negative_keywords :=
          [ "no sla"; "no guarantee"; "best effort"; "as is"; "no warranty";
            "sole remedy"; "exclusive remedy"; "no liability"; "no compensation";
            "service credits only"; "as available"; "without warranty" ];
        required_phrases :=
          [ "sla"; "uptime"; "availability"; "guarantee"; "service level" ] |}) ].

(** Lock-in mechanism detection patterns: category -> mechanism ->
    substrings, both levels in the table's order. *)
Definition LOCK_IN_PATTERNS : dict (dict (list string)) :=
  [ ("data_portability",
     [ ("data_restriction", ["proprietary format"; "no export"; "cannot export"; "restrict"]);
       ("no_api_access", ["no api"; "limited api"; "no programmatic access"]);
       ("export_restriction", ["export restriction"; "limited export"; "no bulk export"]) ]);
    ("pricing_terms",
     [ ("price_increase_risk", ["increase"; "raise"; "adjust"; "modify"]);
       ("unilateral_pricing", ["sole discretion"; "unilateral"; "at our discretion"; "right to change"]);
       ("no_notice_changes", ["without notice"; "immediate effect"; "no advance notice"]);
       ("automatic_renewal", ["auto-renew"; "automatic renewal"; "automatically renew"]) ]);
    ("support_obligations",
     [ ("no_support_guarantee", ["no support"; "no obligation"; "no guarantee"]);
       ("discontinuation_risk", ["may discontinue"; "right to discontinue"; "suspend"]);
       ("no_commitment", ["best effort"; "no commitment"; "as is"]) ]);
    ("termination_exit",
     [ ("exit_fees", ["termination fee"; "early termination"; "cancellation fee"]);
       ("cancellation_penalty", ["penalty"; "forfeit"; "early cancellation"]);
       ("automatic_renewal", ["auto-renew"; "automatic renewal"; "automatically renew"]) ]);
    ("service_level",
     [ ("no_sla", ["no sla"; "no service level"]);
       ("no_compensation", ["no compensation"; "no liability"; "sole remedy"]);
       ("no_guarantee", ["no guarantee"; "best effort"; "as is"; "without warranty"]);
       ("limited_remedies", ["sole remedy"; "exclusive remedy"; "only remedy"; "service credits only"]) ]) ].

(** *** Section splitting *)

(** Length of the longest prefix of [s] whose characters satisfy [p]. *)
Fixpoint span_len (p : ascii -> bool) (s : string) : nat :=
  match s with
  | EmptyString => 0
  | String c s' => if p c then S (span_len p s') else 0
  end.

(** First alternative of the split pattern: a newline followed by one or
    more newlines (greedy). *)
Definition match_blank_lines (s : string) : option nat :=
  match s with
  | String c1 (String c2 rest) =>
      if is_newline c1 && is_newline c2
      then Some (2 + span_len is_newline rest)
      else None
  | _ => None
  end.

(** Second alternative: a newline, one or more digits, a full stop. *)
Definition match_numbered (s : string) : option nat :=
  match s with
  | String c1 rest =>
      if is_newline c1 then
        let d := span_len is_digit rest in
        match String.get d rest with
        | Some c => if (1 <=? d) && (code c =? 46) then Some (d + 2) else None
        | None => None
        end
      else None
  | EmptyString => None
  end.

(** Capital letter or whitespace: the class repeated in the third
    alternative. *)
Definition is_heading_char (c : ascii) : bool := is_upper_AZ c || is_space c.

(** Scan of the run of heading characters at the start of [s]: the largest
    index [j >= 1] inside the run that holds a newline, if any.  This is
    where the greedy repetition, backing off, lets the final newline
    match. *)
Fixpoint last_newline_in_run (s : string) (i : nat) (best : option nat)
    : option nat :=
  match s with
  | EmptyString => best
  | String c s' =>
      if is_heading_char c then
        last_newline_in_run s' (S i)
          (if is_newline c && (1 <=? i) then Some i else best)
      else best
  end.

(** Third alternative: a newline, a capital, one or more capitals or
    whitespace characters (greedy), a newline. *)
Definition match_caps_heading (s : string) : option nat :=
  match s with
  | String c1 (String c2 rest) =>
      if is_newline c1 && is_upper_AZ c2 then
        match last_newline_in_run rest 0 None with
        | Some j => Some (j + 3)
        | None => None
        end
      else None
  | _ => None
  end.

(** Length of the match of the split pattern at the start of [s]; the
    alternatives are tried in order. *)
Definition section_marker_match (s : string) : option nat :=
  match match_blank_lines s with
  | Some n => Some n
  | None =>
      match match_numbered s with
      | Some n => Some n
      | None => match_caps_heading s
      end
  end.

(** [re.split] with the section pattern.  [skip] counts the characters of
    the current match still to be dropped, [cur] is the piece being
    collected, reversed. *)
Fixpoint re_split_go (skip : nat) (cur : string) (s : string) : list string :=
  match s with
  | EmptyString => [cur]
  | String c s' =>
      match skip with
      | S k => re_split_go k cur s'
      | O =>
          match section_marker_match s with
          | Some n => cur :: re_split_go (pred n) EmptyString s'
          | None => re_split_go 0 (cur ++ String c EmptyString)%string s'
          end
      end
  end.

Definition re_split (text : string) : list string :=
  re_split_go 0 EmptyString text.

(** The primary split: pieces trimmed and kept when longer than 100. *)
Definition primary_sections (text : string) : list string :=
  map strip (filter (fun s => 100 <? String.length (strip s)) (re_split text)).

(** The fallback split: lines kept when longer than 100. *)
Definition paragraph_sections (text : string) : list string :=
  filter (fun p => 100 <? String.length p) (split_char newline text).

(** [ContractAnalyzer._split_into_sections] *)
Definition _split_into_sections (text : string) : list string :=
  let sections := primary_sections text in
  if List.length sections <? 5 then paragraph_sections text else sections.

(** *** Lock-in mechanism labelling *)

(** Inner loop of [_identify_lock_in_mechanism]: returns at the first
    pattern found in [text]. *)
Fixpoint scan_patterns (text mechanism : string) (patterns : list string)
    : option string :=
  match patterns with
  | [] => None
  | pattern :: rest =>
      if contains pattern text then Some mechanism
      else scan_patterns text mechanism rest
  end.

(** Outer loop over the category's mechanisms, in order. *)
Fixpoint scan_mechanisms (text : string) (mechanisms : dict (list string))
    : option string :=
  match mechanisms with
  | [] => None
  | (mechanism, patterns) :: rest =>
      match scan_patterns text mechanism patterns with
      | Some m => Some m
      | None => scan_mechanisms text rest
      end
  end.

(** [ContractAnalyzer._identify_lock_in_mechanism] *)
Definition _identify_lock_in_mechanism (text category : string) : string :=
  match dict_get category LOCK_IN_PATTERNS with
  | None => "standard"
  | Some mechanisms =>
      match scan_mechanisms text mechanisms with
      | Some mechanism => mechanism
      | None => "standard"
      end
  end.

(** *** Category matching *)

(** [any(phrase in section_lower for phrase in config['required_phrases'])] *)
Definition has_required (config : category_config) (section_lower : string) : bool :=
  existsb (fun phrase => contains phrase section_lower) (required_phrases config).

(** [sum(1 for kw in config['keywords'] if kw in section_lower)] *)
Definition keyword_matches (config : category_config) (section_lower : string) : nat :=
  List.length (filter (fun kw => contains kw section_lower) (keywords config)).

(** [any(nkw in section_lower for nkw in config['negative_keywords'])] *)
Definition has_negative (config : category_config) (section_lower : string) : bool :=
  existsb (fun nkw => contains nkw section_lower) (negative_keywords config).

(** Body of the loop over sections inside [find_clauses]; the state is
    [(clauses, clause_id)]. *)
Definition section_step (vendor_name file_name category : string)
    (config : category_config)
    (st : list pydict * nat) (section : string) : list pydict * nat :=
  let '(clauses, clause_id) := st in
  if String.length section <? 100 then st
  else
    let section_lower := lower section in
    if negb (has_required config section_lower) then st
    else
      let matches := keyword_matches config section_lower in
      if 2 <=? matches then
        let clause_id := S clause_id in
        let risk_level :=
          if has_negative config section_lower then "High" else "Medium" in
        let lock_in_type := _identify_lock_in_mechanism section_lower category in
        ((clauses ++
           [ [ ("clause_id", VStr (vendor_name ++ "_" ++ str_of_nat clause_id)%string);
               ("vendor_name", VStr vendor_name);
               ("contract_file", VStr file_name);
               ("clause_category", VStr category);
               ("clause_text", VStr (take 500 section));
               ("risk_level", VStr risk_level);
               ("lock_in_mechanism", VStr lock_in_type);
               ("keyword_matches", VInt (Z.of_nat matches)) ] ])%list,
         clause_id)
      else st.

(** Body of the loop over [self.clause_categories.items()]. *)
Definition category_loop (vendor_name file_name : string) (sections : list string)
    (st : list pydict * nat) (item : string * category_config)
    : list pydict * nat :=
  fold_left (section_step vendor_name file_name (fst item) (snd item)) sections st.

(** [ContractAnalyzer.find_clauses] *)
Definition find_clauses (text vendor_name file_name : string) : list pydict :=
  let sections := _split_into_sections text in
  fst (fold_left (category_loop vendor_name file_name sections)
         CLAUSE_CATEGORIES ([], 0)).

(** [ContractAnalyzer.analyze_contract_file], after the file has been read:
    [text] is what [extract_text_from_html] returned (the empty string when
    the file could not be read), [vendor_name] and [file_name] are derived
    from the path. *)
Definition analyze_contract_file (text vendor_name file_name : string)
    : list pydict :=
  if String.eqb text "" || (String.length text <? 1000) then []
  else find_clauses text vendor_name file_name.

(** [RiskAssessmentEngine.assess_contract_file]; [file_stem] is
    [Path(file_path).stem]. *)
Definition assess_contract_file
    (file_path file_stem file_name vendor_name text : string) : Scoring.report :=
  let clauses := analyze_contract_file text vendor_name file_name in
  match clauses with
  | [] =>
      [ ("error", Scoring.Scalar (VStr "No clauses could be extracted from contract"));
        ("file_path", Scoring.Scalar (VStr file_path));
        ("vendor_name", Scoring.Scalar (VStr file_stem)) ]
  | first :: _ =>
      let assessment := Scoring.score_contract clauses in
      let assessment :=
        dict_set "vendor_name"
          (Scoring.Scalar (dict_get_default "vendor_name" VNone first)) assessment in
      let assessment :=
        dict_set "contract_file" (Scoring.Scalar (VStr file_name)) assessment in
      let assessment :=
        dict_set "total_clauses"
          (Scoring.Scalar (VInt (len clauses))) assessment in
      dict_set "clauses" (Scoring.ListOfDicts clauses) assessment
  end.

End Analyzer.

(** ** interactive_assessment.py *)

Module Interactive.

Import Py.

(** A Python [float] as returned by [float(s)]. *)
Inductive pyfloat : Type :=
| FNan
| FInf (negative : bool)
| FFinite (q : Q).

(** [x < bound] for a finite [bound]; every comparison with NaN is false. *)
Definition float_lt (x : pyfloat) (bound : Q) : bool :=
  match x with
  | FNan => false
  | FInf negative => negative
  | FFinite q => negb (Qle_bool bound q)
  end.

(** [answer in options] *)
Definition among (answer : string) (options : list string) : bool :=
  existsb (String.eqb answer) options.

(** [category_scores[category] += points] *)
Definition add_points (category : string) (points : Z) (scores : dict Z) : dict Z :=
  dict_set category (dict_get_default category 0%Z scores + points)%Z scores.

(** The tier chain at the end of [calculate_risk_from_responses]. *)
Definition questionnaire_risk_level (total_score : Q) : string :=
  if Qle_bool total_score 33 then "LOW"
  else if Qle_bool total_score 66 then "MEDIUM"
  else "HIGH".

(** The table [max_points] of [calculate_risk_from_responses]. *)
Definition max_points : dict Z :=
  [ ("data_portability", 15%Z);
    ("pricing_terms", 25%Z);
    ("support_obligations", 15%Z);
    ("termination_exit", 20%Z);
    ("service_level", 25%Z) ].

Section Questionnaire.

(** The built-ins [int(s)] and [float(s)]; [None] when they raise. *)
Variable py_int : string -> option Z.
Variable py_float : string -> option pyfloat.

Variable responses : dict string.

(** [self.responses.get(key, '').lower()] *)
Definition answer (key : string) : string :=
  PyStr.lower (dict_get_default key "" responses).

Definition when (b : bool) (f : dict Z -> dict Z) (scores : dict Z) : dict Z :=
  if b then f scores else scores.

Definition data_portability_scoring (scores : dict Z) : dict Z :=
  let scores := when (among (answer "data_export") ["no"; "unclear"])
                  (add_points "data_portability" 5) scores in
  let scores := when (among (answer "data_format") ["no"; "unclear"])
                  (add_points "data_portability" 4) scores in
  let scores := when (among (answer "api_access") ["no"; "unclear"])
                  (add_points "data_portability" 3) scores in
  when (among (answer "post_termination_access") ["no"; "unclear"])
    (add_points "data_portability" 3) scores.

Definition pricing_terms_scoring (scores : dict Z) : dict Z :=
  let scores := when (among (answer "price_lock") ["no"; "unclear"])
                  (add_points "pricing_terms" 8) scores in
  if String.eqb (answer "price_increase") "yes" then
    let scores := add_points "pricing_terms" 10 scores in
    let scores := when (among (answer "price_increase_cap") ["no"; "unclear"])
                    (add_points "pricing_terms" 5) scores in
    match py_int (dict_get_default "price_notice" "0" responses) with
    | Some notice_days =>
        when (notice_days <? 30)%Z (add_points "pricing_terms" 2) scores
    | None => scores
    end
  else scores.

Definition support_obligations_scoring (scores : dict Z) : dict Z :=
  let scores := when (among (answer "support_sla") ["no"; "unclear"])
                  (add_points "support_obligations" 6) scores in
  let scores := when (String.eqb (answer "support_hours") "best-effort")
                  (add_points "support_obligations" 5) scores in
  when (String.eqb (answer "feature_changes") "yes")
    (add_points "support_obligations" 4) scores.

Definition termination_exit_scoring (scores : dict Z) : dict Z :=
  let scores := when (among (answer "termination_flexibility") ["no"; "only-for-cause"])
                  (add_points "termination_exit" 8) scores in
  let scores := when (String.eqb (answer "termination_fee") "yes")
                  (add_points "termination_exit" 7) scores in
  if String.eqb (answer "auto_renewal") "yes" then
    match py_int (dict_get_default "renewal_notice" "0" responses) with
    | Some renewal_notice =>
        if (60 <? renewal_notice)%Z then add_points "termination_exit" 5 scores
        else if (30 <? renewal_notice)%Z then add_points "termination_exit" 3 scores
        else scores
    | None => add_points "termination_exit" 4 scores
    end
  else scores.

Definition service_level_scoring (scores : dict Z) : dict Z :=
  let scores :=
    if among (answer "sla_exists") ["no"; "unclear"] then
      add_points "service_level" 15 scores
    else
      let scores :=
        match py_float (dict_get_default "uptime_percentage" "0" responses) with
        | Some uptime =>
            if float_lt uptime 99 then add_points "service_level" 8 scores
            else if float_lt uptime (995 # 10) then add_points "service_level" 5 scores
            else if float_lt uptime (999 # 10) then add_points "service_level" 3 scores
            else scores
        | None => add_points "service_level" 10 scores
        end in
      when (among (answer "sla_credits") ["no"; "unclear"])
        (add_points "service_level" 5) scores in
  when (String.eqb (answer "liability_cap") "yes")
    (add_points "service_level" 5) scores.

(** The category scores after all five scoring blocks. *)
Definition questionnaire_category_scores : dict Z :=
  let category_scores :=
    [ ("data_portability", 0%Z); ("pricing_terms", 0%Z);
      ("support_obligations", 0%Z); ("termination_exit", 0%Z);
      ("service_level", 0%Z) ] in
  service_level_scoring
    (termination_exit_scoring
       (support_obligations_scoring
          (pricing_terms_scoring
             (data_portability_scoring category_scores)))).

(** [sum(category_scores.values())] on integers. *)
Definition questionnaire_total : Z :=
  fold_left Z.add (dict_values questionnaire_category_scores) 0%Z.

Definition opt_str (o : option string) : pyval :=
  match o with
  | Some s => VStr s
  | None => VNone
  end.

(** [InteractiveAssessment.calculate_risk_from_responses]; rounding an
    integer to two decimals leaves it unchanged. *)
Definition calculate_risk_from_responses : Scoring.report :=
  let category_scores := questionnaire_category_scores in
  let total_score := questionnaire_total in
  let risk_level := questionnaire_risk_level (inject_Z total_score) in
  [ ("vendor_name", Scoring.Scalar (opt_str (dict_get "vendor_name" responses)));
    ("total_score", Scoring.Scalar (VInt total_score));
    ("risk_level", Scoring.Scalar (VStr risk_level));
    ("category_scores",
      Scoring.Dict (map (fun kv => (fst kv, VInt (snd kv))) category_scores));
    ("max_points",
      Scoring.Dict (map (fun kv => (fst kv, VInt (snd kv))) max_points));
    ("business_criticality",
      Scoring.Scalar (opt_str (dict_get "business_criticality" responses)));
    ("questionnaire_responses",
      Scoring.Dict (map (fun kv => (fst kv, VStr (snd kv))) responses)) ].

End Questionnaire.

End Interactive.

(** ** Reference definitions

    Values named in the specification, written from its wording, and the
    per-category projections of the scorer's loop. *)

Module Reference.

Import Py Scoring.

Local Open Scope Q_scope.

(** The clauses of one category, in input order. *)
Definition category_clauses (clauses : list pydict) (category : string)
    : list pydict :=
  filter (in_category category) clauses.

(** Whether a clause is tagged [High]. *)
Definition is_high_risk (clause : pydict) : bool :=
  val_eq_str (dict_get_default "risk_level" (VStr "Medium") clause) "High".

(** The mechanism label of a clause ([standard] when it has none). *)
Definition mechanism_of (clause : pydict) : pyval :=
  dict_get_default "lock_in_mechanism" (VStr "standard") clause.

(** Per-clause penalty: the mechanism's multiplier for a high-risk clause
    (0.5 when unmapped), half the multiplier otherwise (0.3 when
    unmapped). *)
Definition clause_penalty (clause : pydict) : Q :=
  if is_high_risk clause
  then multiplier_get (mechanism_of clause) (1 # 2)
  else (1 # 2) * multiplier_get (mechanism_of clause) (3 # 10).

(** Arithmetic mean of a list of numbers. *)
Definition average (xs : list Q) : Q := sum xs / inject_Z (len xs).

(** Average penalty of a list of clauses. *)
Definition average_penalty (cs : list pydict) : Q :=
  average (map clause_penalty cs).

(** The score stored for one category by [calculate_category_score]. *)
Definition category_score (clauses : list pydict) (category : string)
    (max_points : Z) : Q :=
  dict_get_default category 0
    (fst (category_step clauses ([], []) (category, max_points))).

(** The detail record stored for one category. *)
Definition category_detail (clauses : list pydict) (category : string)
    (max_points : Z) : pydict :=
  dict_get_default category []
    (snd (category_step clauses ([], []) (category, max_points))).

(** The three tiers. *)
Definition tiers : list string := ["LOW"; "MEDIUM"; "HIGH"].

(** Whether some pattern of the list occurs in [text]. *)
Definition any_match (text : string) (patterns : list string) : bool :=
  existsb (fun pattern => PyStr.contains pattern text) patterns.

(** [label] is the first mechanism of the table, in its order, with a
    pattern occurring in [text]; it is [standard] when there is none. *)
Definition is_first_match (text : string) (mechanisms : dict (list string))
    (label : string) : Prop :=
  (exists before patterns after,
      mechanisms = (before ++ (label, patterns) :: after)%list
      /\ Forall (fun entry => any_match text (snd entry) = false) before
      /\ any_match text patterns = true)
  \/ (Forall (fun entry => any_match text (snd entry) = false) mechanisms
      /\ label = "standard").

(** The same label, computed by a search for the first matching entry. *)
Definition first_matching_mechanism (text : string)
    (mechanisms : dict (list string)) : string :=
  match find (fun entry => any_match text (snd entry)) mechanisms with
  | Some (mechanism, _) => mechanism
  | None => "standard"
  end.

(** The matcher's test on a (category, section) pair. *)
Definition qualifies (config : Analyzer.category_config) (section : string) : bool :=
  negb (String.length section <? 100)%nat
  && Analyzer.has_required config (PyStr.lower section)
  && (2 <=? Analyzer.keyword_matches config (PyStr.lower section))%nat.

(** What the matcher records in the clause it emits for a qualifying
    (category, section) pair. *)
Definition clause_from (category : string) (config : Analyzer.category_config)
    (section : string) (clause : pydict) : Prop :=
  qualifies config section = true
  /\ dict_get "clause_category" clause = Some (VStr category)
  /\ dict_get "clause_text" clause = Some (VStr (PyStr.take 500 section))
  /\ dict_get "risk_level" clause
     = Some (VStr (if Analyzer.has_negative config (PyStr.lower section)
                   then "High" else "Medium"))
  /\ dict_get "lock_in_mechanism" clause
     = Some (VStr (Analyzer._identify_lock_in_mechanism
                     (PyStr.lower section) category)).

(** No category has a negative number of points. *)
Definition all_nonneg (scores : dict Z) : Prop :=
  Forall (fun entry => (0 <= snd entry)%Z) scores.

End Reference.

(** ** Sample inputs *)

Module Samples.

Import Py.

(** A clause dict with the keys [find_clauses] writes. *)
Definition sample_clause (n : nat) (category risk_level mechanism : string)
    : pydict :=
  [ ("clause_id", VStr ("Acme_" ++ str_of_nat n));
    ("vendor_name", VStr "Acme");
    ("contract_file", VStr "acme_tos.html");
    ("clause_category", VStr category);
    ("clause_text", VStr "(section text)");
    ("risk_level", VStr risk_level);
    ("lock_in_mechanism", VStr mechanism);
    ("keyword_matches", VInt 2) ].

(** Three high-risk exit clauses: penalties 0.5, 0.5 and 0.7. *)
Definition three_exit_clauses : list pydict :=
  [ sample_clause 1 "termination_exit" "High" "exit_fees";
    sample_clause 2 "termination_exit" "High" "exit_fees";
    sample_clause 3 "termination_exit" "High" "automatic_renewal" ].

(** The exit clauses together with one standard medium-risk clause in each
    of the two 25-point categories; data portability and support are not
    covered.  Category scores 3.75, 3.75, 11.33, 7.5 and 7.5. *)
Definition gap_clauses : list pydict :=
  [ sample_clause 1 "pricing_terms" "Medium" "standard";
    sample_clause 2 "termination_exit" "High" "exit_fees";
    sample_clause 3 "termination_exit" "High" "exit_fees";
    sample_clause 4 "termination_exit" "High" "automatic_renewal";
    sample_clause 5 "service_level" "Medium" "standard" ].

(** The configuration of a category in [CLAUSE_CATEGORIES]. *)
Definition config_of (category : string) : Analyzer.category_config :=
  dict_get_default category
    {| Analyzer.keywords := [];
       Analyzer.negative_keywords := [];
       Analyzer.required_phrases := [] |}
    Analyzer.CLAUSE_CATEGORIES.

(** A 129-character paragraph that names two data-portability keywords
    ([data transfer], [data backup]) and none of the category's required
    phrases. *)
Definition backup_section : string :=
  "The customer may request a data transfer at any time, and the vendor keeps a data backup of all customer records for ninety days.".

(** A paragraph on pricing in which three pricing mechanisms have a
    pattern: [increase], [sole discretion] and [auto-renew]. *)
Definition pricing_section : string :=
  "The vendor may increase the subscription fees and pricing at its sole discretion, and the agreement will auto-renew each year.".

(** The clause the matcher builds from the pricing paragraph. *)
Definition pricing_clause : pydict :=
  [ ("clause_id", VStr "Acme_1");
    ("vendor_name", VStr "Acme");
    ("contract_file", VStr "acme_tos.html");
    ("clause_category", VStr "pricing_terms");
    ("clause_text", VStr pricing_section);
    ("risk_level", VStr "High");
    ("lock_in_mechanism", VStr "price_increase_risk");
    ("keyword_matches", VInt 3) ].

(** A line of exactly 100 characters. *)
Definition hundred : string := PyStr.repeat_char "a" 100.

(** A contract text of more than 1000 characters: the pricing paragraph
    followed by a long line without any keyword. *)
Definition pricing_contract : string :=
  pricing_section ++ String PyStr.newline (PyStr.repeat_char "x" 1000).

End Samples.

(** ** Exceptions

    The reporting code reads dictionaries with [d[k]] and
    compares or adds values of any type; a raised exception is a result of
    its own. *)

Module Exn.

Import Py.

Inductive exn : Type :=
| KeyError (key : string)
| TypeError
| AttributeError
| IndexError
| ZeroDivisionError
| OverflowError.

Inductive result (A : Type) : Type :=
| Ok (a : A)
| Raise (e : exn).

Arguments Ok {A} a.
Arguments Raise {A} e.

Definition bind {A B : Type} (c : result A) (k : A -> result B) : result B :=
  match c with
  | Ok a => k a
  | Raise e => Raise e
  end.

Notation "'let*' x ':=' c 'in' k" := (bind c (fun x => k))
  (at level 10, x name, c at level 100, k at level 200).

(** A [for] loop whose body may raise: the state is threaded through the
    elements in order and the first exception ends the loop. *)
Fixpoint for_each {A S : Type} (body : S -> A -> result S) (xs : list A) (s : S)
    : result S :=
  match xs with
  | [] => Ok s
  | x :: rest => let* s' := body s x in for_each body rest s'
  end.

(** [d[k]] *)
Definition getitem {V : Type} (k : string) (d : dict V) : result V :=
  match dict_get k d with
  | Some v => Ok v
  | None => Raise (KeyError k)
  end.

(** The truth value of a scalar, as [if v:] tests it. *)
Definition truthy (v : pyval) : bool :=
  match v with
  | VNone => false
  | VBool b => b
  | VInt z => negb (z =? 0)%Z
  | VFloat q => negb (Qeq_bool q 0)
  | VStr s => negb (String.eqb s "")
  end.

(** The numeric value of a scalar in an order comparison with a number,
    which is exact for an [int] of any size; [None] and strings raise
    [TypeError] there. *)
Definition number (v : pyval) : result Q :=
  match v with
  | VBool b => Ok (if b then 1 else 0)%Q
  | VInt z => Ok (inject_Z z)
  | VFloat q => Ok q
  | VNone | VStr _ => Raise TypeError
  end.

(** A number as arithmetic sees it: an [int], of any size, or a
    [float]. *)
Inductive num : Type :=
| NInt (z : Z)
| NFloat (q : Q).

(** The operand a scalar is in arithmetic; a [bool] is an [int], and [None]
    and strings raise [TypeError]. *)
Definition operand (v : pyval) : result num :=
  match v with
  | VBool b => Ok (NInt (if b then 1 else 0))
  | VInt z => Ok (NInt z)
  | VFloat q => Ok (NFloat q)
  | VNone | VStr _ => Raise TypeError
  end.

(** The least magnitude of an [int] that has no [float]: halfway between
    the largest float and [2 ** 1024]. *)
Definition float_limit : Z := 2 ^ 1024 - 2 ^ 970.

(** [float(z)], as arithmetic with a [float] converts an [int] operand. *)
Definition to_float (z : Z) : result Q :=
  if (Z.abs z <? float_limit)%Z then Ok (inject_Z z)
  else Raise OverflowError.

(** [a + b]: exact on two [int]s; with a [float] on either side the [int]
    is converted first. *)
Definition add (a b : num) : result num :=
  match a, b with
  | NInt x, NInt y => Ok (NInt (x + y))
  | NInt x, NFloat q => let* f := to_float x in Ok (NFloat (f + q))
  | NFloat p, NInt y => let* f := to_float y in Ok (NFloat (p + f))
  | NFloat p, NFloat q => Ok (NFloat (p + q))
  end.

(** [v * f] for a [float] [f]: an [int] is converted first. *)
Definition times_float (v : pyval) (f : Q) : result Q :=
  let* a := operand v in
  match a with
  | NInt z => let* x := to_float z in Ok (x * f)
  | NFloat q => Ok (q * f)
  end.

(** [a / n] for a length [n], which always has a [float]; the quotient of
    two [int]s must have one too. *)
Definition true_divide (a : num) (n : Z) : result Q :=
  if (n =? 0)%Z then Raise ZeroDivisionError
  else match a with
       | NInt x =>
           if (Z.abs x <? float_limit * Z.abs n)%Z
           then Ok (inject_Z x / inject_Z n)
           else Raise OverflowError
       | NFloat q => Ok (q / inject_Z n)
       end.

(** [s.replace(old, new)] for one-character [old] and [new]. *)
Fixpoint replace_char (old new : ascii) (s : string) : string :=
  match s with
  | EmptyString => EmptyString
  | String c s' =>
      String (if Ascii.eqb c old then new else c) (replace_char old new s')
  end.

(** [s.replace("_", " ")] *)
Definition spaced (s : string) : string := replace_char "_" " " s.

End Exn.

(** ** scoring_algorithm.py: critical issues *)

Module Issues.

Import Py Exn Scoring.

Local Open Scope Q_scope.

(** The mechanisms reported clause by clause. *)
Definition high_risk_mechanisms : list string :=
  ["no_compensation"; "unilateral_pricing"; "data_restriction"; "no_sla"].

(** [clause.get('lock_in_mechanism') in high_risk_mechanisms] *)
Definition has_high_risk_mechanism (clause : pydict) : bool :=
  match dict_get "lock_in_mechanism" clause with
  | Some v => existsb (val_eq_str v) high_risk_mechanisms
  | None => false
  end.

(** [clause.get(key)]: [None] when the key is absent. *)
Definition get_or_none (key : string) (clause : pydict) : pyval :=
  dict_get_default key VNone clause.

Section Formatting.

(** The text an f-string puts for a value: the built-in [format(v)]. *)
Variable py_format : pyval -> string.

(** Body of the loop over [category_details.items()]: at most one issue is
    appended for a category. *)
Definition category_issue_step (issues : list pydict)
    (item : string * pydict) : result (list pydict) :=
  let category := fst item in
  let details := snd item in
  if truthy (get_or_none "missing_coverage" details) then
    Ok (issues ++
        [ [ ("category", VStr category);
            ("severity", VStr "HIGH");
            ("issue", VStr ("No " ++ spaced category ++ " clauses found"));
            ("impact", VStr "Critical contractual gap - no protection in this area") ] ])%list
  else
    let* percentage :=
      number (dict_get_default "high_risk_percentage" (VInt 0) details) in
    if Qle_bool 70 percentage then
      let* shown := getitem "high_risk_percentage" details in
      Ok (issues ++
          [ [ ("category", VStr category);
              ("severity", VStr "HIGH");
              ("issue", VStr (py_format shown ++ "% of " ++ spaced category
                              ++ " clauses are high-risk"));
              ("impact", VStr "Significant lock-in risk in this category") ] ])%list
    else
      let* score := getitem "score" details in
      let* max_points := getitem "max_points" details in
      let* bound := times_float max_points (7 # 10) in
      let* points := number score in
      if Qle_bool bound points then
        Ok (issues ++
            [ [ ("category", VStr category);
                ("severity", VStr "MEDIUM");
                ("issue", VStr ("Category scored " ++ py_format score ++ "/"
                                ++ py_format max_points ++ " points"));
                ("impact", VStr "Above-average risk in this area") ] ])%list
      else Ok issues.

(** Body of the loop over [clauses]; a value found in
    [high_risk_mechanisms] is a string. *)
Definition clause_issue_step (issues : list pydict) (clause : pydict)
    : list pydict :=
  if has_high_risk_mechanism clause then
    match get_or_none "lock_in_mechanism" clause with
    | VStr mechanism =>
        (issues ++
         [ [ ("category", get_or_none "clause_category" clause);
             ("severity", VStr "HIGH");
             ("issue", VStr ("Contains " ++ spaced mechanism ++ " clause"));
             ("impact", VStr "Critical lock-in mechanism identified") ] ])%list
    | _ => issues
    end
  else issues.

(** [ContractScorer._identify_critical_issues] *)
Definition _identify_critical_issues (category_details : dict pydict)
    (clauses : list pydict) : result (list pydict) :=
  let* issues := for_each category_issue_step category_details [] in
  Ok (fold_left clause_issue_step clauses issues).

End Formatting.

End Issues.

(** ** risk_assessor.py: comparison of several assessments *)

Module Comparison.

Import Py Exn Scoring.

Local Open Scope Q_scope.

(** [a[key]] as a sort key; a value that is not a scalar cannot be compared
    with a number. *)
Definition number_at (key : string) (a : report) : result Q :=
  let* v := getitem key a in
  match v with
  | Scalar x => number x
  | _ => Raise TypeError
  end.

(** [a[key]] as an operand of [+]; a value that is not a scalar cannot be
    added to a number. *)
Definition operand_at (key : string) (a : report) : result num :=
  let* v := getitem key a in
  match v with
  | Scalar x => operand x
  | _ => Raise TypeError
  end.

(** [sum(a[key] for a in assessments)]: from the [int] 0 on, left to
    right. *)
Definition sum_at (key : string) (assessments : list report) : result num :=
  for_each (fun total a => let* x := operand_at key a in add total x)
    assessments (NInt 0).

(** [a['risk_level'] == level] *)
Definition has_level (level : string) (a : report) : result bool :=
  let* v := getitem "risk_level" a in
  match v with
  | Scalar x => Ok (val_eq_str x level)
  | _ => Ok false
  end.

(** [len([a for a in assessments if a['risk_level'] == level])] *)
Definition count_level (level : string) (assessments : list report) : result Z :=
  for_each (fun n a => let* b := has_level level a in
                       Ok (if b then (n + 1)%Z else n))
    assessments 0%Z.

(** Insertion of [x] into a list ordered by [before], ahead of the first
    element it may precede; elements with equal keys keep their order. *)
Fixpoint insert_by {A : Type} (before : Q -> Q -> bool) (x : Q * A)
    (l : list (Q * A)) : list (Q * A) :=
  match l with
  | [] => [x]
  | y :: l' =>
      if before (fst x) (fst y) then x :: y :: l' else y :: insert_by before x l'
  end.

(** A stable sort of keyed elements. *)
Definition sort_by {A : Type} (before : Q -> Q -> bool) (l : list (Q * A))
    : list (Q * A) :=
  fold_right (insert_by before) [] l.

(** [sorted(assessments, key=lambda x: x['total_score'], reverse=...)]; the
    sort is stable in both directions. *)
Definition sorted_by_total (reverse : bool) (assessments : list report)
    : result (list report) :=
  let* keyed :=
    for_each (fun acc a => let* k := number_at "total_score" a in
                           Ok (acc ++ [(k, a)])%list)
      assessments [] in
  Ok (map snd
        (sort_by (if reverse then fun x y => Qle_bool y x else Qle_bool) keyed)).

(** [assessment.get('category_scores', {}).items()] *)
Definition category_score_items (a : report) : result (list (string * pyobj)) :=
  match dict_get "category_scores" a with
  | None => Ok []
  | Some (Dict d) => Ok (map (fun kv => (fst kv, Scalar (snd kv))) d)
  | Some (DictOfDicts d) => Ok (map (fun kv => (fst kv, Dict (snd kv))) d)
  | Some (Scalar _) | Some (ListOfDicts _) => Raise AttributeError
  end.

(** [category_totals[category].append(score)] on a [defaultdict(list)] *)
Definition append_score (totals : dict (list pyobj)) (item : string * pyobj)
    : dict (list pyobj) :=
  dict_set (fst item) (dict_get_default (fst item) [] totals ++ [snd item])%list
    totals.

(** One step of [sum(scores)]. *)
Definition sum_step (total : num) (score : pyobj) : result num :=
  match score with
  | Scalar x => let* n := operand x in add total n
  | _ => Raise TypeError
  end.

(** [round(sum(scores) / len(scores), 2)] *)
Definition mean_score (scores : list pyobj) : result Q :=
  let* total := for_each sum_step scores (NInt 0) in
  let* mean := true_divide total (len scores) in
  Ok (round mean 2).

(** [RiskAssessmentEngine._calculate_category_averages] *)
Definition _calculate_category_averages (assessments : list report)
    : result (dict Q) :=
  let* category_totals :=
    for_each (fun totals a =>
                let* items := category_score_items a in
                Ok (fold_left append_score items totals))
      assessments [] in
  for_each (fun averages entry =>
              let* m := mean_score (snd entry) in
              Ok (dict_set (fst entry) m averages))
    category_totals [].

(** The dictionary returned for a non-empty list of assessments. *)
Record comparison : Type := {
  total_vendors : Z;
  average_score : Q;
  risk_distribution : dict Z;
  best_vendors : list report;
  worst_vendors : list report;
  category_averages : dict Q
}.

(** The result of [generate_comparison_report]: the empty dictionary, or the
    comparison. *)
Inductive comparison_report : Type :=
| NoComparison
| Compared (c : comparison).

(** [RiskAssessmentEngine.generate_comparison_report] *)
Definition generate_comparison_report (assessments : list report)
    : result comparison_report :=
  match assessments with
  | [] => Ok NoComparison
  | _ :: _ =>
      let valid_assessments :=
        filter (fun a => negb (dict_has "error" a)) assessments in
      let* average :=
        match valid_assessments with
        | [] => Ok 0
        | _ :: _ =>
            let* total := sum_at "total_score" valid_assessments in
            true_divide total (len valid_assessments)
        end in
      let* low := count_level "LOW" valid_assessments in
      let* medium := count_level "MEDIUM" valid_assessments in
      let* high := count_level "HIGH" valid_assessments in
      let* best := sorted_by_total false valid_assessments in
      let* worst := sorted_by_total true valid_assessments in
      let* averages := _calculate_category_averages valid_assessments in
      Ok (Compared
            {| total_vendors := len valid_assessments;
               average_score := average;
               risk_distribution :=
                 [("LOW", low); ("MEDIUM", medium); ("HIGH", high)];
               best_vendors := firstn 5 best;
               worst_vendors := firstn 5 worst;
               category_averages := averages |})
  end.

(** [RiskAssessmentEngine.assess_multiple_contracts], after the files have
    been read: one assessment per contract, in order. *)
Definition assess_multiple_contracts
    (contracts : list (string * string * string * string * string))
    : list report :=
  map (fun c =>
         match c with
         | (file_path, file_stem, file_name, vendor_name, text) =>
             Analyzer.assess_contract_file file_path file_stem file_name
               vendor_name text
         end) contracts.

End Comparison.

(** ** app.py: upload filter and questionnaire endpoint *)

Module App.

Import Py Exn Scoring.

(** [s.rsplit(sep, 1)]: the text cut at the last [sep], or the text alone
    when [sep] does not occur. *)
Fixpoint rsplit1 (sep : ascii) (s : string) : list string :=
  match s with
  | EmptyString => [EmptyString]
  | String c s' =>
      match rsplit1 sep s' with
      | [] => [String c EmptyString]
      | [tail] =>
          if Ascii.eqb c sep then [EmptyString; tail] else [String c tail]
      | head :: rest => String c head :: rest
      end
  end.

(** [xs[i]] *)
Definition index {A : Type} (xs : list A) (i : nat) : result A :=
  match nth_error xs i with
  | Some x => Ok x
  | None => Raise IndexError
  end.

Definition ALLOWED_EXTENSIONS : list string := ["html"; "htm"].

(** [allowed_file]: the second operand of [and] is evaluated only when the
    name has a full stop. *)
Definition allowed_file (filename : string) : result bool :=
  if PyStr.contains "." filename then
    let* extension := index (rsplit1 "." filename) 1 in
    Ok (Interactive.among (PyStr.lower extension) ALLOWED_EXTENSIONS)
  else Ok false.

(** The tier chain of [calculate_risk_from_questionnaire]. *)
Definition questionnaire_tier (total_score : Z) : string :=
  if (total_score <=? 33)%Z then "LOW"
  else if (total_score <=? 66)%Z then "MEDIUM"
  else "HIGH".

Section Endpoint.

Variable py_int : string -> option Z.
Variable py_float : string -> option Interactive.pyfloat.

(** The answers of the request, all of them JSON strings. *)
Variable responses : dict string.

(** Body of the loop that builds [category_details]. *)
Definition detail_step (details : dict pydict) (entry : string * Z)
    : result (dict pydict) :=
  let category := fst entry in
  let score := snd entry in
  let* limit := getitem category Interactive.max_points in
  let percentage :=
    if (0 <? limit)%Z
    then VFloat (round (inject_Z score / inject_Z limit * 100) 1)
    else VInt 0 in
  Ok (dict_set category
        [ ("score", VInt score);
          ("max_points", VInt limit);
          ("percentage", percentage);
          ("clause_count", VInt 0);
          ("high_risk_count", VInt 0);
          ("missing_coverage", VBool false) ]
        details).

(** [calculate_risk_from_questionnaire]; its scoring blocks are, line for
    line, those of [InteractiveAssessment.calculate_risk_from_responses]. *)
Definition calculate_risk_from_questionnaire : result report :=
  let category_scores :=
    Interactive.questionnaire_category_scores py_int py_float responses in
  let total_score := fold_left Z.add (dict_values category_scores) 0%Z in
  let risk_level := questionnaire_tier total_score in
  let* category_details := for_each detail_step category_scores [] in
  Ok [ ("vendor_name",
         Scalar (VStr (dict_get_default "vendor_name" "Unknown Vendor" responses)));
       ("total_score", Scalar (VInt total_score));
       ("risk_level", Scalar (VStr risk_level));
       ("category_scores",
         Dict (map (fun kv => (fst kv, VInt (snd kv))) category_scores));
       ("category_details", DictOfDicts category_details);
       ("total_clauses", Scalar (VInt 0));
       ("questionnaire_responses",
         Dict (map (fun kv => (fst kv, VStr (snd kv))) responses)) ].

End Endpoint.

End App.

(** ** Loop-free descriptions *)

Module Pipeline.

Import Py PyStr Scoring Analyzer Reference.

(** The (category, section) pairs that pass the matcher's test: category by
    category in table order and, within a category, in section order. *)
Definition qualifying_pairs (sections : list string)
    : list (string * category_config * string) :=
  flat_map
    (fun item =>
       map (fun section => (fst item, snd item, section))
         (filter (qualifies (snd item)) sections))
    CLAUSE_CATEGORIES.

(** The clause recorded for the [n]-th qualifying pair. *)
Definition clause_of (vendor_name file_name : string) (n : nat)
    (pair : string * category_config * string) : pydict :=
  let category := fst (fst pair) in
  let config := snd (fst pair) in
  let section := snd pair in
  [ ("clause_id", VStr (vendor_name ++ "_" ++ str_of_nat n));
    ("vendor_name", VStr vendor_name);
    ("contract_file", VStr file_name);
    ("clause_category", VStr category);
    ("clause_text", VStr (take 500 section));
    ("risk_level",
      VStr (if has_negative config (lower section) then "High" else "Medium"));
    ("lock_in_mechanism",
      VStr (_identify_lock_in_mechanism (lower section) category));
    ("keyword_matches", VInt (Z.of_nat (keyword_matches config (lower section)))) ].

(** Clauses numbered from [first] on. *)
Definition numbered_clauses (vendor_name file_name : string) (first : nat)
    (pairs : list (string * category_config * string)) : list pydict :=
  map (fun np => clause_of vendor_name file_name (fst np) (snd np))
    (combine (seq first (List.length pairs)) pairs).

(** The issue reported for a category without clauses. *)
Definition missing_issue (category : string) : pydict :=
  [ ("category", VStr category);
    ("severity", VStr "HIGH");
    ("issue", VStr ("No " ++ Exn.spaced category ++ " clauses found"));
    ("impact", VStr "Critical contractual gap - no protection in this area") ].

(** [s] occurs in [text] as a contiguous span. *)
Definition span_of (text s : string) : Prop :=
  exists before after, text = before ++ s ++ after.

(** A report that carries scores: no [error], a total between 0 and 100 with
    its tier, and one bounded score per category of the weight table. *)
Definition scored (a : report) : Prop :=
  exists (total : Q) (tier : string) (scores : dict Q),
    dict_has "error" a = false
    /\ dict_get "total_score" a = Some (Scalar (VFloat total))
    /\ (0 <= total <= 100)%Q
    /\ dict_get "risk_level" a = Some (Scalar (VStr tier))
    /\ In tier tiers
    /\ dict_get "category_scores" a
       = Some (Dict (map (fun kv => (fst kv, VFloat (snd kv))) scores))
    /\ Forall2 (fun entry weight =>
                  fst entry = fst weight
                  /\ (0 <= snd entry <= inject_Z (snd weight))%Q)
         scores CATEGORY_WEIGHTS.

(** The numeric key the comparison sorts by (0 when there is none). *)
Definition total_of (a : report) : Q :=
  match dict_get "total_score" a with
  | Some (Scalar (VFloat q)) => q
  | Some (Scalar (VInt z)) => inject_Z z
  | _ => 0%Q
  end.

(** The tier of a report (the empty string when there is none). *)
Definition tier_of (a : report) : string :=
  match dict_get "risk_level" a with
  | Some (Scalar (VStr tier)) => tier
  | _ => ""
  end.

(** The assessments that carry no [error]. *)
Definition valid (assessments : list report) : list report :=
  filter (fun a => negb (dict_has "error" a)) assessments.

(** A non-empty list of scores of a category of weight [w]. *)
Definition column (w : Z) (l : list pyobj) : Prop :=
  l <> []
  /\ Forall (fun o => exists q, o = Scalar (VFloat q)
                                /\ (0 <= q <= inject_Z w)%Q) l.

(** One column of scores per category of the weight table. *)
Definition columns (totals : dict (list pyobj)) : Prop :=
  exists l1 l2 l3 l4 l5,
    totals = [ ("service_level", l1); ("pricing_terms", l2);
               ("termination_exit", l3); ("data_portability", l4);
               ("support_obligations", l5) ]
    /\ column 25 l1 /\ column 25 l2 /\ column 20 l3
    /\ column 15 l4 /\ column 15 l5.

(** Each number stands in relation [R] to the next one. *)
Fixpoint chain (R : Q -> Q -> Prop) (qs : list Q) : Prop :=
  match qs with
  | [] => True
  | q :: rest =>
      chain R rest /\ match rest with
                      | [] => True
                      | r :: _ => R q r
                      end
  end.

(** Totals in non-decreasing order. *)
Definition ascending (qs : list Q) : Prop := chain Qle qs.

(** Totals in non-increasing order. *)
Definition descending (qs : list Q) : Prop := chain (fun a b => (b <= a)%Q) qs.

(** A batch of two contracts: one that is assessed and one that is too
    short. *)
Definition two_contracts : list (string * string * string * string * string) :=
  [ ("contracts/acme_tos.html", "acme_tos", "acme_tos.html", "Acme",
      Samples.pricing_contract);
    ("contracts/short_tos.html", "short_tos", "short_tos.html", "Short",
      Samples.pricing_section) ].

End Pipeline.

(** * Properties *)

(** ** Strings *)

Section StringFacts.

Import PyStr.

Lemma prefix_append (p s : string) :
  String.prefix p s = true <-> exists rest, s = p ++ rest.
Proof.
  revert s. induction p as [|c p IH]; intros s.
  - split; [intros _; now exists s | intros _; now destruct s].
  - destruct s as [|d s]; simpl.
    + split; [discriminate | intros [rest H]; discriminate].
    + destruct (ascii_dec c d) as [->|Hne].
      * rewrite IH. split; intros [rest H]; exists rest; congruence.
      * split; [discriminate | intros [rest H]; congruence].
Qed.

Lemma contains_unfold (pat s : string) :
  contains pat s
  = if String.prefix pat s then true
    else match s with
         | EmptyString => false
         | String _ s' => contains pat s'
         end.
Proof. destruct s; reflexivity. Qed.

(** [contains] decides occurrence as a contiguous substring. *)
Lemma contains_spec (pat s : string) :
  contains pat s = true <-> exists before after, s = before ++ pat ++ after.
Proof.
  induction s as [|c s IH]; rewrite contains_unfold.
  - destruct (String.prefix pat "") eqn:E.
    + split; [intros _ | reflexivity].
      apply prefix_append in E as [rest E]. now exists "", rest.
    + split; [discriminate|]. intros (before & after & H).
      destruct before; [|discriminate]. simpl in H.
      assert (String.prefix pat "" = true) by (apply prefix_append; eauto).
      congruence.
  - destruct (String.prefix pat (String c s)) eqn:E.
    + split; [intros _ | reflexivity].
      apply prefix_append in E as [rest E]. now exists "", rest.
    + rewrite IH. split.
      * intros (before & after & ->). now exists (String c before), after.
      * intros (before & after & H). destruct before as [|d before].
        -- simpl in H.
           assert (String.prefix pat (String c s) = true)
             by (apply prefix_append; eauto).
           congruence.
        -- simpl in H. injection H as _ ->. eauto.
Qed.

End StringFacts.

(** ** Dictionaries *)

Section DictFacts.

Import Py.

Context {V : Type}.

Lemma dict_get_set_same (k : string) (v : V) (d : dict V) :
  dict_get k (dict_set k v d) = Some v.
Proof.
  induction d as [|[k' v'] d IH]; simpl.
  - now rewrite String.eqb_refl.
  - destruct (String.eqb k k') eqn:E; simpl; rewrite ?String.eqb_refl, ?E; auto.
Qed.

Lemma dict_get_set_other (k k' : string) (v : V) (d : dict V) :
  k <> k' -> dict_get k (dict_set k' v d) = dict_get k d.
Proof.
  intros Hne.
  assert (Hkk : String.eqb k k' = false) by now apply String.eqb_neq.
  induction d as [|[k0 v0] d IH]; simpl.
  - now rewrite Hkk.
  - destruct (String.eqb k' k0) eqn:E; simpl.
    + apply String.eqb_eq in E; subst k0. now rewrite Hkk.
    + now rewrite IH.
Qed.

Lemma dict_has_set (k k' : string) (v : V) (d : dict V) :
  dict_has k (dict_set k' v d) = String.eqb k k' || dict_has k d.
Proof.
  unfold dict_has.
  destruct (String.eqb k k') eqn:E.
  - apply String.eqb_eq in E; subst. now rewrite dict_get_set_same.
  - apply String.eqb_neq in E. now rewrite dict_get_set_other.
Qed.

(** Setting a key that is not yet present appends the binding. *)
Lemma dict_set_fresh (k : string) (v : V) (d : dict V) :
  ~ In k (dict_keys d) -> dict_set k v d = (d ++ [(k, v)])%list.
Proof.
  induction d as [|[k' v'] d IH]; simpl; intros Hk; auto.
  destruct (String.eqb k k') eqn:E.
  - apply String.eqb_eq in E. subst k'. exfalso. apply Hk. now left.
  - f_equal. apply IH. intros Hin. apply Hk. now right.
Qed.

(** A property of all stored values and of the default holds of whatever
    [get] returns. *)
Lemma dict_get_default_all (P : V -> Prop) (k : string) (default : V) (d : dict V) :
  Forall (fun kv => P (snd kv)) d -> P default -> P (dict_get_default k default d).
Proof.
  unfold dict_get_default.
  induction 1 as [|[k' v'] d Hv _ IH]; simpl; intros Hd; auto.
  destruct (String.eqb k k'); auto.
Qed.

Lemma dict_get_In (k : string) (v : V) (d : dict V) :
  dict_get k d = Some v -> In (k, v) d.
Proof.
  induction d as [|[k' v'] d IH]; simpl; [discriminate|].
  destruct (String.eqb k k') eqn:E.
  - apply String.eqb_eq in E. intros [= ->]. subst. now left.
  - intros H. right. auto.
Qed.

End DictFacts.

(** A loop that stores one value per key of a table with distinct keys builds
    the dictionary of those values, in the table's order. *)
Lemma fold_dict_set_map {W A B : Type} (f : string -> W -> A) (g : string -> W -> B)
    (table : Py.dict W) (da : Py.dict A) (db : Py.dict B) :
  NoDup (Py.dict_keys da ++ Py.dict_keys table) ->
  Py.dict_keys db = Py.dict_keys da ->
  fold_left
    (fun st item =>
       (Py.dict_set (fst item) (f (fst item) (snd item)) (fst st),
        Py.dict_set (fst item) (g (fst item) (snd item)) (snd st)))
    table (da, db)
  = ((da ++ map (fun item => (fst item, f (fst item) (snd item))) table)%list,
     (db ++ map (fun item => (fst item, g (fst item) (snd item))) table)%list).
Proof.
  revert da db.
  induction table as [|[k w] table IH]; intros da db Hnd Hkeys; simpl.
  - now rewrite !app_nil_r.
  - assert (Hk : ~ In k (Py.dict_keys da)).
    { intros Hin. apply NoDup_remove_2 in Hnd. apply Hnd.
      apply in_or_app. now left. }
    rewrite (dict_set_fresh k _ da) by exact Hk.
    rewrite (dict_set_fresh k _ db) by (now rewrite Hkeys).
    rewrite IH.
    + now rewrite <- !app_assoc.
    + unfold Py.dict_keys in *. rewrite map_app. simpl.
      rewrite <- app_assoc. simpl. exact Hnd.
    + unfold Py.dict_keys in *. rewrite !map_app. now rewrite Hkeys.
Qed.

(** Loops with pointwise equal bodies compute the same state. *)
Lemma fold_left_pointwise {A B : Type} (f g : A -> B -> A) :
  (forall a b, f a b = g a b) ->
  forall (l : list B) (a : A), fold_left f l a = fold_left g l a.
Proof.
  intros E l. induction l as [|b l IH]; intros a; simpl; auto.
  now rewrite E, IH.
Qed.

(** ** Rounding *)

Section RoundFacts.

Import Py.

Local Open Scope Q_scope.

Lemma round_half_even_comp (q q' : Q) :
  q == q' -> round_half_even q = round_half_even q'.
Proof.
  intros E. unfold round_half_even.
  rewrite (Qfloor_comp _ _ E).
  assert (E' : q - inject_Z (Qfloor q') == q' - inject_Z (Qfloor q'))
    by now rewrite E.
  now rewrite (Qcompare_comp _ _ E' _ _ (Qeq_refl (1 # 2))).
Qed.

(** The result is the floor, or the floor plus one when the fractional part
    is at least one half. *)
Lemma round_half_even_cases (q : Q) :
  (round_half_even q = Qfloor q /\ q - inject_Z (Qfloor q) <= 1 # 2)
  \/ (round_half_even q = (Qfloor q + 1)%Z /\ 1 # 2 <= q - inject_Z (Qfloor q)).
Proof.
  unfold round_half_even.
  destruct (q - inject_Z (Qfloor q) ?= 1 # 2) eqn:C.
  - apply Qeq_alt in C.
    destruct (Z.even (Qfloor q)); [left | right]; split; auto;
      rewrite C; apply Qle_refl.
  - apply Qlt_alt in C. left. split; auto. now apply Qlt_le_weak.
  - apply Qgt_alt in C. right. split; auto. now apply Qlt_le_weak.
Qed.

Lemma round_half_even_lower (q : Q) (k : Z) :
  inject_Z k <= q -> (k <= round_half_even q)%Z.
Proof.
  intros H.
  assert (Hf : (k <= Qfloor q)%Z).
  { rewrite <- (Qfloor_Z k). now apply Qfloor_resp_le. }
  destruct (round_half_even_cases q) as [[-> _]|[-> _]]; lia.
Qed.

Lemma round_half_even_upper (q : Q) (k : Z) :
  q <= inject_Z k -> (round_half_even q <= k)%Z.
Proof.
  intros H.
  assert (Hf : (Qfloor q <= k)%Z).
  { rewrite <- (Qfloor_Z k). now apply Qfloor_resp_le. }
  destruct (round_half_even_cases q) as [[-> _]|[-> Hhalf]]; [lia|].
  assert (Hlt : inject_Z (Qfloor q) < inject_Z k).
  { apply Qlt_le_trans with (y := q); [|exact H].
    apply Qlt_le_trans with (y := inject_Z (Qfloor q) + (1 # 2)); lra. }
  rewrite <- Zlt_Qlt in Hlt. lia.
Qed.

(** Rounding to the nearest integer moves a number by at most one half. *)
Lemma round_half_even_close (q : Q) :
  q - (1 # 2) <= inject_Z (round_half_even q) <= q + (1 # 2).
Proof.
  pose proof (Qfloor_le q) as Hlo.
  pose proof (Qlt_floor q) as Hhi.
  rewrite inject_Z_plus in Hhi.
  destruct (round_half_even_cases q) as [[-> H]|[-> H]];
    rewrite ?inject_Z_plus; change (inject_Z 1) with 1 in *;
    set (f := inject_Z (Qfloor q)) in *; split; lra.
Qed.

Lemma scale_pos (ndigits : nat) : 0 < scale ndigits.
Proof.
  unfold scale. change 0 with (inject_Z 0). rewrite <- Zlt_Qlt.
  apply Z.pow_pos_nonneg; lia.
Qed.

Lemma round_unfold (q : Q) (ndigits : nat) :
  round q ndigits = inject_Z (round_half_even (q * scale ndigits)) / scale ndigits.
Proof. reflexivity. Qed.

(** Equal rationals round to the same representation. *)
Lemma round_comp (q q' : Q) (ndigits : nat) :
  q == q' -> round q ndigits = round q' ndigits.
Proof.
  intros E. rewrite !round_unfold.
  rewrite (round_half_even_comp (q * scale ndigits) (q' * scale ndigits));
    [reflexivity | now rewrite E].
Qed.

Lemma round_lower (q : Q) (k : Z) (ndigits : nat) :
  inject_Z k <= q -> inject_Z k <= round q ndigits.
Proof.
  intros H. rewrite round_unfold.
  pose proof (scale_pos ndigits) as Hs.
  apply Qle_shift_div_l; [exact Hs|].
  unfold scale at 1. rewrite <- inject_Z_mult, <- Zle_Qle.
  apply round_half_even_lower.
  rewrite inject_Z_mult. fold (scale ndigits).
  apply Qmult_le_compat_r; [exact H | now apply Qlt_le_weak].
Qed.

Lemma round_upper (q : Q) (k : Z) (ndigits : nat) :
  q <= inject_Z k -> round q ndigits <= inject_Z k.
Proof.
  intros H. rewrite round_unfold.
  pose proof (scale_pos ndigits) as Hs.
  apply Qle_shift_div_r; [exact Hs|].
  unfold scale at 2. rewrite <- inject_Z_mult, <- Zle_Qle.
  apply round_half_even_upper.
  rewrite inject_Z_mult. fold (scale ndigits).
  apply Qmult_le_compat_r; [exact H | now apply Qlt_le_weak].
Qed.

(** Rounding to two decimals moves a number by at most half a hundredth. *)
Lemma round2_close (q : Q) :
  q - (1 # 200) <= round q 2 <= q + (1 # 200).
Proof.
  rewrite round_unfold.
  change (scale 2) with (inject_Z 100).
  pose proof (round_half_even_close (q * inject_Z 100)) as [Hlo Hhi].
  set (r := inject_Z (round_half_even (q * inject_Z 100))) in *.
  assert (E : r / inject_Z 100 == r * (1 # 100)) by (unfold Qdiv; reflexivity).
  rewrite E. change (inject_Z 100) with (100 # 1) in *. split; lra.
Qed.

End RoundFacts.

Section ScoringFacts.

Import Py Scoring Reference.

Local Open Scope Q_scope.

Lemma fold_left_Qplus_shift (xs : list Q) (a : Q) :
  fold_left Qplus xs a == a + sum xs.
Proof.
  unfold sum. revert a.
  induction xs as [|x xs IH]; intros a; simpl.
  - lra.
  - rewrite (IH (a + x)), (IH (0 + x)). lra.
Qed.

Lemma sum_cons (x : Q) (xs : list Q) : sum (x :: xs) == x + sum xs.
Proof. unfold sum at 1. simpl. rewrite fold_left_Qplus_shift. lra. Qed.

(** The accumulator loop adds up the per-clause penalties and counts the
    high-risk clauses. *)
Lemma penalty_loop (cs : list pydict) (total_penalty : Q) (high_risk_count : Z) :
  fst (fold_left penalty_step cs (total_penalty, high_risk_count))
    == total_penalty + sum (map clause_penalty cs)
  /\ snd (fold_left penalty_step cs (total_penalty, high_risk_count))
     = (high_risk_count + len (filter is_high_risk cs))%Z.
Proof.
  revert total_penalty high_risk_count.
  induction cs as [|c cs IH]; intros t h.
  - simpl. split; [unfold sum; simpl; lra | unfold len; simpl; lia].
  - cbn [fold_left map filter].
    unfold penalty_step at 2 4. unfold clause_penalty at 1.
    fold (is_high_risk c). fold (mechanism_of c).
    destruct (is_high_risk c).
    + destruct (IH (t + multiplier_get (mechanism_of c) (1 # 2)) (h + 1)%Z)
        as [H1 H2].
      split.
      * rewrite H1, sum_cons. lra.
      * rewrite H2. unfold len. simpl. lia.
    + destruct (IH (t + multiplier_get (mechanism_of c) (3 # 10) * (1 # 2)) h)
        as [H1 H2].
      split.
      * rewrite H1, sum_cons. lra.
      * exact H2.
Qed.

Lemma multiplier_get_bounds (v : pyval) (default : Q) :
  0 <= default <= 1 -> 0 <= multiplier_get v default <= 1.
Proof.
  intros Hd. destruct v; simpl; auto.
  apply (dict_get_default_all (fun q => 0 <= q <= 1)); [|exact Hd].
  unfold LOCK_IN_MULTIPLIERS.
  repeat (constructor; [simpl; split; unfold Qle; simpl; lia|]).
  constructor.
Qed.

Lemma clause_penalty_bounds (c : pydict) : 0 <= clause_penalty c <= 1.
Proof.
  unfold clause_penalty.
  destruct (is_high_risk c).
  - apply multiplier_get_bounds. lra.
  - assert (H : 0 <= multiplier_get (mechanism_of c) (3 # 10) <= 1)
      by (apply multiplier_get_bounds; lra).
    lra.
Qed.

Lemma sum_penalty_bounds (cs : list pydict) :
  0 <= sum (map clause_penalty cs) <= inject_Z (len cs).
Proof.
  induction cs as [|c cs IH].
  - unfold sum, len. simpl. change (inject_Z 0) with 0. lra.
  - cbn [map]. rewrite sum_cons.
    pose proof (clause_penalty_bounds c).
    assert (E : inject_Z (len (c :: cs)) == 1 + inject_Z (len cs)).
    { unfold len. cbn [List.length]. rewrite Nat2Z.inj_succ, <- Z.add_1_l.
      rewrite inject_Z_plus. reflexivity. }
    rewrite E. lra.
Qed.

Lemma len_pos {A : Type} (xs : list A) : xs <> [] -> 0 < inject_Z (len xs).
Proof.
  intros H. destruct xs as [|x xs]; [congruence|].
  change 0 with (inject_Z 0). rewrite <- Zlt_Qlt. unfold len. simpl. lia.
Qed.

Lemma average_penalty_bounds (cs : list pydict) :
  cs <> [] -> 0 <= average_penalty cs <= 1.
Proof.
  intros H. unfold average_penalty, average.
  pose proof (sum_penalty_bounds cs) as [Hlo Hhi].
  assert (Hlen : len (map clause_penalty cs) = len cs)
    by (unfold len; now rewrite length_map).
  rewrite Hlen.
  pose proof (len_pos cs H) as Hpos.
  split.
  - apply Qle_shift_div_l; [exact Hpos | lra].
  - apply Qle_shift_div_r; [exact Hpos | lra].
Qed.

End ScoringFacts.

Section CategoryScores.

Import Py Scoring Reference.

Local Open Scope Q_scope.

Variable clauses : list pydict.

(** One pass of the category loop stores the category's score and detail
    record under the category's name. *)
Lemma category_step_stores (st : dict Q * dict pydict) (item : string * Z) :
  category_step clauses st item
  = (dict_set (fst item) (category_score clauses (fst item) (snd item)) (fst st),
     dict_set (fst item) (category_detail clauses (fst item) (snd item)) (snd st)).
Proof.
  destruct st as [scores details], item as [category max_points].
  unfold category_score, category_detail, category_step, dict_get_default.
  cbn [fst snd].
  destruct (filter (in_category category) clauses) as [|c cs].
  - cbn. now rewrite !String.eqb_refl.
  - destruct (fold_left penalty_step (c :: cs) (0, 0%Z)) as [t h].
    cbn. now rewrite !String.eqb_refl.
Qed.

Lemma category_weights_nodup : NoDup (dict_keys CATEGORY_WEIGHTS).
Proof.
  unfold CATEGORY_WEIGHTS, dict_keys. simpl.
  repeat (constructor; [simpl; intuition discriminate|]).
  constructor.
Qed.

(** The two dictionaries returned by [calculate_category_score] hold one
    entry per category, in the order of the weight table. *)
Lemma calculate_category_score_entries :
  calculate_category_score clauses
  = (map (fun item => (fst item, category_score clauses (fst item) (snd item)))
       CATEGORY_WEIGHTS,
     map (fun item => (fst item, category_detail clauses (fst item) (snd item)))
       CATEGORY_WEIGHTS).
Proof.
  unfold calculate_category_score.
  rewrite (fold_left_pointwise _ _ category_step_stores).
  rewrite (fold_dict_set_map
             (fun c w => category_score clauses c w)
             (fun c w => category_detail clauses c w)).
  - reflexivity.
  - exact category_weights_nodup.
  - reflexivity.
Qed.

Variable category : string.
Variable max_points : Z.

Lemma category_score_missing :
  category_clauses clauses category = [] ->
  category_score clauses category max_points = inject_Z max_points * (1 # 2).
Proof.
  unfold category_clauses, category_score, category_step, dict_get_default.
  intros ->. cbn. now rewrite String.eqb_refl.
Qed.

Lemma category_score_present :
  category_clauses clauses category <> [] ->
  category_score clauses category max_points
  = round (inject_Z max_points
           * (fst (fold_left penalty_step (category_clauses clauses category) (0, 0%Z))
              / inject_Z (len (category_clauses clauses category)))) 2.
Proof.
  unfold category_clauses, category_score, category_step, dict_get_default.
  destruct (filter (in_category category) clauses) as [|c cs]; [congruence|].
  intros _.
  destruct (fold_left penalty_step (c :: cs) (0, 0%Z)) as [t h].
  cbn. now rewrite String.eqb_refl.
Qed.

Lemma category_detail_missing :
  category_clauses clauses category = [] ->
  category_detail clauses category max_points
  = [ ("score", VFloat (inject_Z max_points * (1 # 2)));
      ("max_points", VInt max_points);
      ("clause_count", VInt 0);
      ("high_risk_count", VInt 0);
      ("missing_coverage", VBool true);
      ("penalty_reason", VStr "No clauses found in this category") ].
Proof.
  unfold category_clauses, category_detail, category_step, dict_get_default.
  intros ->. cbn. now rewrite String.eqb_refl.
Qed.

Lemma category_detail_present :
  category_clauses clauses category <> [] ->
  exists high_risk_count : Z,
    category_detail clauses category max_points
    = [ ("score", VFloat (category_score clauses category max_points));
        ("max_points", VInt max_points);
        ("clause_count", VInt (len (category_clauses clauses category)));
        ("high_risk_count", VInt high_risk_count);
        ("high_risk_percentage",
          VFloat (round (inject_Z high_risk_count
                         / inject_Z (len (category_clauses clauses category))
                         * 100) 1));
        ("missing_coverage", VBool false) ].
Proof.
  intros H. rewrite (category_score_present H). revert H.
  unfold category_clauses, category_detail, category_step, dict_get_default.
  destruct (filter (in_category category) clauses) as [|c cs]; [congruence|].
  intros _.
  destruct (fold_left penalty_step (c :: cs) (0, 0%Z)) as [t h].
  exists h. cbn. now rewrite String.eqb_refl.
Qed.

(** With at least one clause the score is the rounded product of the
    weight and the average penalty. *)
Lemma category_score_average :
  category_clauses clauses category <> [] ->
  category_score clauses category max_points
  = round (inject_Z max_points
           * average_penalty (category_clauses clauses category)) 2.
Proof.
  intros H. rewrite (category_score_present H).
  apply round_comp.
  destruct (penalty_loop (category_clauses clauses category) 0 0%Z) as [E _].
  unfold average_penalty, average.
  assert (Hlen : len (map clause_penalty (category_clauses clauses category))
                 = len (category_clauses clauses category))
    by (unfold len; now rewrite length_map).
  rewrite Hlen, E.
  pose proof (len_pos _ H) as Hpos.
  field. intros Hz. rewrite Hz in Hpos. now apply Qlt_irrefl in Hpos.
Qed.

Lemma category_score_bounds :
  (0 <= max_points)%Z ->
  0 <= category_score clauses category max_points <= inject_Z max_points.
Proof.
  intros Hw.
  assert (Hq : 0 <= inject_Z max_points)
    by (change 0 with (inject_Z 0); now rewrite <- Zle_Qle).
  destruct (category_clauses clauses category) as [|c cs] eqn:E.
  - rewrite (category_score_missing E). lra.
  - assert (Hne : category_clauses clauses category <> []) by (rewrite E; discriminate).
    rewrite (category_score_average Hne).
    pose proof (average_penalty_bounds _ Hne) as [Hlo Hhi].
    set (a := average_penalty (category_clauses clauses category)) in *.
    split.
    + change 0 with (inject_Z 0). apply round_lower. change (inject_Z 0) with 0.
      apply Qmult_le_0_compat; assumption.
    + apply round_upper.
      assert (Hm : a * inject_Z max_points <= 1 * inject_Z max_points)
        by (apply Qmult_le_compat_r; assumption).
      lra.
Qed.

End CategoryScores.

(** ** Claims about the scorer *)

Section ScorerClaims.

Import Py Scoring Reference Samples.

Local Open Scope Q_scope.

Lemma dict_get_map_table {W A : Type} (f : string -> W -> A) (table : dict W)
    (k : string) (w : W) :
  NoDup (dict_keys table) -> In (k, w) table ->
  dict_get k (map (fun item => (fst item, f (fst item) (snd item))) table)
  = Some (f k w).
Proof.
  induction table as [|[k' w'] table IH]; simpl; intros Hnd Hin; [tauto|].
  inversion Hnd as [|? ? Hk Hnd']; subst.
  destruct Hin as [[= -> ->]|Hin].
  - now rewrite String.eqb_refl.
  - destruct (String.eqb_spec k k') as [->|_].
    + exfalso. apply Hk. change k' with (fst (k', w)). now apply in_map.
    + now apply IH.
Qed.

Lemma category_scores_get (clauses : list pydict) (category : string) (max_points : Z) :
  In (category, max_points) CATEGORY_WEIGHTS ->
  dict_get category (fst (calculate_category_score clauses))
  = Some (category_score clauses category max_points).
Proof.
  intros Hin. rewrite calculate_category_score_entries. cbn [fst].
  apply (dict_get_map_table (category_score clauses));
    [exact category_weights_nodup | exact Hin].
Qed.

Lemma category_details_get (clauses : list pydict) (category : string) (max_points : Z) :
  In (category, max_points) CATEGORY_WEIGHTS ->
  dict_get category (snd (calculate_category_score clauses))
  = Some (category_detail clauses category max_points).
Proof.
  intros Hin. rewrite calculate_category_score_entries. cbn [snd].
  apply (dict_get_map_table (category_detail clauses));
    [exact category_weights_nodup | exact Hin].
Qed.

Lemma category_weights_nonneg (category : string) (max_points : Z) :
  In (category, max_points) CATEGORY_WEIGHTS -> (0 <= max_points)%Z.
Proof.
  unfold CATEGORY_WEIGHTS. simpl.
  intros [H|[H|[H|[H|[H|[]]]]]]; inversion H; lia.
Qed.

(** C5 (as amended): for a category with at least one clause, the stored
    score is the category weight times the average per-clause penalty,
    rounded to two decimals: it is a whole number of hundredths, and that
    number is an integer nearest to one hundred times the product.  Which
    neighbour is taken when the product lies exactly halfway between two
    hundredths is left open.  The penalty of a high-risk clause is its
    mechanism's multiplier (0.5 when unmapped); any other clause counts
    half its multiplier (0.3 when unmapped). *)
Theorem C5_score_is_rounded_weighted_average
    (clauses : list pydict) (category : string) (max_points : Z) :
  In (category, max_points) CATEGORY_WEIGHTS ->
  category_clauses clauses category <> [] ->
  exists (score : Q) (hundredths : Z),
    dict_get category (fst (calculate_category_score clauses)) = Some score
    /\ score = inject_Z hundredths / 100
    /\ inject_Z max_points * average_penalty (category_clauses clauses category)
         * 100 - (1 # 2)
       <= inject_Z hundredths
       <= inject_Z max_points * average_penalty (category_clauses clauses category)
          * 100 + (1 # 2).
Proof.
  intros Hin Hne.
  exists (category_score clauses category max_points),
         (round_half_even
            (inject_Z max_points
             * average_penalty (category_clauses clauses category) * scale 2)).
  split; [exact (category_scores_get clauses category max_points Hin)|].
  split.
  - rewrite (category_score_average clauses category max_points Hne).
    reflexivity.
  - exact (round_half_even_close
             (inject_Z max_points
              * average_penalty (category_clauses clauses category) * 100)).
Qed.

Lemma C5_score_is_rounded_weighted_average_witness :
  exists (score : Q) (hundredths : Z),
    dict_get "termination_exit" (fst (calculate_category_score three_exit_clauses))
    = Some score
    /\ score = inject_Z hundredths / 100
    /\ inject_Z 20
         * average_penalty (category_clauses three_exit_clauses "termination_exit")
         * 100 - (1 # 2)
       <= inject_Z hundredths
       <= inject_Z 20
          * average_penalty (category_clauses three_exit_clauses "termination_exit")
          * 100 + (1 # 2).
Proof.
  apply (C5_score_is_rounded_weighted_average three_exit_clauses
           "termination_exit" 20%Z).
  - simpl. auto.
  - vm_compute. discriminate.
Defined.

(** C5 (as stated) fails: three high-risk exit clauses with penalties 0.5,
    0.5 and 0.7 average to 17/30, so 20 points times the average is 34/3,
    while the stored score is 11.33. *)
Lemma C5_unrounded_average_fails :
  dict_get "termination_exit" (fst (calculate_category_score three_exit_clauses))
  = Some (1133 # 100)
  /\ inject_Z 20
     * average_penalty (category_clauses three_exit_clauses "termination_exit")
     == 34 # 3
  /\ ~ (1133 # 100 == 34 # 3).
Proof.
  split; [vm_compute; reflexivity|].
  split; [vm_compute; reflexivity|].
  vm_compute. discriminate.
Qed.

(** C6: a category without clauses scores exactly half its weight and is
    flagged as missing coverage; a category with clauses is not flagged. *)
Theorem C6_missing_coverage_penalty
    (clauses : list pydict) (category : string) (max_points : Z) :
  In (category, max_points) CATEGORY_WEIGHTS ->
  exists (score : Q) (detail : pydict),
    dict_get category (fst (calculate_category_score clauses)) = Some score
    /\ dict_get category (snd (calculate_category_score clauses)) = Some detail
    /\ dict_get "score" detail = Some (VFloat score)
    /\ match category_clauses clauses category with
       | [] =>
           score = inject_Z max_points * (1 # 2)
           /\ dict_get "missing_coverage" detail = Some (VBool true)
       | _ :: _ =>
           dict_get "missing_coverage" detail = Some (VBool false)
       end.
Proof.
  intros Hin.
  exists (category_score clauses category max_points),
         (category_detail clauses category max_points).
  split; [now apply category_scores_get|].
  split; [now apply category_details_get|].
  destruct (category_clauses clauses category) as [|c cs] eqn:E.
  - rewrite (category_detail_missing clauses category max_points E).
    rewrite (category_score_missing clauses category max_points E).
    repeat split; reflexivity.
  - assert (Hne : category_clauses clauses category <> [])
      by (rewrite E; discriminate).
    destruct (category_detail_present clauses category max_points Hne)
      as [h ->].
    split; reflexivity.
Qed.

Lemma C6_missing_coverage_penalty_witness :
  exists (score : Q) (detail : pydict),
    dict_get "service_level" (fst (calculate_category_score three_exit_clauses))
    = Some score
    /\ dict_get "service_level" (snd (calculate_category_score three_exit_clauses))
       = Some detail
    /\ dict_get "score" detail = Some (VFloat score)
    /\ score = inject_Z 25 * (1 # 2)
    /\ dict_get "missing_coverage" detail = Some (VBool true).
Proof.
  destruct (C6_missing_coverage_penalty three_exit_clauses "service_level" 25%Z)
    as (score & detail & H1 & H2 & H3 & H4).
  - simpl. auto.
  - exists score, detail. simpl in H4. tauto.
Defined.

End ScorerClaims.

Section ScorerTotals.

Import Py Scoring Reference Samples.

Local Open Scope Q_scope.

(** C7: each of the five category scores lies between 0 and the category's
    weight, the total is the sum of the category scores up to rounding to
    two decimals, and the total lies between 0 and 100. *)
Theorem C7_scores_within_bounds (clauses : list pydict) :
  let scores := fst (calculate_category_score clauses) in
  let total := fst (calculate_total_score scores) in
  Forall2 (fun entry weight =>
             fst entry = fst weight
             /\ 0 <= snd entry <= inject_Z (snd weight))
    scores CATEGORY_WEIGHTS
  /\ total = round (sum (dict_values scores)) 2
  /\ sum (dict_values scores) - (1 # 200) <= total
     <= sum (dict_values scores) + (1 # 200)
  /\ 0 <= total <= 100.
Proof.
  intros scores total.
  assert (Hscores :
    Forall2 (fun entry weight =>
               fst entry = fst weight
               /\ 0 <= snd entry <= inject_Z (snd weight))
      scores CATEGORY_WEIGHTS).
  { unfold scores. rewrite calculate_category_score_entries. cbn [fst].
    assert (Hall : Forall (fun item => (0 <= snd item)%Z) CATEGORY_WEIGHTS).
    { apply Forall_forall. intros [c w] Hin.
      exact (category_weights_nonneg c w Hin). }
    induction Hall as [|[c w] table Hw _ IH]; simpl; constructor; auto.
    split; [reflexivity|]. now apply category_score_bounds. }
  split; [exact Hscores|].
  split; [reflexivity|].
  split; [apply round2_close|].
  unfold total, calculate_total_score. cbn [fst].
  assert (Hsum : 0 <= sum (dict_values scores) <= inject_Z 100).
  { clear total. revert Hscores. generalize scores. clear scores.
    intros scores H. unfold CATEGORY_WEIGHTS in H.
    repeat match goal with
           | H : Forall2 _ _ (_ :: _) |- _ => inversion H; subst; clear H
           | H : Forall2 _ _ [] |- _ => inversion H; subst; clear H
           | H : _ /\ _ |- _ => destruct H
           end.
    unfold dict_values. cbn [map]. rewrite !sum_cons.
    unfold sum. cbn [fold_left snd] in *.
    change (inject_Z 100) with 100.
    change (inject_Z 25) with 25 in *.
    change (inject_Z 20) with 20 in *.
    change (inject_Z 15) with 15 in *.
    lra. }
  destruct Hsum as [Hlo Hhi].
  split.
  - change 0 with (inject_Z 0). apply round_lower. exact Hlo.
  - change 100 with (inject_Z 100). apply round_upper. exact Hhi.
Qed.

(** C3 (as amended): the detail record of every category carries score,
    max points, clause count, high-risk count and the missing-coverage
    flag; the high-risk percentage is carried exactly when the category has
    at least one clause, and a category without clauses carries a penalty
    reason in its place. *)
Theorem C3_detail_record_keys
    (clauses : list pydict) (category : string) (max_points : Z) :
  In (category, max_points) CATEGORY_WEIGHTS ->
  exists detail : pydict,
    dict_get category (snd (calculate_category_score clauses)) = Some detail
    /\ Forall (fun key => dict_has key detail = true)
         ["score"; "max_points"; "clause_count"; "high_risk_count";
          "missing_coverage"]
    /\ match category_clauses clauses category with
       | [] =>
           dict_has "high_risk_percentage" detail = false
           /\ dict_has "penalty_reason" detail = true
       | _ :: _ =>
           dict_has "high_risk_percentage" detail = true
           /\ dict_has "penalty_reason" detail = false
       end.
Proof.
  intros Hin.
  exists (category_detail clauses category max_points).
  split; [now apply category_details_get|].
  destruct (category_clauses clauses category) as [|c cs] eqn:E.
  - rewrite (category_detail_missing clauses category max_points E).
    split; [repeat constructor | split; reflexivity].
  - assert (Hne : category_clauses clauses category <> [])
      by (rewrite E; discriminate).
    destruct (category_detail_present clauses category max_points Hne)
      as [h ->].
    split; [repeat constructor | split; reflexivity].
Qed.

Lemma C3_detail_record_keys_witness :
  exists detail : pydict,
    dict_get "termination_exit" (snd (calculate_category_score three_exit_clauses))
    = Some detail
    /\ Forall (fun key => dict_has key detail = true)
         ["score"; "max_points"; "clause_count"; "high_risk_count";
          "missing_coverage"]
    /\ dict_has "high_risk_percentage" detail = true
    /\ dict_has "penalty_reason" detail = false.
Proof.
  destruct (C3_detail_record_keys three_exit_clauses "termination_exit" 20%Z)
    as (detail & H1 & H2 & H3).
  - simpl. auto.
  - exists detail. simpl in H3. tauto.
Defined.

(** C3 (as stated) fails: with only exit clauses in the input, the detail
    record of [service_level] has no [high_risk_percentage] entry. *)
Lemma C3_missing_category_has_no_percentage :
  dict_get "service_level" (snd (calculate_category_score three_exit_clauses))
  = Some [ ("score", VFloat (25 # 2));
           ("max_points", VInt 25);
           ("clause_count", VInt 0);
           ("high_risk_count", VInt 0);
           ("missing_coverage", VBool true);
           ("penalty_reason", VStr "No clauses found in this category") ]
  /\ dict_get "high_risk_percentage"
       [ ("score", VFloat (25 # 2));
         ("max_points", VInt 25);
         ("clause_count", VInt 0);
         ("high_risk_count", VInt 0);
         ("missing_coverage", VBool true);
         ("penalty_reason", VStr "No clauses found in this category") ]
     = None.
Proof. split; vm_compute; reflexivity. Qed.

End ScorerTotals.

(** ** Claims about the tier *)

Section TierClaims.

Import Py Scoring Reference Samples.

Local Open Scope Q_scope.

Lemma risk_level_of_chain (t : Q) :
  risk_level_of t
  = if Qle_bool 0 t && Qle_bool t 33 then "LOW"
    else if Qle_bool 34 t && Qle_bool t 66 then "MEDIUM"
    else "HIGH".
Proof. reflexivity. Qed.

Lemma Qle_bool_false (x y : Q) : y < x -> Qle_bool x y = false.
Proof.
  intros H. destruct (Qle_bool x y) eqn:E; auto.
  apply Qle_bool_iff in E. lra.
Qed.

Lemma Qle_bool_true (x y : Q) : x <= y -> Qle_bool x y = true.
Proof. intros H. now apply Qle_bool_iff. Qed.

Lemma risk_level_of_low (t : Q) : 0 <= t <= 33 -> risk_level_of t = "LOW".
Proof.
  intros [H1 H2]. rewrite risk_level_of_chain.
  now rewrite (Qle_bool_true _ _ H1), (Qle_bool_true _ _ H2).
Qed.

Lemma risk_level_of_medium (t : Q) : 34 <= t <= 66 -> risk_level_of t = "MEDIUM".
Proof.
  intros [H1 H2]. rewrite risk_level_of_chain.
  rewrite (Qle_bool_false t 33) by lra.
  rewrite (Qle_bool_true _ _ H1), (Qle_bool_true _ _ H2).
  now rewrite andb_false_r.
Qed.

Lemma risk_level_of_high (t : Q) : 66 < t -> risk_level_of t = "HIGH".
Proof.
  intros H. rewrite risk_level_of_chain.
  rewrite (Qle_bool_false t 33) by lra.
  rewrite (Qle_bool_false t 66) by lra.
  now rewrite !andb_false_r.
Qed.

(** Totals strictly between 33 and 34 fall through both intervals. *)
Lemma risk_level_of_gap (t : Q) : 33 < t < 34 -> risk_level_of t = "HIGH".
Proof.
  intros [H1 H2]. rewrite risk_level_of_chain.
  rewrite (Qle_bool_false t 33) by lra.
  rewrite (Qle_bool_false 34 t) by lra.
  now rewrite andb_false_r.
Qed.

(** The boundary values on which code and specification agree. *)
Lemma risk_level_of_boundaries :
  risk_level_of 33 = "LOW"
  /\ risk_level_of 66 = "MEDIUM"
  /\ risk_level_of (6601 # 100) = "HIGH".
Proof. repeat split; reflexivity. Qed.

(** C1: the tier should be LOW up to 33, MEDIUM from there up to 66 and HIGH
    above, with 33.01 in MEDIUM.  The aggregator departs from this between
    33 and 34: a total of 33.01 is classified HIGH, and so is the total 33.83
    that the scorer computes for [gap_clauses]. *)
Theorem C1_total_33_01_is_classified_high :
  risk_level_of (3301 # 100) = "HIGH"
  /\ calculate_total_score
       [ ("service_level", 25 # 2); ("pricing_terms", 375 # 100);
         ("termination_exit", 10); ("data_portability", 451 # 100);
         ("support_obligations", 225 # 100) ]
     = (3301 # 100, "HIGH")
  /\ dict_get "total_score" (score_contract gap_clauses)
     = Some (Scalar (VFloat (3383 # 100)))
  /\ dict_get "risk_level" (score_contract gap_clauses)
     = Some (Scalar (VStr "HIGH")).
Proof. repeat split; vm_compute; reflexivity. Qed.

End TierClaims.

Section QuestionnaireClaims.

Import Py Scoring Reference Samples Interactive.

Local Open Scope Q_scope.

Lemma questionnaire_risk_level_low (t : Q) :
  t <= 33 -> questionnaire_risk_level t = "LOW".
Proof.
  intros H. unfold questionnaire_risk_level.
  now rewrite (Qle_bool_true _ _ H).
Qed.

Lemma questionnaire_risk_level_medium (t : Q) :
  33 < t <= 66 -> questionnaire_risk_level t = "MEDIUM".
Proof.
  intros [H1 H2]. unfold questionnaire_risk_level.
  rewrite (Qle_bool_false t 33) by lra.
  now rewrite (Qle_bool_true _ _ H2).
Qed.

Lemma questionnaire_risk_level_high (t : Q) :
  66 < t -> questionnaire_risk_level t = "HIGH".
Proof.
  intros H. unfold questionnaire_risk_level.
  rewrite (Qle_bool_false t 33) by lra.
  now rewrite (Qle_bool_false t 66) by lra.
Qed.

(** On whole-number totals, which is all the questionnaire produces, the
    two tier chains agree. *)
Lemma tier_chains_agree_on_integers (z : Z) :
  (0 <= z)%Z ->
  questionnaire_risk_level (inject_Z z) = risk_level_of (inject_Z z).
Proof.
  intros Hz.
  assert (Hq : forall a b : Z, (a <= b)%Z -> inject_Z a <= inject_Z b)
    by (intros a b H; now rewrite <- Zle_Qle).
  assert (Hl : forall a b : Z, (a < b)%Z -> inject_Z a < inject_Z b)
    by (intros a b H; now rewrite <- Zlt_Qlt).
  destruct (Z_le_gt_dec z 33) as [H33|H33].
  - rewrite questionnaire_risk_level_low by (apply (Hq z 33%Z); lia).
    rewrite risk_level_of_low; [reflexivity|].
    split; [apply (Hq 0%Z z) | apply (Hq z 33%Z)]; lia.
  - destruct (Z_le_gt_dec z 66) as [H66|H66].
    + rewrite questionnaire_risk_level_medium
        by (split; [apply (Hl 33%Z z) | apply (Hq z 66%Z)]; lia).
      rewrite risk_level_of_medium; [reflexivity|].
      split; [apply (Hq 34%Z z) | apply (Hq z 66%Z)]; lia.
    + rewrite questionnaire_risk_level_high by (apply (Hl 66%Z z); lia).
      rewrite risk_level_of_high; [reflexivity|].
      apply (Hl 66%Z z); lia.
Qed.


Lemma weight_table_values :
  dict_get "data_portability" max_points = Some 15%Z
  /\ dict_get "pricing_terms" max_points = Some 25%Z
  /\ dict_get "support_obligations" max_points = Some 15%Z
  /\ dict_get "termination_exit" max_points = Some 20%Z
  /\ dict_get "service_level" max_points = Some 25%Z.
Proof. repeat split; reflexivity. Qed.

End QuestionnaireClaims.

(** ** The matcher's loops *)

Section MatcherFacts.

Import Py PyStr Analyzer Reference.

Local Open Scope nat_scope.

(** An invariant kept by every pass of a loop over [l] holds at its end. *)
Lemma fold_left_invariant {A B : Type} (Inv : A -> Prop) (f : A -> B -> A)
    (l : list B) :
  (forall a b, In b l -> Inv a -> Inv (f a b)) ->
  forall a, Inv a -> Inv (fold_left f l a).
Proof.
  induction l as [|b l IH]; simpl; intros Hf a Ha; [exact Ha|].
  apply IH; [intros a' b' Hb'; apply Hf; now right | apply Hf; auto].
Qed.

Variables vendor_name file_name : string.

(** The body of the section loop either leaves the state alone or appends
    one clause built from the pair at hand. *)
Lemma section_step_cases (category : string) (config : category_config)
    (clauses : list pydict) (clause_id : nat) (section : string) :
  (qualifies config section = false
   /\ section_step vendor_name file_name category config (clauses, clause_id) section
      = (clauses, clause_id))
  \/ (exists clause,
        clause_from category config section clause
        /\ dict_get "clause_id" clause
           = Some (VStr (vendor_name ++ "_" ++ str_of_nat (S clause_id)))
        /\ section_step vendor_name file_name category config
             (clauses, clause_id) section
           = ((clauses ++ [clause])%list, S clause_id)).
Proof.
  unfold section_step, qualifies.
  destruct (String.length section <? 100)%nat eqn:L; [left; auto|].
  destruct (has_required config (lower section)) eqn:R; [|left; auto].
  destruct (2 <=? keyword_matches config (lower section))%nat eqn:K;
    [|left; auto].
  right. eexists. split; [|split; [|reflexivity]].
  - unfold clause_from, qualifies. rewrite L, R, K. repeat split.
  - reflexivity.
Qed.

(** C9: a section that contains none of the category's required phrases
    leaves the matcher's state unchanged for that category -- no clause is
    appended and no clause number is used -- whatever its keyword count. *)
Theorem C9_required_phrase_gate (category : string) (config : category_config)
    (st : list pydict * nat) (section : string) :
  has_required config (lower section) = false ->
  section_step vendor_name file_name category config st section = st.
Proof.
  intros H. destruct st as [clauses clause_id].
  unfold section_step. rewrite H. simpl.
  now destruct (String.length section <? 100)%nat.
Qed.

(** Every clause returned by [find_clauses] was built from a category of the
    table and a section of the split that passed the matcher's test. *)
Lemma find_clauses_provenance (text : string) (clause : pydict) :
  In clause (find_clauses text vendor_name file_name) ->
  exists category config section,
    In (category, config) CLAUSE_CATEGORIES
    /\ In section (_split_into_sections text)
    /\ clause_from category config section clause.
Proof.
  unfold find_clauses.
  set (sections := _split_into_sections text).
  set (P := fun c : pydict =>
              exists category config section,
                In (category, config) CLAUSE_CATEGORIES
                /\ In section sections
                /\ clause_from category config section c).
  assert (Hinv : Forall P
            (fst (fold_left (category_loop vendor_name file_name sections)
                    CLAUSE_CATEGORIES ([], 0)))).
  { apply (fold_left_invariant (fun st => Forall P (fst st))); [|constructor].
    intros st [category config] Hcat Hst.
    unfold category_loop. cbn [fst snd].
    apply (fold_left_invariant (fun st => Forall P (fst st))); [|exact Hst].
    intros [clauses clause_id] section Hsec Hcl.
    destruct (section_step_cases category config clauses clause_id section)
      as [[_ ->]|(c & Hc & _ & ->)]; [exact Hcl|].
    cbn [fst] in *. apply Forall_app. split; [exact Hcl|].
    constructor; [|constructor].
    exists category, config, section. auto. }
  intros Hin. rewrite Forall_forall in Hinv. exact (Hinv clause Hin).
Qed.

End MatcherFacts.

Section MatcherClaims.

Import Py PyStr Analyzer Reference Samples.

Local Open Scope nat_scope.

Lemma C9_required_phrase_gate_witness :
  (2 <=? keyword_matches (config_of "data_portability") (lower backup_section)) = true
  /\ section_step "Acme" "acme_tos.html" "data_portability"
       (config_of "data_portability") ([], 0) backup_section
     = ([], 0).
Proof.
  split; [reflexivity|].
  apply C9_required_phrase_gate. vm_compute. reflexivity.
Defined.

Lemma clause_categories_nodup : NoDup (dict_keys CLAUSE_CATEGORIES).
Proof.
  unfold CLAUSE_CATEGORIES, dict_keys. simpl.
  repeat (constructor; [simpl; intuition discriminate|]).
  constructor.
Qed.

(** A table with distinct keys binds each key once. *)
Lemma dict_binding_unique {V : Type} (d : dict V) (k : string) (v v' : V) :
  NoDup (dict_keys d) -> In (k, v) d -> In (k, v') d -> v = v'.
Proof.
  induction d as [|[k0 v0] d IH]; simpl; intros Hnd H1 H2; [tauto|].
  inversion Hnd as [|? ? Hk Hnd']; subst.
  assert (Hfresh : forall w, In (k0, w) d -> False).
  { intros w Hw. apply Hk. change k0 with (fst (k0, w)). now apply in_map. }
  destruct H1 as [E1|H1], H2 as [E2|H2].
  - congruence.
  - injection E1 as -> _. exfalso. eauto.
  - injection E2 as -> _. exfalso. eauto.
  - eauto.
Qed.

(** When no section of the split contains a required phrase of a category,
    the contract yields no clause of that category. *)
Lemma no_required_phrase_no_clause (text vendor_name file_name category : string)
    (config : category_config) (clause : pydict) :
  In (category, config) CLAUSE_CATEGORIES ->
  (forall section, In section (_split_into_sections text) ->
                   has_required config (lower section) = false) ->
  In clause (find_clauses text vendor_name file_name) ->
  dict_get "clause_category" clause <> Some (VStr category).
Proof.
  intros Hcat Hnone Hin Hc.
  destruct (find_clauses_provenance vendor_name file_name text clause Hin)
    as (category' & config' & section & Hcat' & Hsec & Hq & Hcc & _).
  rewrite Hcc in Hc. injection Hc as ->.
  assert (config' = config)
    by (eapply dict_binding_unique; eauto using clause_categories_nodup).
  subst config'.
  unfold qualifies in Hq. rewrite (Hnone section Hsec) in Hq.
  now rewrite andb_false_r in Hq.
Qed.

(** *** Mechanism labelling *)

Lemma scan_patterns_any (text mechanism : string) (patterns : list string) :
  scan_patterns text mechanism patterns
  = if any_match text patterns then Some mechanism else None.
Proof.
  unfold any_match.
  induction patterns as [|p ps IH]; simpl; auto.
  destruct (contains p text); auto.
Qed.

(** The nested loops stop at the first entry with a matching pattern. *)
Lemma scan_mechanisms_first (text : string) (mechanisms : dict (list string)) :
  match scan_mechanisms text mechanisms with
  | Some label =>
      exists before patterns after,
        mechanisms = (before ++ (label, patterns) :: after)%list
        /\ Forall (fun entry => any_match text (snd entry) = false) before
        /\ any_match text patterns = true
  | None => Forall (fun entry => any_match text (snd entry) = false) mechanisms
  end.
Proof.
  induction mechanisms as [|[m ps] rest IH]; simpl; [constructor|].
  rewrite scan_patterns_any.
  destruct (any_match text ps) eqn:E.
  - exists [], ps, rest. repeat split; auto.
  - destruct (scan_mechanisms text rest) as [label|].
    + destruct IH as (before & patterns & after & -> & Hb & Hp).
      exists ((m, ps) :: before), patterns, after.
      repeat split; auto.
    + constructor; auto.
Qed.

Lemma scan_mechanisms_find (text : string) (mechanisms : dict (list string)) :
  scan_mechanisms text mechanisms
  = option_map fst (find (fun entry => any_match text (snd entry)) mechanisms).
Proof.
  induction mechanisms as [|[m ps] rest IH]; simpl; auto.
  rewrite scan_patterns_any.
  destruct (any_match text ps); auto.
Qed.

Lemma identify_is_first_match (text category : string)
    (mechanisms : dict (list string)) :
  dict_get category LOCK_IN_PATTERNS = Some mechanisms ->
  is_first_match text mechanisms (_identify_lock_in_mechanism text category).
Proof.
  intros H. unfold _identify_lock_in_mechanism, is_first_match. rewrite H.
  pose proof (scan_mechanisms_first text mechanisms) as Hscan.
  destruct (scan_mechanisms text mechanisms) as [label|]; [left | right]; auto.
Qed.

(** The label agrees with a search for the first matching table entry. *)
Lemma identify_is_find (text category : string) (mechanisms : dict (list string)) :
  dict_get category LOCK_IN_PATTERNS = Some mechanisms ->
  _identify_lock_in_mechanism text category
  = first_matching_mechanism text mechanisms.
Proof.
  intros H. unfold _identify_lock_in_mechanism, first_matching_mechanism.
  rewrite H, scan_mechanisms_find.
  destruct (find _ mechanisms) as [[m ps]|]; reflexivity.
Qed.

Lemma identify_unknown_category (text category : string) :
  dict_get category LOCK_IN_PATTERNS = None ->
  _identify_lock_in_mechanism text category = "standard".
Proof. intros H. unfold _identify_lock_in_mechanism. now rewrite H. Qed.

(** Every category of the detection rules has a mechanism table. *)
Lemma category_has_patterns (category : string) (config : category_config) :
  In (category, config) CLAUSE_CATEGORIES ->
  exists mechanisms, dict_get category LOCK_IN_PATTERNS = Some mechanisms.
Proof.
  unfold CLAUSE_CATEGORIES. simpl.
  intros [H|[H|[H|[H|[H|[]]]]]]; injection H as <- _; eexists; reflexivity.
Qed.

(** C10: every clause the matcher returns was built from a section of the
    split that passed the test of the clause's category; the clause carries
    the first 500 characters of that section, and its mechanism label is
    the first mechanism of the category's table, in table order, one of
    whose substrings occurs in the lower-cased text of that section, and
    [standard] when no mechanism has such a substring. *)
Theorem C10_label_is_first_matching_mechanism
    (text vendor_name file_name : string) (clause : pydict) :
  In clause (find_clauses text vendor_name file_name) ->
  exists category config section mechanisms label,
    In (category, config) CLAUSE_CATEGORIES
    /\ In section (_split_into_sections text)
    /\ qualifies config section = true
    /\ dict_get "clause_category" clause = Some (VStr category)
    /\ dict_get "clause_text" clause = Some (VStr (take 500 section))
    /\ dict_get category LOCK_IN_PATTERNS = Some mechanisms
    /\ dict_get "lock_in_mechanism" clause = Some (VStr label)
    /\ is_first_match (lower section) mechanisms label.
Proof.
  intros Hin.
  destruct (find_clauses_provenance vendor_name file_name text clause Hin)
    as (category & config & section & Hcat & Hsec & Hq & Hcc & Htext & _ & Hlabel).
  destruct (category_has_patterns category config Hcat) as [mechanisms Hm].
  exists category, config, section, mechanisms,
         (_identify_lock_in_mechanism (lower section) category).
  split; [exact Hcat|]. split; [exact Hsec|]. split; [exact Hq|].
  split; [exact Hcc|]. split; [exact Htext|]. split; [exact Hm|].
  split; [exact Hlabel|].
  now apply identify_is_first_match.
Qed.

End MatcherClaims.

Section SplitterClaims.

Import Py PyStr Analyzer Reference Samples.

Local Open Scope nat_scope.

(** On the pricing paragraph the matcher returns one clause; its label
    [price_increase_risk] is the first of the three mechanisms that
    match. *)
Lemma find_clauses_pricing_section :
  find_clauses pricing_section "Acme" "acme_tos.html" = [pricing_clause].
Proof. vm_compute. reflexivity. Qed.

Lemma C10_label_is_first_matching_mechanism_witness :
  In pricing_clause (find_clauses pricing_section "Acme" "acme_tos.html")
  /\ exists category config section mechanisms label,
       In (category, config) CLAUSE_CATEGORIES
       /\ In section (_split_into_sections pricing_section)
       /\ qualifies config section = true
       /\ dict_get "clause_category" pricing_clause = Some (VStr category)
       /\ dict_get "clause_text" pricing_clause = Some (VStr (take 500 section))
       /\ dict_get category LOCK_IN_PATTERNS = Some mechanisms
       /\ dict_get "lock_in_mechanism" pricing_clause = Some (VStr label)
       /\ is_first_match (lower section) mechanisms label.
Proof.
  assert (H : In pricing_clause
                (find_clauses pricing_section "Acme" "acme_tos.html"))
    by (vm_compute; left; reflexivity).
  split; [exact H|].
  exact (C10_label_is_first_matching_mechanism
           pricing_section "Acme" "acme_tos.html" pricing_clause H).
Defined.

(** *** Section splitting *)

Lemma paragraph_sections_spec (text line : string) :
  In line (paragraph_sections text)
  <-> In line (split_char newline text) /\ 100 < String.length line.
Proof.
  unfold paragraph_sections. rewrite filter_In.
  now rewrite Nat.ltb_lt.
Qed.

Lemma primary_sections_spec (text section : string) :
  In section (primary_sections text)
  <-> exists piece,
        In piece (re_split text)
        /\ section = strip piece
        /\ 100 < String.length section.
Proof.
  unfold primary_sections. rewrite in_map_iff. split.
  - intros (piece & <- & Hin). apply filter_In in Hin as [Hin Hlen].
    exists piece. apply Nat.ltb_lt in Hlen. auto.
  - intros (piece & Hin & -> & Hlen). exists piece. split; [reflexivity|].
    apply filter_In. split; [exact Hin | now apply Nat.ltb_lt].
Qed.

(** The result is the primary split when it has five sections or more, and
    the line split otherwise. *)
Lemma split_into_sections_choice (text : string) :
  (5 <= List.length (primary_sections text)
   /\ _split_into_sections text = primary_sections text)
  \/ (List.length (primary_sections text) < 5
      /\ _split_into_sections text = paragraph_sections text).
Proof.
  unfold _split_into_sections.
  destruct (List.length (primary_sections text) <? 5) eqn:E.
  - right. apply Nat.ltb_lt in E. auto.
  - left. apply Nat.ltb_ge in E. auto.
Qed.

Lemma split_into_sections_long (text section : string) :
  In section (_split_into_sections text) -> 100 < String.length section.
Proof.
  destruct (split_into_sections_choice text) as [[_ ->]|[_ ->]].
  - rewrite primary_sections_spec. intros (piece & _ & _ & H). exact H.
  - rewrite paragraph_sections_spec. tauto.
Qed.

(** C2 (as amended): every section the splitter returns is longer than 100
    characters.  In the primary split a piece is kept exactly when its
    trimmed form is longer than 100; in the fallback a line is kept, as it
    is, exactly when it is longer than 100.  The matcher builds clauses only
    from such sections. *)
Theorem C2_sections_are_longer_than_100 (text : string) :
  Forall (fun section => 100 < String.length section) (_split_into_sections text)
  /\ (forall piece, In piece (re_split text) ->
        (In (strip piece) (primary_sections text)
         <-> 100 < String.length (strip piece)))
  /\ (forall line, In line (split_char newline text) ->
        (In line (paragraph_sections text) <-> 100 < String.length line))
  /\ (forall vendor_name file_name clause,
        In clause (find_clauses text vendor_name file_name) ->
        exists section,
          In section (_split_into_sections text)
          /\ 100 < String.length section
          /\ dict_get "clause_text" clause = Some (VStr (take 500 section))).
Proof.
  split; [|split; [|split]].
  - apply Forall_forall. intros section.
    apply (split_into_sections_long text).
  - intros piece Hin. rewrite primary_sections_spec. split.
    + intros (piece' & _ & -> & H). exact H.
    + intros H. exists piece. auto.
  - intros line Hin. rewrite paragraph_sections_spec. tauto.
  - intros vendor_name file_name clause Hin.
    destruct (find_clauses_provenance vendor_name file_name text clause Hin)
      as (category & config & section & _ & Hsec & _ & _ & Htext & _).
    exists section. split; [exact Hsec|]. split; [|exact Htext].
    now apply (split_into_sections_long text).
Qed.

Lemma C2_sections_are_longer_than_100_witness :
  In pricing_section (_split_into_sections pricing_section)
  /\ 100 < String.length pricing_section
  /\ In pricing_section (paragraph_sections pricing_section)
  /\ exists section,
       In section (_split_into_sections pricing_section)
       /\ 100 < String.length section
       /\ dict_get "clause_text" pricing_clause
          = Some (VStr (take 500 section)).
Proof.
  destruct (C2_sections_are_longer_than_100 pricing_section)
    as (Hall & _ & Hline & Hclause).
  assert (Hin : In pricing_section (_split_into_sections pricing_section))
    by (vm_compute; left; reflexivity).
  rewrite Forall_forall in Hall.
  split; [exact Hin|].
  split; [exact (Hall pricing_section Hin)|].
  split.
  - apply Hline; [vm_compute; left; reflexivity | exact (Hall _ Hin)].
  - apply (Hclause "Acme" "acme_tos.html").
    vm_compute. left. reflexivity.
Defined.

(** C2 (as stated) fails: a text that is one piece of exactly 100
    characters has trimmed length 100, yet the piece is dropped by the
    primary filter and by the fallback filter. *)
Lemma C2_piece_of_length_100_is_dropped :
  re_split hundred = [hundred]
  /\ split_char newline hundred = [hundred]
  /\ String.length (strip hundred) = 100
  /\ primary_sections hundred = []
  /\ paragraph_sections hundred = []
  /\ _split_into_sections hundred = [].
Proof. repeat split; vm_compute; reflexivity. Qed.

End SplitterClaims.

(** ** The assessment result *)

Section AssessmentClaims.

Import Py PyStr Scoring Analyzer Reference Samples.

Local Open Scope nat_scope.

Lemma risk_level_of_tier (t : Q) : In (risk_level_of t) tiers.
Proof.
  rewrite risk_level_of_chain. unfold tiers.
  destruct (Qle_bool 0 t && Qle_bool t 33); [simpl; auto|].
  destruct (Qle_bool 34 t && Qle_bool t 66); simpl; auto.
Qed.

(** The report of [score_contract] starts with the total and the tier. *)
Lemma score_contract_shape (clauses : list pydict) :
  exists total tier scores details,
    score_contract clauses
    = [ ("total_score", Scalar (VFloat total));
        ("risk_level", Scalar (VStr tier));
        ("category_scores", Dict scores);
        ("category_details", DictOfDicts details) ]
    /\ In tier tiers.
Proof.
  unfold score_contract.
  destruct (calculate_category_score clauses) as [scores details].
  unfold calculate_total_score.
  do 4 eexists. split; [reflexivity|]. apply risk_level_of_tier.
Qed.

(** The analyzer returns no clause exactly when the text is empty or
    shorter than 1000 characters, or the matcher finds nothing. *)
Lemma analyze_contract_file_empty (text vendor_name file_name : string) :
  analyze_contract_file text vendor_name file_name = []
  <-> text = ""
      \/ String.length text < 1000
      \/ find_clauses text vendor_name file_name = [].
Proof.
  unfold analyze_contract_file.
  destruct (String.eqb_spec text "") as [->|Hne]; simpl; [tauto|].
  destruct (Nat.ltb_spec (String.length text) 1000) as [Hlt|Hge].
  - tauto.
  - split; [tauto|]. intros [H|[H|H]]; [contradiction | lia | exact H].
Qed.

(** C8: the result of an assessment carries an [error] string, and neither
    total nor tier, exactly when the extracted text is empty or shorter than
    1000 characters or no clause was extracted; otherwise it carries the
    total score and one of the three tiers, and no [error] entry. *)
Theorem C8_error_exactly_without_clauses
    (file_path file_stem file_name vendor_name text : string) :
  let result :=
    assess_contract_file file_path file_stem file_name vendor_name text in
  (dict_has "error" result = true
   <-> text = ""
       \/ String.length text < 1000
       \/ find_clauses text vendor_name file_name = [])
  /\ (dict_has "error" result = true ->
      dict_get "error" result
      = Some (Scalar (VStr "No clauses could be extracted from contract"))
      /\ dict_has "total_score" result = false
      /\ dict_has "risk_level" result = false)
  /\ (dict_has "error" result = false ->
      (exists total, dict_get "total_score" result = Some (Scalar (VFloat total)))
      /\ (exists tier,
            dict_get "risk_level" result = Some (Scalar (VStr tier))
            /\ In tier tiers)).
Proof.
  intros result.
  pose proof (analyze_contract_file_empty text vendor_name file_name) as Hempty.
  unfold result, assess_contract_file.
  destruct (analyze_contract_file text vendor_name file_name) as [|first rest].
  - split; [|split].
    + split; [intros _; now apply Hempty | reflexivity].
    + intros _. repeat split.
    + discriminate.
  - destruct (score_contract_shape (first :: rest))
      as (total & tier & scores & details & -> & Htier).
    split; [|split].
    + split; [discriminate|].
      intros H. apply Hempty in H. discriminate.
    + discriminate.
    + intros _. split; [exists total | exists tier; split; [|exact Htier]];
        reflexivity.
Qed.

Lemma C8_error_exactly_without_clauses_witness :
  dict_has "error"
    (assess_contract_file "contracts/acme_tos.html" "acme_tos" "acme_tos.html"
       "Acme" pricing_contract) = false
  /\ (exists total,
        dict_get "total_score"
          (assess_contract_file "contracts/acme_tos.html" "acme_tos"
             "acme_tos.html" "Acme" pricing_contract)
        = Some (Scalar (VFloat total)))
  /\ dict_has "error"
       (assess_contract_file "contracts/acme_tos.html" "acme_tos" "acme_tos.html"
          "Acme" pricing_section) = true
  /\ dict_has "total_score"
       (assess_contract_file "contracts/acme_tos.html" "acme_tos" "acme_tos.html"
          "Acme" pricing_section) = false.
Proof.
  destruct (C8_error_exactly_without_clauses "contracts/acme_tos.html"
              "acme_tos" "acme_tos.html" "Acme" pricing_contract)
    as (_ & _ & Hok).
  destruct (C8_error_exactly_without_clauses "contracts/acme_tos.html"
              "acme_tos" "acme_tos.html" "Acme" pricing_section)
    as (_ & Herr & _).
  assert (H1 : dict_has "error"
                 (assess_contract_file "contracts/acme_tos.html" "acme_tos"
                    "acme_tos.html" "Acme" pricing_contract) = false)
    by (vm_compute; reflexivity).
  assert (H2 : dict_has "error"
                 (assess_contract_file "contracts/acme_tos.html" "acme_tos"
                    "acme_tos.html" "Acme" pricing_section) = true)
    by (vm_compute; reflexivity).
  split; [exact H1|].
  split; [exact (proj1 (Hok H1))|].
  split; [exact H2|].
  exact (proj1 (proj2 (Herr H2))).
Defined.

End AssessmentClaims.

(** ** The questionnaire's totals *)

Section QuestionnaireTotals.

Import Py Scoring Interactive Reference.

Variable py_int : string -> option Z.
Variable py_float : string -> option pyfloat.
Variable responses : dict string.

Lemma dict_set_all {V : Type} (P : V -> Prop) (k : string) (v : V) (d : dict V) :
  P v -> Forall (fun entry => P (snd entry)) d ->
  Forall (fun entry => P (snd entry)) (dict_set k v d).
Proof.
  intros Hv. induction 1 as [|[k' v'] d Hhd Htl IH]; simpl.
  - repeat constructor. exact Hv.
  - destruct (String.eqb k k'); constructor; simpl; auto.
Qed.

Lemma add_points_nonneg (category : string) (points : Z) (scores : dict Z) :
  (0 <= points)%Z -> all_nonneg scores ->
  all_nonneg (add_points category points scores).
Proof.
  intros Hp Hs. unfold add_points, all_nonneg.
  apply (dict_set_all (fun z => (0 <= z)%Z)); [|exact Hs].
  assert (H : (0 <= dict_get_default category 0 scores)%Z)
    by (apply (dict_get_default_all (fun z => (0 <= z)%Z)); [exact Hs | lia]).
  lia.
Qed.

Lemma when_nonneg (b : bool) (f : dict Z -> dict Z) (scores : dict Z) :
  (forall s, all_nonneg s -> all_nonneg (f s)) ->
  all_nonneg scores -> all_nonneg (when b f scores).
Proof. intros Hf Hs. unfold when. destruct b; auto. Qed.

Ltac nonneg :=
  repeat first
    [ assumption
    | apply when_nonneg; [intros ? ?|]
    | apply add_points_nonneg; [lia|]
    | match goal with
      | |- all_nonneg (if ?b then _ else _) => destruct b
      | |- all_nonneg (match ?o with Some _ => _ | None => _ end) => destruct o
      end ].

Lemma questionnaire_scores_nonneg :
  all_nonneg (questionnaire_category_scores py_int py_float responses).
Proof.
  unfold questionnaire_category_scores.
  assert (H0 : all_nonneg
                 [ ("data_portability", 0%Z); ("pricing_terms", 0%Z);
                   ("support_obligations", 0%Z); ("termination_exit", 0%Z);
                   ("service_level", 0%Z) ])
    by (repeat constructor; simpl; lia).
  revert H0. generalize
    [ ("data_portability", 0%Z); ("pricing_terms", 0%Z);
      ("support_obligations", 0%Z); ("termination_exit", 0%Z);
      ("service_level", 0%Z) ].
  intros s0 H0.
  assert (H1 : all_nonneg (data_portability_scoring responses s0))
    by (unfold data_portability_scoring; nonneg).
  assert (H2 : all_nonneg
                 (pricing_terms_scoring py_int responses
                    (data_portability_scoring responses s0)))
    by (unfold pricing_terms_scoring; nonneg).
  assert (H3 : all_nonneg
                 (support_obligations_scoring responses
                    (pricing_terms_scoring py_int responses
                       (data_portability_scoring responses s0))))
    by (unfold support_obligations_scoring; nonneg).
  assert (H4 : all_nonneg
                 (termination_exit_scoring py_int responses
                    (support_obligations_scoring responses
                       (pricing_terms_scoring py_int responses
                          (data_portability_scoring responses s0)))))
    by (unfold termination_exit_scoring; nonneg).
  unfold service_level_scoring. nonneg.
Qed.

Lemma fold_add_nonneg (zs : list Z) (a : Z) :
  Forall (fun z => (0 <= z)%Z) zs -> (0 <= a)%Z ->
  (0 <= fold_left Z.add zs a)%Z.
Proof.
  intros H. revert a. induction H as [|z zs Hz _ IH]; simpl; intros a Ha; auto.
  apply IH. lia.
Qed.

Lemma questionnaire_total_nonneg :
  (0 <= questionnaire_total py_int py_float responses)%Z.
Proof.
  unfold questionnaire_total. apply fold_add_nonneg; [|lia].
  unfold dict_values. apply Forall_map. exact questionnaire_scores_nonneg.
Qed.

(** On every questionnaire, the tier reported is the one the aggregator's
    chain assigns to the same total. *)
Lemma questionnaire_tier_is_aggregator_tier :
  dict_get "risk_level" (calculate_risk_from_responses py_int py_float responses)
  = Some (Scalar (VStr (risk_level_of
                          (inject_Z (questionnaire_total py_int py_float responses))))).
Proof.
  unfold calculate_risk_from_responses. cbn [dict_get String.eqb Ascii.eqb Bool.eqb].
  now rewrite (tier_chains_agree_on_integers _ questionnaire_total_nonneg).
Qed.

End QuestionnaireTotals.

(** ** Sections as spans of the text *)

Section SpanFacts.

Import Py PyStr Analyzer Reference Pipeline.

Local Open Scope nat_scope.

Lemma append_assoc (a b c : string) : (a ++ b) ++ c = a ++ (b ++ c).
Proof. induction a as [|x a IH]; simpl; [reflexivity | now rewrite IH]. Qed.

Lemma append_empty_r (a : string) : a ++ "" = a.
Proof. induction a as [|x a IH]; simpl; [reflexivity | now rewrite IH]. Qed.

Lemma span_of_refl (s : string) : span_of s s.
Proof. exists "", "". simpl. now rewrite append_empty_r. Qed.

Lemma span_of_trans (a b c : string) : span_of a b -> span_of b c -> span_of a c.
Proof.
  intros (p1 & q1 & ->) (p2 & q2 & ->).
  exists (p1 ++ p2), (q2 ++ q1).
  now rewrite !append_assoc.
Qed.

Lemma span_of_cons (c : ascii) (s p : string) : span_of s p -> span_of (String c s) p.
Proof. intros (a & b & ->). now exists (String c a), b. Qed.

Lemma lstrip_suffix (s : string) : exists dropped, s = dropped ++ lstrip s.
Proof.
  induction s as [|c s [d IH]]; simpl.
  - now exists "".
  - destruct (is_space c).
    + exists (String c d). simpl. now rewrite <- IH.
    + now exists "".
Qed.

Lemma rstrip_prefix (s : string) : exists dropped, s = rstrip s ++ dropped.
Proof.
  induction s as [|c s [d IH]]; simpl.
  - now exists "".
  - destruct (rstrip s) as [|c' t] eqn:E.
    + destruct (is_space c).
      * exists (String c s). reflexivity.
      * exists s. reflexivity.
    + exists d. simpl. now rewrite IH at 1.
Qed.

Lemma strip_span (s : string) : span_of s (strip s).
Proof.
  unfold strip.
  destruct (lstrip_suffix s) as [d1 H1].
  destruct (rstrip_prefix (lstrip s)) as [d2 H2].
  exists d1, d2. now rewrite <- H2.
Qed.

(** Every line of [split_char] is a span of the text. *)
Lemma split_char_span (sep : ascii) (s line : string) :
  In line (split_char sep s) -> span_of s line.
Proof.
  revert line. induction s as [|c s IH]; simpl; intros line Hin.
  - destruct Hin as [<-|[]]. apply span_of_refl.
  - destruct (split_char sep s) as [|h t] eqn:E.
    + destruct Hin as [<-|[]]. exists "", (String c s). reflexivity.
    + assert (Hh : exists rest, s = h ++ rest).
      { clear IH Hin. revert h t E. induction s as [|d s IHs]; simpl; intros h t E.
        - injection E as <- <-. now exists "".
        - destruct (split_char sep s) as [|h' t'] eqn:E'.
          + injection E as <- <-. now exists (String d s).
          + destruct (Ascii.eqb d sep).
            * injection E as <- <-. now exists (String d s).
            * injection E as <- <-.
              destruct (IHs h' t' eq_refl) as [rest ->].
              now exists rest. }
      destruct (Ascii.eqb c sep).
      * destruct Hin as [<-|Hin].
        -- exists "", (String c s). reflexivity.
        -- apply span_of_cons. apply IH. exact Hin.
      * destruct Hin as [<-|Hin].
        -- destruct Hh as [rest ->]. exists "", rest. reflexivity.
        -- apply span_of_cons. apply IH. now right.
Qed.

(** Every piece of the pattern split is a span of the text; the piece under
    construction extends [cur] by a span that starts where the scan is. *)
Lemma re_split_go_span (s : string) :
  forall (skip : nat) (cur piece : string),
    In piece (re_split_go skip cur s) ->
    (exists before mid after,
        piece = cur ++ mid /\ s = before ++ mid ++ after
        /\ (skip = 0 -> before = ""))
    \/ span_of s piece.
Proof.
  induction s as [|c s IH]; intros skip cur piece Hin; simpl in Hin.
  - destruct Hin as [<-|[]]. left. exists "", "", "".
    now rewrite append_empty_r.
  - destruct skip as [|k].
    + destruct (section_marker_match (String c s)) as [n|].
      * destruct Hin as [<-|Hin].
        -- left. exists "", "", (String c s). now rewrite append_empty_r.
        -- right. apply span_of_cons.
           destruct (IH _ _ _ Hin) as [(b & m & a & -> & -> & _)|H]; [|exact H].
           now exists b, a.
      * destruct (IH _ _ _ Hin) as [(b & m & a & -> & -> & Hb)|H].
        -- left. rewrite (Hb eq_refl). exists "", (String c m), a.
           rewrite append_assoc. simpl. auto.
        -- right. now apply span_of_cons.
    + destruct (IH _ _ _ Hin) as [(b & m & a & -> & -> & _)|H].
      * left. exists (String c b), m, a. repeat split. discriminate.
      * right. now apply span_of_cons.
Qed.

Lemma re_split_span (text piece : string) :
  In piece (re_split text) -> span_of text piece.
Proof.
  unfold re_split. intros Hin.
  destruct (re_split_go_span text 0 "" piece Hin)
    as [(b & m & a & -> & -> & _)|H]; [|exact H].
  now exists b, a.
Qed.

End SpanFacts.

Section SplitterShape.

Import Py PyStr Analyzer Reference Pipeline Samples.

Local Open Scope nat_scope.

(** X1: every section the splitter returns occurs in the contract text as a
    contiguous span. *)
Theorem sections_are_spans_of_the_text (text section : string) :
  In section (_split_into_sections text) -> span_of text section.
Proof.
  destruct (split_into_sections_choice text) as [[_ ->]|[_ ->]].
  - rewrite primary_sections_spec. intros (piece & Hin & -> & _).
    apply span_of_trans with (b := piece);
      [now apply re_split_span | apply strip_span].
  - rewrite paragraph_sections_spec. intros [Hin _].
    now apply split_char_span with (sep := newline).
Qed.

Lemma sections_are_spans_of_the_text_witness :
  In pricing_section (_split_into_sections pricing_contract)
  /\ span_of pricing_contract pricing_section.
Proof.
  assert (H : In pricing_section (_split_into_sections pricing_contract))
    by (vm_compute; left; reflexivity).
  split; [exact H|].
  exact (sections_are_spans_of_the_text pricing_contract pricing_section H).
Defined.

Lemma rstrip_idempotent (s : string) : rstrip (rstrip s) = rstrip s.
Proof.
  induction s as [|c s IH]; simpl; [reflexivity|].
  destruct (rstrip s) as [|c' r] eqn:E.
  - destruct (is_space c) eqn:Hc; simpl; [reflexivity|]. now rewrite Hc.
  - simpl in IH. simpl. destruct (rstrip r) as [|c'' r'] eqn:E'.
    + destruct (is_space c'); [discriminate|]. now rewrite IH.
    + now rewrite IH.
Qed.

Lemma lstrip_head (s : string) :
  match lstrip s with
  | EmptyString => True
  | String c _ => is_space c = false
  end.
Proof.
  induction s as [|c s IH]; simpl; [exact I|].
  destruct (is_space c) eqn:Hc; [exact IH | exact Hc].
Qed.

Lemma rstrip_keeps_head (c : ascii) (s : string) :
  is_space c = false -> exists r, rstrip (String c s) = String c r.
Proof.
  intros Hc. simpl. destruct (rstrip s) as [|c' r].
  - rewrite Hc. now exists "".
  - now exists (String c' r).
Qed.

(** Trimming a trimmed string changes nothing. *)
Lemma strip_idempotent (s : string) : strip (strip s) = strip s.
Proof.
  unfold strip. pose proof (lstrip_head s) as Hh.
  destruct (lstrip s) as [|c t]; [reflexivity|].
  destruct (rstrip_keeps_head c t Hh) as [r E]. rewrite E.
  cbn [lstrip]. rewrite Hh. rewrite <- E. apply rstrip_idempotent.
Qed.

Lemma contains_char_cons (sep c : ascii) (s : string) :
  contains (String sep "") (String c s)
  = Ascii.eqb c sep || contains (String sep "") s.
Proof.
  rewrite contains_unfold. simpl.
  destruct (ascii_dec sep c) as [->|Hne].
  - rewrite Ascii.eqb_refl. now destruct s.
  - assert (E : Ascii.eqb c sep = false)
      by (apply Ascii.eqb_neq; congruence).
    now rewrite E.
Qed.

Lemma split_char_lines (sep : ascii) (s line : string) :
  In line (split_char sep s) -> contains (String sep "") line = false.
Proof.
  revert line. induction s as [|c s IH]; simpl; intros line Hin.
  - destruct Hin as [<-|[]]. reflexivity.
  - destruct (split_char sep s) as [|h t] eqn:E.
    + destruct Hin as [<-|[]]. reflexivity.
    + destruct (Ascii.eqb c sep) eqn:Hc.
      * destruct Hin as [<-|Hin]; [reflexivity | now apply IH].
      * destruct Hin as [<-|Hin]; [|apply IH; now right].
        rewrite contains_char_cons, Hc. apply IH. now left.
Qed.

(** X2: the sections of one result are all of one kind.  When the primary
    split yields five sections or more, every section is trimmed (it has no
    leading or trailing whitespace); otherwise every section is a single
    line, without any newline character. *)
Theorem sections_are_trimmed_or_single_lines (text section : string) :
  In section (_split_into_sections text) ->
  if List.length (primary_sections text) <? 5
  then contains (String newline "") section = false
  else strip section = section.
Proof.
  unfold _split_into_sections.
  destruct (List.length (primary_sections text) <? 5).
  - rewrite paragraph_sections_spec. intros [Hin _].
    now apply split_char_lines in Hin.
  - rewrite primary_sections_spec. intros (piece & _ & -> & _).
    apply strip_idempotent.
Qed.

Lemma sections_are_trimmed_or_single_lines_witness :
  In pricing_section (_split_into_sections pricing_contract)
  /\ contains (String newline "") pricing_section = false.
Proof.
  assert (H : In pricing_section (_split_into_sections pricing_contract))
    by (vm_compute; left; reflexivity).
  split; [exact H|].
  exact (sections_are_trimmed_or_single_lines pricing_contract pricing_section H).
Defined.

End SplitterShape.

(** ** The matcher without its loops *)

Section MatcherShape.

Import Py PyStr Scoring Analyzer Reference Pipeline Samples.

Local Open Scope nat_scope.

Variables vendor_name file_name : string.

Lemma numbered_clauses_app (first : nat)
    (ps qs : list (string * category_config * string)) :
  numbered_clauses vendor_name file_name first (ps ++ qs)
  = (numbered_clauses vendor_name file_name first ps
     ++ numbered_clauses vendor_name file_name (first + List.length ps) qs)%list.
Proof.
  unfold numbered_clauses. revert first.
  induction ps as [|p ps IH]; intros first; simpl.
  - now rewrite Nat.add_0_r.
  - f_equal. rewrite IH. now rewrite Nat.add_succ_r.
Qed.

Lemma numbered_clauses_length (first : nat)
    (ps : list (string * category_config * string)) :
  List.length (numbered_clauses vendor_name file_name first ps) = List.length ps.
Proof.
  unfold numbered_clauses.
  now rewrite length_map, length_combine, length_seq, Nat.min_id.
Qed.

(** One pass of the section loop appends the clause of the pair when the
    pair qualifies, numbered after the clauses so far. *)
Lemma section_step_clause (category : string) (config : category_config)
    (clauses : list pydict) (clause_id : nat) (section : string) :
  section_step vendor_name file_name category config (clauses, clause_id) section
  = if qualifies config section
    then ((clauses
           ++ [clause_of vendor_name file_name (S clause_id)
                 (category, config, section)])%list,
          S clause_id)
    else (clauses, clause_id).
Proof.
  unfold section_step, qualifies.
  destruct (String.length section <? 100); [reflexivity|].
  destruct (has_required config (lower section)); [|reflexivity].
  destruct (2 <=? keyword_matches config (lower section)); reflexivity.
Qed.

Lemma section_loop_clauses (category : string) (config : category_config)
    (sections : list string) :
  forall (clauses : list pydict) (clause_id : nat),
    fold_left (section_step vendor_name file_name category config) sections
      (clauses, clause_id)
    = ((clauses
        ++ numbered_clauses vendor_name file_name (S clause_id)
             (map (fun section => (category, config, section))
                (filter (qualifies config) sections)))%list,
       clause_id + List.length (filter (qualifies config) sections)).
Proof.
  induction sections as [|s sections IH]; intros clauses clause_id.
  - simpl. now rewrite app_nil_r, Nat.add_0_r.
  - cbn [fold_left filter]. rewrite section_step_clause.
    destruct (qualifies config s); rewrite IH; [|reflexivity].
    cbn [map List.length]. unfold numbered_clauses at 2.
    cbn [List.length seq combine map fst snd].
    fold (numbered_clauses vendor_name file_name (S (S clause_id))
            (map (fun section => (category, config, section))
               (filter (qualifies config) sections))).
    rewrite <- app_assoc. simpl. now rewrite Nat.add_succ_r.
Qed.

Lemma category_loop_clauses (sections : list string)
    (table : dict category_config) :
  forall (clauses : list pydict) (clause_id : nat),
    fold_left (category_loop vendor_name file_name sections) table
      (clauses, clause_id)
    = ((clauses
        ++ numbered_clauses vendor_name file_name (S clause_id)
             (flat_map
                (fun item =>
                   map (fun section => (fst item, snd item, section))
                     (filter (qualifies (snd item)) sections))
                table))%list,
       clause_id
       + List.length
           (flat_map
              (fun item =>
                 map (fun section => (fst item, snd item, section))
                   (filter (qualifies (snd item)) sections))
              table)).
Proof.
  induction table as [|[category config] table IH]; intros clauses clause_id.
  - simpl. now rewrite app_nil_r, Nat.add_0_r.
  - cbn [fold_left flat_map]. unfold category_loop at 2. cbn [fst snd].
    rewrite section_loop_clauses, IH.
    rewrite numbered_clauses_app, length_app, !length_map.
    rewrite <- app_assoc. rewrite Nat.add_succ_l, Nat.add_assoc. reflexivity.
Qed.

(** The matcher's two nested loops, as one list. *)
Lemma find_clauses_numbered (text : string) :
  find_clauses text vendor_name file_name
  = numbered_clauses vendor_name file_name 1
      (qualifying_pairs (_split_into_sections text)).
Proof.
  unfold find_clauses, qualifying_pairs.
  now rewrite category_loop_clauses.
Qed.

(** X3: [find_clauses] returns one clause per qualifying (category, section)
    pair, categories in table order and sections in split order within a
    category, numbered consecutively from 1. *)
Theorem find_clauses_is_numbered_qualifying_pairs (text : string) :
  find_clauses text vendor_name file_name
  = numbered_clauses vendor_name file_name 1
      (qualifying_pairs (_split_into_sections text)).
Proof. exact (find_clauses_numbered text). Qed.

End MatcherShape.

Section ClauseRecords.

Import Py PyStr Scoring Analyzer Reference Pipeline Samples.

Local Open Scope nat_scope.

Lemma str_of_nat_injective (m n : nat) : str_of_nat m = str_of_nat n -> m = n.
Proof.
  unfold str_of_nat. intros H.
  assert (E : Some (Nat.to_uint m) = Some (Nat.to_uint n))
    by (rewrite <- !NilEmpty.usu; now rewrite H).
  injection E as E.
  rewrite <- (Unsigned.of_to m), <- (Unsigned.of_to n). now rewrite E.
Qed.

Lemma append_cancel_l (p a b : string) : p ++ a = p ++ b -> a = b.
Proof. induction p as [|c p IH]; simpl; [auto | intros [= H]; auto]. Qed.

Lemma numbered_clauses_ids (vendor_name file_name : string) (first : nat)
    (ps : list (string * category_config * string)) :
  map (dict_get "clause_id") (numbered_clauses vendor_name file_name first ps)
  = map (fun n => Some (VStr (vendor_name ++ "_" ++ str_of_nat n)))
      (seq first (List.length ps)).
Proof.
  unfold numbered_clauses. revert first.
  induction ps as [|p ps IH]; intros first; simpl; [reflexivity|].
  f_equal. apply IH.
Qed.

Lemma NoDup_map_injective {A B : Type} (f : A -> B) (l : list A) :
  (forall x y, f x = f y -> x = y) -> NoDup l -> NoDup (map f l).
Proof.
  intros Hf. induction 1 as [|x l Hx Hnd IH]; simpl; constructor; auto.
  rewrite in_map_iff. intros (y & E & Hy). apply Hf in E. now subst.
Qed.

(** X4: the clauses of one contract are numbered [vendor_1], [vendor_2], ...
    in the order they are returned, so no two clauses share an
    identifier. *)
Theorem clause_ids_are_consecutive_and_distinct
    (text vendor_name file_name : string) :
  let clauses := find_clauses text vendor_name file_name in
  map (dict_get "clause_id") clauses
  = map (fun n => Some (VStr (vendor_name ++ "_" ++ str_of_nat n)))
      (seq 1 (List.length clauses))
  /\ NoDup (map (dict_get "clause_id") clauses).
Proof.
  intros clauses.
  assert (E : map (dict_get "clause_id") clauses
              = map (fun n => Some (VStr (vendor_name ++ "_" ++ str_of_nat n)))
                  (seq 1 (List.length clauses))).
  { unfold clauses. rewrite find_clauses_numbered.
    now rewrite numbered_clauses_ids, numbered_clauses_length. }
  split; [exact E|]. rewrite E.
  apply NoDup_map_injective; [|apply seq_NoDup].
  intros m n [= H]. apply append_cancel_l in H. simpl in H.
  injection H as H. now apply str_of_nat_injective.
Qed.

Lemma take_length (n : nat) (s : string) :
  String.length (take n s) = Nat.min n (String.length s).
Proof.
  unfold take. revert s.
  induction n as [|n IH]; intros s; simpl.
  - now destruct s.
  - destruct s as [|c s]; simpl; [reflexivity|]. now rewrite IH.
Qed.

Lemma take_prefix (n : nat) (s : string) : exists rest, s = take n s ++ rest.
Proof.
  unfold take. revert s.
  induction n as [|n IH]; intros s; simpl.
  - destruct s; now eexists.
  - destruct s as [|c s]; simpl; [now exists ""|].
    destruct (IH s) as [rest E]. exists rest. now rewrite <- E.
Qed.

Lemma In_numbered_clauses (vendor_name file_name : string) (first : nat)
    (ps : list (string * category_config * string)) (clause : pydict) :
  In clause (numbered_clauses vendor_name file_name first ps) ->
  exists n pair,
    In pair ps /\ first <= n < first + List.length ps
    /\ clause = clause_of vendor_name file_name n pair.
Proof.
  unfold numbered_clauses. rewrite in_map_iff.
  intros ([n pair] & <- & Hin). exists n, pair.
  split; [now apply in_combine_r in Hin|].
  split; [|reflexivity].
  apply in_combine_l in Hin. apply in_seq in Hin. exact Hin.
Qed.

Lemma In_qualifying_pairs (sections : list string)
    (pair : string * category_config * string) :
  In pair (qualifying_pairs sections) ->
  In (fst pair) CLAUSE_CATEGORIES
  /\ In (snd pair) sections
  /\ qualifies (snd (fst pair)) (snd pair) = true.
Proof.
  unfold qualifying_pairs. rewrite in_flat_map.
  intros ([category config] & Hcat & Hin).
  apply in_map_iff in Hin as (section & <- & Hs).
  apply filter_In in Hs as [Hs Hq]. auto.
Qed.

(** What the matcher stores in a clause. *)
Lemma clause_record_fields
    (text vendor_name file_name : string) (clause : pydict) :
  In clause (find_clauses text vendor_name file_name) ->
  dict_keys clause
  = [ "clause_id"; "vendor_name"; "contract_file"; "clause_category";
      "clause_text"; "risk_level"; "lock_in_mechanism"; "keyword_matches" ]
  /\ dict_get "vendor_name" clause = Some (VStr vendor_name)
  /\ dict_get "contract_file" clause = Some (VStr file_name)
  /\ exists (category risk clause_text : string) (matches : Z) (section : string),
       dict_get "clause_category" clause = Some (VStr category)
       /\ In category (dict_keys CLAUSE_CATEGORIES)
       /\ dict_get "risk_level" clause = Some (VStr risk)
       /\ (risk = "High" \/ risk = "Medium")
       /\ dict_get "keyword_matches" clause = Some (VInt matches)
       /\ (2 <= matches)%Z
       /\ dict_get "clause_text" clause = Some (VStr clause_text)
       /\ In section (_split_into_sections text)
       /\ (exists rest, section = clause_text ++ rest)
       /\ 100 < String.length clause_text <= 500.
Proof.
  rewrite find_clauses_numbered.
  intros Hin.
  apply In_numbered_clauses in Hin as (n & [[category config] section] & Hp & _ & ->).
  apply In_qualifying_pairs in Hp as (Hcat & Hsec & Hq).
  cbn [fst snd] in *.
  split; [reflexivity|]. split; [reflexivity|]. split; [reflexivity|].
  exists category,
         (if has_negative config (lower section) then "High" else "Medium"),
         (take 500 section),
         (Z.of_nat (keyword_matches config (lower section))),
         section.
  unfold qualifies in Hq.
  apply andb_true_iff in Hq as [Hq Hk]. apply andb_true_iff in Hq as [Hl _].
  apply Nat.leb_le in Hk. apply negb_true_iff, Nat.ltb_ge in Hl.
  pose proof (split_into_sections_long text section Hsec) as Hlong.
  repeat split; try reflexivity.
  - change category with (fst (category, config)). now apply in_map.
  - destruct (has_negative config (lower section)); auto.
  - lia.
  - exact Hsec.
  - apply take_prefix.
  - rewrite take_length. lia.
  - rewrite take_length. lia.
Qed.

(** X5: every clause [find_clauses] returns is a complete, well-formed
    record: it has the eight keys, a category of the rule table, the given
    vendor and file names, a risk level of [High] or [Medium], at least two
    keyword matches, and for its text the first 500 characters of a section
    of the split -- between 101 and 500 characters. *)
Theorem clause_records_are_well_formed
    (text vendor_name file_name : string) (clause : pydict) :
  In clause (find_clauses text vendor_name file_name) ->
  dict_keys clause
  = [ "clause_id"; "vendor_name"; "contract_file"; "clause_category";
      "clause_text"; "risk_level"; "lock_in_mechanism"; "keyword_matches" ]
  /\ dict_get "vendor_name" clause = Some (VStr vendor_name)
  /\ dict_get "contract_file" clause = Some (VStr file_name)
  /\ exists (category risk clause_text : string) (matches : Z) (section : string),
       dict_get "clause_category" clause = Some (VStr category)
       /\ In category (dict_keys CLAUSE_CATEGORIES)
       /\ dict_get "risk_level" clause = Some (VStr risk)
       /\ (risk = "High" \/ risk = "Medium")
       /\ dict_get "keyword_matches" clause = Some (VInt matches)
       /\ (2 <= matches)%Z
       /\ dict_get "clause_text" clause = Some (VStr clause_text)
       /\ In section (_split_into_sections text)
       /\ (exists rest, section = clause_text ++ rest)
       /\ 100 < String.length clause_text <= 500.
Proof. exact (clause_record_fields text vendor_name file_name clause). Qed.

Lemma clause_records_are_well_formed_witness :
  In pricing_clause (find_clauses pricing_section "Acme" "acme_tos.html")
  /\ dict_keys pricing_clause
     = [ "clause_id"; "vendor_name"; "contract_file"; "clause_category";
         "clause_text"; "risk_level"; "lock_in_mechanism"; "keyword_matches" ].
Proof.
  assert (H : In pricing_clause
                (find_clauses pricing_section "Acme" "acme_tos.html"))
    by (vm_compute; left; reflexivity).
  split; [exact H|].
  exact (proj1 (clause_records_are_well_formed
                  pricing_section "Acme" "acme_tos.html" pricing_clause H)).
Defined.

(** X6: a clause is tagged [High] exactly when the lower-cased section it
    was built from contains a negative keyword of its category, whatever
    the number of keyword matches. *)
Theorem high_risk_exactly_with_negative_keyword
    (text vendor_name file_name : string) (clause : pydict) :
  In clause (find_clauses text vendor_name file_name) ->
  exists category config section,
    In (category, config) CLAUSE_CATEGORIES
    /\ In section (_split_into_sections text)
    /\ dict_get "clause_category" clause = Some (VStr category)
    /\ dict_get "clause_text" clause = Some (VStr (take 500 section))
    /\ (dict_get "risk_level" clause = Some (VStr "High")
        <-> has_negative config (lower section) = true)
    /\ (dict_get "risk_level" clause = Some (VStr "Medium")
        <-> has_negative config (lower section) = false).
Proof.
  rewrite find_clauses_numbered.
  intros Hin.
  apply In_numbered_clauses in Hin as (n & [[category config] section] & Hp & _ & ->).
  apply In_qualifying_pairs in Hp as (Hcat & Hsec & _).
  cbn [fst snd] in *.
  exists category, config, section.
  repeat split; auto; cbn; destruct (has_negative config (lower section));
    try reflexivity; try discriminate.
Qed.

Lemma high_risk_exactly_with_negative_keyword_witness :
  In pricing_clause (find_clauses pricing_section "Acme" "acme_tos.html")
  /\ exists category config section,
       In (category, config) CLAUSE_CATEGORIES
       /\ In section (_split_into_sections pricing_section)
       /\ dict_get "clause_category" pricing_clause = Some (VStr category)
       /\ dict_get "clause_text" pricing_clause = Some (VStr (take 500 section))
       /\ (dict_get "risk_level" pricing_clause = Some (VStr "High")
           <-> has_negative config (lower section) = true)
       /\ (dict_get "risk_level" pricing_clause = Some (VStr "Medium")
           <-> has_negative config (lower section) = false).
Proof.
  assert (H : In pricing_clause
                (find_clauses pricing_section "Acme" "acme_tos.html"))
    by (vm_compute; left; reflexivity).
  split; [exact H|].
  exact (high_risk_exactly_with_negative_keyword
           pricing_section "Acme" "acme_tos.html" pricing_clause H).
Defined.

End ClauseRecords.

(** ** More on the scorer *)

Section ScorerFloor.

Import Py Scoring Reference Pipeline Samples.

Local Open Scope Q_scope.

(** Rounding to two decimals does not go below a bound that is itself a
    number of hundredths. *)
Lemma round2_lower_hundredths (q : Q) (m : Z) :
  inject_Z m / 100 <= q -> inject_Z m / 100 <= round q 2.
Proof.
  intros H. rewrite round_unfold. change (scale 2) with (inject_Z 100).
  change 100 with (inject_Z 100) in *.
  assert (Hpos : 0 < inject_Z 100) by reflexivity.
  apply Qle_shift_div_l; [exact Hpos|].
  assert (E : inject_Z m / inject_Z 100 * inject_Z 100 == inject_Z m)
    by (field; discriminate).
  rewrite E. rewrite <- Zle_Qle. apply round_half_even_lower.
  rewrite <- E. apply Qmult_le_compat_r; [exact H | now apply Qlt_le_weak].
Qed.

Lemma multiplier_get_floor (v : pyval) (default : Q) :
  3 # 10 <= default -> 3 # 10 <= multiplier_get v default.
Proof.
  intros Hd. destruct v; simpl; auto.
  apply (dict_get_default_all (fun q => 3 # 10 <= q)); [|exact Hd].
  unfold LOCK_IN_MULTIPLIERS.
  repeat (constructor; [simpl; unfold Qle; simpl; lia|]).
  constructor.
Qed.

Lemma clause_penalty_floor (c : pydict) : 3 # 20 <= clause_penalty c.
Proof.
  unfold clause_penalty. destruct (is_high_risk c).
  - assert (H : 3 # 10 <= multiplier_get (mechanism_of c) (1 # 2))
      by (apply multiplier_get_floor; lra).
    lra.
  - assert (H : 3 # 10 <= multiplier_get (mechanism_of c) (3 # 10))
      by (apply multiplier_get_floor; lra).
    lra.
Qed.

Lemma sum_penalty_floor (cs : list pydict) :
  (3 # 20) * inject_Z (len cs) <= sum (map clause_penalty cs).
Proof.
  induction cs as [|c cs IH].
  - unfold sum, len. simpl. change (inject_Z 0) with 0. lra.
  - cbn [map]. rewrite sum_cons.
    pose proof (clause_penalty_floor c).
    assert (E : inject_Z (len (c :: cs)) == 1 + inject_Z (len cs)).
    { unfold len. cbn [List.length]. rewrite Nat2Z.inj_succ, <- Z.add_1_l.
      rewrite inject_Z_plus. reflexivity. }
    rewrite E. lra.
Qed.

Lemma average_penalty_floor (cs : list pydict) :
  cs <> [] -> 3 # 20 <= average_penalty cs.
Proof.
  intros H. unfold average_penalty, average.
  assert (Hlen : len (map clause_penalty cs) = len cs)
    by (unfold len; now rewrite length_map).
  rewrite Hlen.
  pose proof (len_pos cs H) as Hpos.
  apply Qle_shift_div_l; [exact Hpos | apply sum_penalty_floor].
Qed.

Lemma category_score_floor (clauses : list pydict) (category : string)
    (max_points : Z) :
  (0 <= max_points)%Z ->
  inject_Z (15 * max_points) / 100
  <= category_score clauses category max_points.
Proof.
  intros Hw.
  assert (Hq : 0 <= inject_Z max_points)
    by (change 0 with (inject_Z 0); now rewrite <- Zle_Qle).
  assert (E : inject_Z (15 * max_points) / 100 == (3 # 20) * inject_Z max_points).
  { rewrite inject_Z_mult. change (inject_Z 15) with 15. field. }
  destruct (category_clauses clauses category) as [|c cs] eqn:Ec.
  - rewrite (category_score_missing clauses category max_points Ec).
    rewrite E. lra.
  - assert (Hne : category_clauses clauses category <> [])
      by (rewrite Ec; discriminate).
    rewrite (category_score_average clauses category max_points Hne).
    apply round2_lower_hundredths. rewrite E.
    pose proof (average_penalty_floor _ Hne) as Ha.
    set (a := average_penalty (category_clauses clauses category)) in *.
    assert (Hm : (3 # 20) * inject_Z max_points <= a * inject_Z max_points)
      by (apply Qmult_le_compat_r; assumption).
    lra.
Qed.

(** X7: no contract scores below 15.  Every category score is at least 15%
    of the category's weight -- the score of a category whose clauses are all
    medium-risk with the [standard] mechanism -- so the total of any clause
    list, the empty one included, is at least 15. *)
Theorem total_score_is_at_least_15 (clauses : list pydict) :
  let scores := fst (calculate_category_score clauses) in
  Forall2 (fun entry weight =>
             fst entry = fst weight
             /\ (15 # 100) * inject_Z (snd weight) <= snd entry)
    scores CATEGORY_WEIGHTS
  /\ 15 <= fst (calculate_total_score scores).
Proof.
  intros scores.
  assert (Hscores :
    Forall2 (fun entry weight =>
               fst entry = fst weight
               /\ (15 # 100) * inject_Z (snd weight) <= snd entry)
      scores CATEGORY_WEIGHTS).
  { unfold scores. rewrite calculate_category_score_entries. cbn [fst].
    assert (Hall : Forall (fun item => (0 <= snd item)%Z) CATEGORY_WEIGHTS).
    { apply Forall_forall. intros [c w] Hin.
      exact (category_weights_nonneg c w Hin). }
    induction Hall as [|[c w] table Hw _ IH]; simpl; constructor; auto.
    split; [reflexivity|].
    pose proof (category_score_floor clauses c w Hw) as H.
    assert (E : inject_Z (15 * w) / 100 == (15 # 100) * inject_Z w).
    { rewrite inject_Z_mult. change (inject_Z 15) with 15. field. }
    rewrite <- E. exact H. }
  split; [exact Hscores|].
  unfold calculate_total_score. cbn [fst].
  apply Qle_trans with (y := inject_Z 1500 / 100); [vm_compute; discriminate|].
  apply round2_lower_hundredths.
  revert Hscores. generalize scores. clear scores.
  intros scores H. unfold CATEGORY_WEIGHTS in H.
  repeat match goal with
         | H : Forall2 _ _ (_ :: _) |- _ => inversion H; subst; clear H
         | H : Forall2 _ _ [] |- _ => inversion H; subst; clear H
         | H : _ /\ _ |- _ => destruct H
         end.
  unfold dict_values. cbn [map]. rewrite !sum_cons.
  unfold sum. cbn [fold_left snd] in *.
  change (inject_Z 1500 / 100) with (1500 # 100).
  change (inject_Z 25) with 25 in *.
  change (inject_Z 20) with 20 in *.
  change (inject_Z 15) with 15 in *.
  lra.
Qed.

End ScorerFloor.

Section DetailCounts.

Import Py PyStr Scoring Analyzer Reference Pipeline Samples.

Local Open Scope Q_scope.

(** The detail record of a category with clauses, with its counts spelled
    out. *)
Lemma category_detail_counts (clauses : list pydict) (category : string)
    (max_points : Z) :
  category_clauses clauses category <> [] ->
  category_detail clauses category max_points
  = [ ("score", VFloat (category_score clauses category max_points));
      ("max_points", VInt max_points);
      ("clause_count", VInt (len (category_clauses clauses category)));
      ("high_risk_count",
        VInt (len (filter is_high_risk (category_clauses clauses category))));
      ("high_risk_percentage",
        VFloat (round (inject_Z (len (filter is_high_risk
                                        (category_clauses clauses category)))
                       / inject_Z (len (category_clauses clauses category))
                       * 100) 1));
      ("missing_coverage", VBool false) ].
Proof.
  intros H. rewrite (category_score_present clauses category max_points H).
  revert H.
  unfold category_clauses, category_detail, category_step, dict_get_default.
  destruct (filter (in_category category) clauses) as [|c cs]; [congruence|].
  intros _.
  destruct (penalty_loop (c :: cs) 0 0%Z) as [_ Hh].
  destruct (fold_left penalty_step (c :: cs) (0, 0%Z)) as [t h].
  cbn [snd] in Hh. rewrite Z.add_0_l in Hh. subst h.
  cbn. now rewrite String.eqb_refl.
Qed.

Lemma len_filter_le {A : Type} (f : A -> bool) (xs : list A) :
  (0 <= len (filter f xs) <= len xs)%Z.
Proof.
  unfold len. pose proof (filter_length_le f xs). lia.
Qed.

(** X8: in the detail record of a category with clauses, the clause count is
    the number of clauses of that category, the high-risk count is the
    number of those tagged [High] and never exceeds the clause count, and
    the high-risk percentage lies between 0 and 100. *)
Theorem detail_counts_are_consistent
    (clauses : list pydict) (category : string) (max_points : Z) :
  In (category, max_points) CATEGORY_WEIGHTS ->
  category_clauses clauses category <> [] ->
  exists (detail : pydict) (percentage : Q),
    dict_get category (snd (calculate_category_score clauses)) = Some detail
    /\ dict_get "clause_count" detail
       = Some (VInt (len (category_clauses clauses category)))
    /\ dict_get "high_risk_count" detail
       = Some (VInt (len (filter is_high_risk
                           (category_clauses clauses category))))
    /\ (len (filter is_high_risk (category_clauses clauses category))
        <= len (category_clauses clauses category))%Z
    /\ dict_get "high_risk_percentage" detail = Some (VFloat percentage)
    /\ 0 <= percentage <= 100.
Proof.
  intros Hin Hne.
  set (cc := category_clauses clauses category) in *.
  exists (category_detail clauses category max_points),
         (round (inject_Z (len (filter is_high_risk cc)) / inject_Z (len cc)
                 * 100) 1).
  split; [now apply category_details_get|].
  rewrite (category_detail_counts clauses category max_points Hne).
  fold cc.
  split; [reflexivity|]. split; [reflexivity|].
  pose proof (len_filter_le is_high_risk cc) as [Hlo Hhi].
  split; [exact Hhi|]. split; [reflexivity|].
  pose proof (len_pos cc Hne) as Hpos.
  assert (Hq0 : 0 <= inject_Z (len (filter is_high_risk cc)))
    by (change 0 with (inject_Z 0); now rewrite <- Zle_Qle).
  assert (Hq1 : inject_Z (len (filter is_high_risk cc)) <= inject_Z (len cc))
    by (now rewrite <- Zle_Qle).
  set (h := inject_Z (len (filter is_high_risk cc))) in *.
  set (n := inject_Z (len cc)) in *.
  assert (Hr0 : 0 <= h / n) by (apply Qle_shift_div_l; [exact Hpos | lra]).
  assert (Hr1 : h / n <= 1) by (apply Qle_shift_div_r; [exact Hpos | lra]).
  split.
  - change 0 with (inject_Z 0). apply round_lower.
    change (inject_Z 0) with 0. lra.
  - change 100 with (inject_Z 100). apply round_upper.
    change (inject_Z 100) with 100. lra.
Qed.

Lemma detail_counts_are_consistent_witness :
  exists (detail : pydict) (percentage : Q),
    dict_get "termination_exit" (snd (calculate_category_score three_exit_clauses))
    = Some detail
    /\ dict_get "clause_count" detail
       = Some (VInt (len (category_clauses three_exit_clauses "termination_exit")))
    /\ dict_get "high_risk_count" detail
       = Some (VInt (len (filter is_high_risk
                           (category_clauses three_exit_clauses "termination_exit"))))
    /\ (len (filter is_high_risk
               (category_clauses three_exit_clauses "termination_exit"))
        <= len (category_clauses three_exit_clauses "termination_exit"))%Z
    /\ dict_get "high_risk_percentage" detail = Some (VFloat percentage)
    /\ 0 <= percentage <= 100.
Proof.
  apply (detail_counts_are_consistent three_exit_clauses "termination_exit" 20%Z).
  - simpl. auto.
  - vm_compute. discriminate.
Defined.

Local Open Scope nat_scope.

Lemma in_category_clause_of (vendor_name file_name : string) (n : nat)
    (pair : string * category_config * string) (category : string) :
  in_category category (clause_of vendor_name file_name n pair)
  = String.eqb (fst (fst pair)) category.
Proof. reflexivity. Qed.

Lemma category_clauses_numbered (vendor_name file_name category : string)
    (ps : list (string * category_config * string)) :
  forall first : nat,
    map (dict_get "clause_text")
      (filter (in_category category)
         (numbered_clauses vendor_name file_name first ps))
    = map (fun pair => Some (VStr (take 500 (snd pair))))
        (filter (fun pair => String.eqb (fst (fst pair)) category) ps).
Proof.
  unfold numbered_clauses.
  induction ps as [|p ps IH]; intros first; [reflexivity|].
  cbn [List.length seq combine map filter fst snd].
  rewrite in_category_clause_of.
  destruct (String.eqb (fst (fst p)) category).
  - cbn [map]. f_equal. apply IH.
  - apply IH.
Qed.

(** Among the pairs built from a table with distinct names, those of one
    category are the pairs built from that category's entry. *)
Lemma pairs_of_category {W : Type}
    (pick : string * W -> list string) (table : dict W)
    (category : string) (w : W) :
  NoDup (dict_keys table) -> In (category, w) table ->
  filter (fun pair => String.eqb (fst (fst pair)) category)
    (flat_map (fun item => map (fun s => (fst item, snd item, s)) (pick item))
       table)
  = map (fun s => (category, w, s)) (pick (category, w)).
Proof.
  assert (Hnone : forall (k : string) (x : W) (l : list string),
             k <> category ->
             filter (fun pair : string * W * string =>
                       String.eqb (fst (fst pair)) category)
               (map (fun s => (k, x, s)) l) = []).
  { intros k x l Hk. induction l as [|s l IHl]; simpl; [reflexivity|].
    apply String.eqb_neq in Hk. now rewrite Hk. }
  assert (Hall : forall (x : W) (l : list string),
             filter (fun pair : string * W * string =>
                       String.eqb (fst (fst pair)) category)
               (map (fun s => (category, x, s)) l)
             = map (fun s => (category, x, s)) l).
  { intros x l. induction l as [|s l IHl]; simpl; [reflexivity|].
    rewrite String.eqb_refl. now rewrite IHl. }
  assert (Hfresh : forall t : dict W,
             ~ In category (dict_keys t) ->
             filter (fun pair : string * W * string =>
                       String.eqb (fst (fst pair)) category)
               (flat_map
                  (fun item => map (fun s => (fst item, snd item, s)) (pick item))
                  t) = []).
  { induction t as [|[k' x'] t IHt]; simpl; intros Hk; [reflexivity|].
    rewrite filter_app, Hnone, IHt; [reflexivity| |].
    - intros Hin'. apply Hk. now right.
    - intros ->. apply Hk. now left. }
  induction table as [|[k x] table IH]; simpl; intros Hnd Hin; [tauto|].
  inversion Hnd as [|? ? Hk Hnd']; subst.
  rewrite filter_app.
  destruct Hin as [[= -> ->]|Hin].
  - rewrite Hall, (Hfresh table Hk). apply app_nil_r.
  - rewrite Hnone, (IH Hnd' Hin); [reflexivity|].
    intros ->. apply Hk. change category with (fst (category, w)).
    now apply in_map.
Qed.

(** X9: in an assessment, the clauses of a category are those of the
    sections that pass the category's test, in section order; a category is
    left without a clause exactly when no section passes its test. *)
Theorem category_clauses_are_the_qualifying_sections
    (text vendor_name file_name category : string) (config : category_config) :
  In (category, config) CLAUSE_CATEGORIES ->
  map (dict_get "clause_text")
    (category_clauses (find_clauses text vendor_name file_name) category)
  = map (fun section => Some (VStr (take 500 section)))
      (filter (qualifies config) (_split_into_sections text))
  /\ (category_clauses (find_clauses text vendor_name file_name) category = []
      <-> filter (qualifies config) (_split_into_sections text) = []).
Proof.
  intros Hin.
  assert (E : map (dict_get "clause_text")
                (category_clauses (find_clauses text vendor_name file_name) category)
              = map (fun section => Some (VStr (take 500 section)))
                  (filter (qualifies config) (_split_into_sections text))).
  { unfold category_clauses.
    rewrite find_clauses_numbered.
    rewrite category_clauses_numbered. unfold qualifying_pairs.
    rewrite (pairs_of_category
               (fun item => filter (qualifies (snd item)) (_split_into_sections text))
               CLAUSE_CATEGORIES category config clause_categories_nodup Hin).
    cbn [snd]. now rewrite map_map. }
  split; [exact E|].
  split; intros H; rewrite H in E; simpl in E.
  - symmetry in E. now apply map_eq_nil in E.
  - now apply map_eq_nil in E.
Qed.

Lemma category_clauses_are_the_qualifying_sections_witness :
  map (dict_get "clause_text")
    (category_clauses (find_clauses pricing_section "Acme" "acme_tos.html")
       "pricing_terms")
  = map (fun section => Some (VStr (take 500 section)))
      (filter (qualifies (config_of "pricing_terms"))
         (_split_into_sections pricing_section)).
Proof.
  apply (proj1 (category_clauses_are_the_qualifying_sections
                  pricing_section "Acme" "acme_tos.html" "pricing_terms"
                  (config_of "pricing_terms")
                  (or_intror (or_introl eq_refl)))).
Defined.

End DetailCounts.

(** ** Critical issues *)

Section IssueFacts.

Import Py Exn Scoring Reference Pipeline Issues Samples.

Local Open Scope nat_scope.

Variable py_format : pyval -> string.

(** What one category contributes does not depend on the issues collected
    before it. *)
Lemma category_issue_step_app (issues : list pydict) (item : string * pydict) :
  category_issue_step py_format issues item
  = match category_issue_step py_format [] item with
    | Ok l => Ok (issues ++ l)%list
    | Raise e => Raise e
    end.
Proof.
  unfold category_issue_step.
  destruct (truthy (get_or_none "missing_coverage" (snd item))); [reflexivity|].
  destruct (number (dict_get_default "high_risk_percentage" (VInt 0) (snd item)))
    as [pct|e]; [|reflexivity].
  cbn [bind].
  destruct (Qle_bool 70 pct).
  - destruct (getitem "high_risk_percentage" (snd item)); reflexivity.
  - destruct (getitem "score" (snd item)) as [s|e]; [|reflexivity].
    destruct (getitem "max_points" (snd item)) as [m|e]; [|reflexivity].
    cbn [bind].
    destruct (times_float m (7 # 10)) as [mq|e]; [|reflexivity].
    destruct (number s) as [sq|e]; [|reflexivity].
    cbn [bind].
    destruct (Qle_bool mq sq); [reflexivity|].
    now rewrite app_nil_r.
Qed.

Lemma category_issues_concat (items : dict pydict) (lists : list (list pydict)) :
  Forall2 (fun item l => category_issue_step py_format [] item = Ok l) items lists ->
  forall issues,
    for_each (category_issue_step py_format) items issues
    = Ok (issues ++ List.concat lists)%list.
Proof.
  induction 1 as [|item l items lists Hstep _ IH]; intros issues; simpl.
  - now rewrite app_nil_r.
  - rewrite category_issue_step_app, Hstep. cbn [bind].
    rewrite IH. now rewrite app_assoc.
Qed.

Lemma clause_issue_step_app (issues : list pydict) (clause : pydict) :
  clause_issue_step issues clause
  = (issues ++ clause_issue_step [] clause)%list.
Proof.
  unfold clause_issue_step.
  destruct (has_high_risk_mechanism clause); [|now rewrite app_nil_r].
  destruct (get_or_none "lock_in_mechanism" clause);
    try (now rewrite app_nil_r); reflexivity.
Qed.

Lemma clause_issues_app (clauses : list pydict) (issues : list pydict) :
  fold_left clause_issue_step clauses issues
  = (issues ++ fold_left clause_issue_step clauses [])%list.
Proof.
  revert issues. induction clauses as [|c clauses IH]; intros issues; simpl.
  - now rewrite app_nil_r.
  - rewrite IH, (IH (clause_issue_step [] c)), clause_issue_step_app.
    now rewrite app_assoc.
Qed.

(** The issue of a category that has clauses: at most one, never the one for
    missing coverage. *)
Lemma issue_step_present (category : string) (score : Q)
    (max_points clause_count high_risk_count : Z) (percentage : Q) :
  (Z.abs max_points < float_limit)%Z ->
  exists l,
    category_issue_step py_format []
      (category,
       [ ("score", VFloat score);
         ("max_points", VInt max_points);
         ("clause_count", VInt clause_count);
         ("high_risk_count", VInt high_risk_count);
         ("high_risk_percentage", VFloat percentage);
         ("missing_coverage", VBool false) ])
    = Ok l
    /\ List.length l <= 1
    /\ Forall (fun issue =>
                 dict_get "category" issue = Some (VStr category)
                 /\ (dict_get "severity" issue = Some (VStr "HIGH")
                     \/ dict_get "severity" issue = Some (VStr "MEDIUM")))
         l
    /\ ~ In (missing_issue category) l.
Proof.
  intros Hfloat.
  assert (Hbound : times_float (VInt max_points) (7 # 10)
                   = Ok (inject_Z max_points * (7 # 10))%Q).
  { unfold times_float, to_float. cbn [operand bind].
    apply Z.ltb_lt in Hfloat. rewrite Hfloat. reflexivity. }
  unfold category_issue_step.
  cbn [fst snd get_or_none dict_get_default dict_get String.eqb Ascii.eqb
       Bool.eqb truthy number bind getitem].
  destruct (Qle_bool 70 percentage);
    cbn [bind getitem dict_get String.eqb Ascii.eqb Bool.eqb].
  - eexists. split; [reflexivity|]. split; [simpl; lia|].
    split; [constructor; [split; [reflexivity | first [left; reflexivity | right; reflexivity]] | constructor]|].
    intros [H|[]]. discriminate.
  - rewrite Hbound. cbn [bind number].
    destruct (Qle_bool (inject_Z max_points * (7 # 10)) score).
    + eexists. split; [reflexivity|]. split; [simpl; lia|].
      split; [constructor; [split; [reflexivity | first [left; reflexivity | right; reflexivity]] | constructor]|].
      intros [H|[]]. discriminate.
    + exists []. split; [reflexivity|]. split; [simpl; lia|].
      split; [constructor | intros []].
Qed.

(** What the issue loop does with the detail record the scorer builds for a
    category. *)
Lemma scorer_category_issue (clauses : list pydict) (category : string)
    (max_points : Z) :
  (Z.abs max_points < float_limit)%Z ->
  exists l,
    category_issue_step py_format []
      (category, category_detail clauses category max_points) = Ok l
    /\ List.length l <= 1
    /\ Forall (fun issue =>
                 dict_get "category" issue = Some (VStr category)
                 /\ (dict_get "severity" issue = Some (VStr "HIGH")
                     \/ dict_get "severity" issue = Some (VStr "MEDIUM")))
         l
    /\ (In (missing_issue category) l <-> category_clauses clauses category = []).
Proof.
  intros Hfloat.
  destruct (category_clauses clauses category) as [|c cs] eqn:E.
  - rewrite (category_detail_missing clauses category max_points E).
    exists [missing_issue category].
    split; [reflexivity|]. split; [simpl; lia|].
    split; [constructor; [split; [reflexivity | first [left; reflexivity | right; reflexivity]] | constructor]|].
    split; [reflexivity | intros _; now left].
  - assert (Hne : category_clauses clauses category <> [])
      by (rewrite E; discriminate).
    rewrite (category_detail_counts clauses category max_points Hne).
    destruct (issue_step_present category
                (category_score clauses category max_points) max_points
                (len (category_clauses clauses category))
                (len (filter is_high_risk (category_clauses clauses category)))
                (round (inject_Z (len (filter is_high_risk
                                         (category_clauses clauses category)))
                        / inject_Z (len (category_clauses clauses category))
                        * 100) 1) Hfloat)
      as (l & Hl & Hlen & Hall & Hmiss).
    exists l. repeat split; auto; [tauto | discriminate].
Qed.

End IssueFacts.

Section IssueTheorems.

Import Py Exn Scoring Reference Pipeline Issues Samples.

Local Open Scope nat_scope.

Variable py_format : pyval -> string.

Lemma scorer_issue_lists (clauses : list pydict) (table : dict Z) :
  Forall (fun weight => (Z.abs (snd weight) < float_limit)%Z) table ->
  exists lists : list (list pydict),
    Forall2 (fun item l => category_issue_step py_format [] item = Ok l)
      (map (fun item => (fst item, category_detail clauses (fst item) (snd item)))
         table)
      lists
    /\ Forall2 (fun l weight =>
                  List.length l <= 1
                  /\ Forall (fun issue =>
                               dict_get "category" issue = Some (VStr (fst weight))
                               /\ (dict_get "severity" issue = Some (VStr "HIGH")
                                   \/ dict_get "severity" issue
                                      = Some (VStr "MEDIUM")))
                       l
                  /\ (In (missing_issue (fst weight)) l
                      <-> category_clauses clauses (fst weight) = []))
         lists table.
Proof.
  induction 1 as [|[c w] table Hw _ (lists & H1 & H2)]; simpl.
  - exists []. split; constructor.
  - destruct (scorer_category_issue py_format clauses c w Hw)
      as (l & Hl & Hlen & Hall & Hmiss).
    exists (l :: lists). split; constructor; auto.
Qed.

(** Every weight of the table has a [float]. *)
Lemma category_weights_are_floats :
  Forall (fun weight => (Z.abs (snd weight) < float_limit)%Z) CATEGORY_WEIGHTS.
Proof. repeat constructor. Qed.

(** X10: on the detail records the scorer itself builds, the search for
    critical issues never raises.  It reports at most one issue per
    category, in the order of the weight table and each of severity HIGH or
    MEDIUM, and after them the issues found clause by clause. *)
Theorem critical_issues_of_a_scored_contract (clauses : list pydict) :
  exists per_category : list (list pydict),
    _identify_critical_issues py_format
      (snd (calculate_category_score clauses)) clauses
    = Ok (List.concat per_category
          ++ fold_left clause_issue_step clauses [])%list
    /\ Forall2 (fun l weight =>
                  List.length l <= 1
                  /\ Forall (fun issue =>
                               dict_get "category" issue = Some (VStr (fst weight))
                               /\ (dict_get "severity" issue = Some (VStr "HIGH")
                                   \/ dict_get "severity" issue
                                      = Some (VStr "MEDIUM")))
                       l)
         per_category CATEGORY_WEIGHTS.
Proof.
  destruct (scorer_issue_lists clauses CATEGORY_WEIGHTS
              category_weights_are_floats) as (lists & H1 & H2).
  exists lists. split.
  - unfold _identify_critical_issues.
    rewrite calculate_category_score_entries. cbn [snd].
    rewrite (category_issues_concat py_format _ lists H1). cbn [bind app].
    now rewrite clause_issues_app.
  - eapply Forall2_impl; [|exact H2]. cbn beta. tauto.
Qed.

(** The issue of one clause with a critical mechanism. *)
Lemma clause_issue_step_cases (clause : pydict) :
  (has_high_risk_mechanism clause = false /\ clause_issue_step [] clause = [])
  \/ (has_high_risk_mechanism clause = true
      /\ exists mechanism,
           dict_get "lock_in_mechanism" clause = Some (VStr mechanism)
           /\ In mechanism high_risk_mechanisms
           /\ clause_issue_step [] clause
              = [ [ ("category", get_or_none "clause_category" clause);
                    ("severity", VStr "HIGH");
                    ("issue", VStr ("Contains " ++ spaced mechanism ++ " clause"));
                    ("impact", VStr "Critical lock-in mechanism identified") ] ]).
Proof.
  unfold clause_issue_step, get_or_none, dict_get_default.
  destruct (has_high_risk_mechanism clause) eqn:H; [right | left; auto].
  split; [reflexivity|].
  unfold has_high_risk_mechanism in H.
  destruct (dict_get "lock_in_mechanism" clause) as [v|]; [|discriminate].
  apply existsb_exists in H as (m & Hm & Hv).
  destruct v; try discriminate.
  simpl in Hv. apply String.eqb_eq in Hv. subst m.
  exists s. auto.
Qed.

(** The issues of the second loop, clause by clause. *)
Lemma clause_issues_described (clauses : list pydict) :
  Forall2 (fun issue clause =>
             exists mechanism,
               dict_get "lock_in_mechanism" clause = Some (VStr mechanism)
               /\ In mechanism high_risk_mechanisms
               /\ issue
                  = [ ("category", get_or_none "clause_category" clause);
                      ("severity", VStr "HIGH");
                      ("issue",
                        VStr ("Contains " ++ spaced mechanism ++ " clause"));
                      ("impact", VStr "Critical lock-in mechanism identified") ])
    (fold_left clause_issue_step clauses [])
    (filter has_high_risk_mechanism clauses).
Proof.
  induction clauses as [|c clauses IH]; simpl; [constructor|].
  rewrite clause_issues_app.
  destruct (clause_issue_step_cases c) as [[H ->]|[H (m & Hm & Hin & ->)]];
    rewrite H; simpl; [exact IH|].
  constructor; [|exact IH]. exists m. auto.
Qed.

(** X11: the clause-by-clause issues are exactly one per clause whose
    mechanism is [no_compensation], [unilateral_pricing], [data_restriction]
    or [no_sla], in clause order; each has severity HIGH, names the
    mechanism and carries the clause's category. *)
Theorem clause_level_issues (clauses : list pydict) :
  Forall2 (fun issue clause =>
             exists mechanism,
               dict_get "lock_in_mechanism" clause = Some (VStr mechanism)
               /\ In mechanism high_risk_mechanisms
               /\ issue
                  = [ ("category", get_or_none "clause_category" clause);
                      ("severity", VStr "HIGH");
                      ("issue",
                        VStr ("Contains " ++ spaced mechanism ++ " clause"));
                      ("impact", VStr "Critical lock-in mechanism identified") ])
    (fold_left clause_issue_step clauses [])
    (filter has_high_risk_mechanism clauses).
Proof. exact (clause_issues_described clauses). Qed.

(** X12: a category's "no clauses found" issue is reported exactly when the
    clause list has no clause of that category. *)
Theorem missing_coverage_issue_exactly_without_clauses
    (clauses : list pydict) (category : string) (max_points : Z) :
  In (category, max_points) CATEGORY_WEIGHTS ->
  exists issues,
    _identify_critical_issues py_format
      (snd (calculate_category_score clauses)) clauses = Ok issues
    /\ (In (missing_issue category) issues
        <-> category_clauses clauses category = []).
Proof.
  intros Hin.
  destruct (scorer_issue_lists clauses CATEGORY_WEIGHTS
              category_weights_are_floats) as (lists & H1 & H2).
  eexists. split.
  - unfold _identify_critical_issues.
    rewrite calculate_category_score_entries. cbn [snd].
    rewrite (category_issues_concat py_format _ lists H1). cbn [bind app].
    rewrite clause_issues_app. reflexivity.
  - cbn [app]. rewrite in_app_iff, in_concat. split.
    + intros [(l & Hl & Hi)|Hc].
      * assert (Hrel : exists weight,
                  In weight CATEGORY_WEIGHTS
                  /\ Forall (fun issue => dict_get "category" issue
                                          = Some (VStr (fst weight))) l
                  /\ (In (missing_issue (fst weight)) l
                      <-> category_clauses clauses (fst weight) = [])).
        { clear H1 Hin. induction H2 as [|l' wt ls ws (_ & Ha & Hm) _ IH].
          - destruct Hl.
          - destruct Hl as [->|Hl].
            + exists wt. split; [now left|]. split; [|exact Hm].
              eapply Forall_impl; [|exact Ha]. cbn beta. tauto.
            + destruct (IH Hl) as (wt' & Hw & Hrest). exists wt'.
              split; [now right | exact Hrest]. }
        destruct Hrel as ([c' w'] & _ & Hcat & Hm). cbn [fst] in *.
        rewrite Forall_forall in Hcat. specialize (Hcat _ Hi).
        injection Hcat as <-. now apply Hm.
      * pose proof (clause_issues_described clauses) as Hf.
        exfalso. revert Hc Hf.
        generalize (fold_left clause_issue_step clauses []).
        generalize (filter has_high_risk_mechanism clauses).
        intros cs l Hc Hf.
        induction Hf as [|i c l' cs' (m & _ & _ & ->) _ IH]; [destruct Hc|].
        destruct Hc as [Hc|Hc]; [discriminate | auto].
    + intros Hempty. left.
      assert (Hrel : exists l,
                In l lists /\ In (missing_issue category) l).
      { clear H1. revert Hin.
        induction H2 as [|l wt ls ws (_ & _ & Hm) _ IH]; intros Hin.
        - destruct Hin.
        - destruct Hin as [->|Hin].
          + exists l. split; [now left|]. now apply Hm.
          + destruct (IH Hin) as (l' & Hl' & Hi). exists l'.
            split; [now right | exact Hi]. }
      exact Hrel.
Qed.

(** X13: a detail record that is not flagged as missing coverage, has no
    high-risk percentage and has no [score] makes the search raise
    [KeyError('score')], whatever follows it. *)
Theorem critical_issues_need_a_score (category : string) (details : pydict)
    (rest : dict pydict) (clauses : list pydict) :
  truthy (get_or_none "missing_coverage" details) = false ->
  dict_get "high_risk_percentage" details = None ->
  dict_get "score" details = None ->
  _identify_critical_issues py_format ((category, details) :: rest) clauses
  = Raise (KeyError "score").
Proof.
  intros Hm Hp Hs.
  unfold _identify_critical_issues. cbn [for_each].
  unfold category_issue_step at 1. cbn [fst snd].
  rewrite Hm. unfold dict_get_default, getitem. rewrite Hp, Hs.
  reflexivity.
Qed.

End IssueTheorems.

Section IssueWitness.

Import Py Exn Scoring Reference Pipeline Issues Samples.

Lemma missing_coverage_issue_exactly_without_clauses_witness :
  exists issues,
    _identify_critical_issues (fun _ => "")
      (snd (calculate_category_score three_exit_clauses)) three_exit_clauses
    = Ok issues
    /\ (In (missing_issue "service_level") issues
        <-> category_clauses three_exit_clauses "service_level" = []).
Proof.
  apply (missing_coverage_issue_exactly_without_clauses (fun _ => "")
           three_exit_clauses "service_level" 25%Z).
  simpl. auto.
Defined.

Lemma critical_issues_need_a_score_witness :
  _identify_critical_issues (fun _ => "")
    [("pricing_terms", [("max_points", VInt 25)])] []
  = Raise (KeyError "score").
Proof.
  apply critical_issues_need_a_score; reflexivity.
Defined.

End IssueWitness.

(** ** The assessment of one contract *)

Section AssessmentPayload.

Import Py PyStr Exn Scoring Analyzer Reference Pipeline Samples.

Local Open Scope Q_scope.

(** The category scores and the total of any clause list are within their
    bounds. *)
Lemma category_scores_bounded (clauses : list pydict) :
  Forall2 (fun entry weight =>
             fst entry = fst weight
             /\ 0 <= snd entry <= inject_Z (snd weight))
    (fst (calculate_category_score clauses)) CATEGORY_WEIGHTS.
Proof.
  rewrite calculate_category_score_entries. cbn [fst].
  assert (Hall : Forall (fun item => (0 <= snd item)%Z) CATEGORY_WEIGHTS).
  { apply Forall_forall. intros [c w] Hin.
    exact (category_weights_nonneg c w Hin). }
  induction Hall as [|[c w] table Hw _ IH]; simpl; constructor; auto.
  split; [reflexivity|]. now apply category_score_bounds.
Qed.

Lemma bounded_scores_sum (scores : dict Q) :
  Forall2 (fun entry weight =>
             fst entry = fst weight
             /\ 0 <= snd entry <= inject_Z (snd weight))
    scores CATEGORY_WEIGHTS ->
  0 <= sum (dict_values scores) <= 100.
Proof.
  intros H. unfold CATEGORY_WEIGHTS in H.
  repeat match goal with
         | H : Forall2 _ _ (_ :: _) |- _ => inversion H; subst; clear H
         | H : Forall2 _ _ [] |- _ => inversion H; subst; clear H
         | H : _ /\ _ |- _ => destruct H
         end.
  unfold dict_values. cbn [map]. rewrite !sum_cons.
  unfold sum. cbn [fold_left snd] in *.
  change (inject_Z 25) with 25 in *.
  change (inject_Z 20) with 20 in *.
  change (inject_Z 15) with 15 in *.
  lra.
Qed.

Lemma total_bounded (clauses : list pydict) :
  0 <= fst (calculate_total_score (fst (calculate_category_score clauses))) <= 100.
Proof.
  unfold calculate_total_score. cbn [fst].
  destruct (bounded_scores_sum _ (category_scores_bounded clauses)) as [Hlo Hhi].
  split.
  - change 0 with (inject_Z 0). apply round_lower. exact Hlo.
  - change 100 with (inject_Z 100). apply round_upper. exact Hhi.
Qed.

(** The report of [score_contract], with its values named. *)
Lemma score_contract_report (clauses : list pydict) :
  score_contract clauses
  = [ ("total_score",
        Scalar (VFloat (fst (calculate_total_score
                               (fst (calculate_category_score clauses))))));
      ("risk_level",
        Scalar (VStr (snd (calculate_total_score
                             (fst (calculate_category_score clauses))))));
      ("category_scores",
        Dict (map (fun kv => (fst kv, VFloat (snd kv)))
                (fst (calculate_category_score clauses))));
      ("category_details",
        DictOfDicts (snd (calculate_category_score clauses))) ].
Proof.
  unfold score_contract.
  destruct (calculate_category_score clauses) as [scores details].
  reflexivity.
Qed.

Lemma score_contract_scored (clauses : list pydict) :
  scored (score_contract clauses).
Proof.
  unfold scored. rewrite score_contract_report.
  exists (fst (calculate_total_score (fst (calculate_category_score clauses)))),
         (snd (calculate_total_score (fst (calculate_category_score clauses)))),
         (fst (calculate_category_score clauses)).
  split; [reflexivity|]. split; [reflexivity|].
  split; [apply total_bounded|]. split; [reflexivity|].
  split; [apply risk_level_of_tier|]. split; [reflexivity|].
  apply category_scores_bounded.
Qed.

(** What a successful assessment is made of. *)
Lemma assess_contract_file_success
    (file_path file_stem file_name vendor_name text : string)
    (first : pydict) (rest : list pydict) :
  analyze_contract_file text vendor_name file_name = first :: rest ->
  assess_contract_file file_path file_stem file_name vendor_name text
  = (score_contract (first :: rest)
     ++ [ ("vendor_name", Scalar (dict_get_default "vendor_name" VNone first));
          ("contract_file", Scalar (VStr file_name));
          ("total_clauses", Scalar (VInt (len (first :: rest))));
          ("clauses", ListOfDicts (first :: rest)) ])%list.
Proof.
  intros E. unfold assess_contract_file. rewrite E.
  rewrite score_contract_report. reflexivity.
Qed.

Lemma analyze_contract_file_clauses (text vendor_name file_name : string)
    (first : pydict) (rest : list pydict) :
  analyze_contract_file text vendor_name file_name = first :: rest ->
  find_clauses text vendor_name file_name = first :: rest
  /\ (1000 <= String.length text)%nat.
Proof.
  unfold analyze_contract_file.
  destruct (String.eqb text ""); simpl; [discriminate|].
  destruct (Nat.ltb_spec (String.length text) 1000); [discriminate|].
  auto.
Qed.

Lemma scored_extended (a extra : report) :
  scored a -> dict_has "error" extra = false ->
  (forall k, dict_has k a = true -> dict_get k (a ++ extra)%list = dict_get k a) ->
  scored (a ++ extra)%list.
Proof.
  intros (total & tier & scores & He & Ht & Hb & Hr & Hin & Hs & Hf) Hx Hk.
  exists total, tier, scores.
  assert (Hget : forall k v, dict_get k a = Some v ->
                             dict_get k (a ++ extra)%list = Some v).
  { intros k v H. rewrite Hk; [exact H|]. unfold dict_has. now rewrite H. }
  assert (Happ : forall d1 d2 : report,
             dict_get "error" d1 = None ->
             dict_get "error" (d1 ++ d2)%list = dict_get "error" d2).
  { induction d1 as [|[k v] d1 IH]; cbn [dict_get app]; intros d2 H;
      [reflexivity|].
    destruct (String.eqb "error" k); [discriminate | now apply IH]. }
  split.
  - unfold dict_has in *. rewrite Happ; [exact Hx|].
    destruct (dict_get "error" a); [discriminate | reflexivity].
  - split; [now apply Hget|]. split; [exact Hb|].
    split; [now apply Hget|]. split; [exact Hin|].
    split; [now apply Hget | exact Hf].
Qed.

Lemma dict_get_app_l {V : Type} (k : string) (d1 d2 : dict V) :
  dict_has k d1 = true -> dict_get k (d1 ++ d2)%list = dict_get k d1.
Proof.
  unfold dict_has. induction d1 as [|[k' v] d1 IH]; simpl; [discriminate|].
  destruct (String.eqb k k'); auto.
Qed.

Lemma table_category_has_weight (category : string) :
  In category (dict_keys CLAUSE_CATEGORIES) ->
  exists max_points, In (category, max_points) CATEGORY_WEIGHTS.
Proof.
  unfold dict_keys, CLAUSE_CATEGORIES, CATEGORY_WEIGHTS. simpl.
  intros [<-|[<-|[<-|[<-|[<-|[]]]]]]; eexists; simpl; eauto 6.
Qed.

Lemma assessment_without_error_is_scored
    (file_path file_stem file_name vendor_name text : string) :
  dict_has "error"
    (assess_contract_file file_path file_stem file_name vendor_name text) = false ->
  scored (assess_contract_file file_path file_stem file_name vendor_name text).
Proof.
  intros Herr.
  destruct (analyze_contract_file text vendor_name file_name)
    as [|first rest] eqn:E.
  - unfold assess_contract_file in Herr. rewrite E in Herr. discriminate.
  - rewrite (assess_contract_file_success _ _ _ _ _ _ _ E).
    apply scored_extended;
      [apply score_contract_scored | reflexivity | intros k; apply dict_get_app_l].
Qed.

(** X14: an assessment without [error] is complete.  It carries a total
    between 0 and 100 with its tier and one bounded score per category; its
    vendor name is the name derived from the path; its clause list is what
    the matcher found in a text of at least 1000 characters, and
    [total_clauses] is the length of that list, at least 1. *)
Theorem successful_assessment_is_complete
    (file_path file_stem file_name vendor_name text : string) :
  let result :=
    assess_contract_file file_path file_stem file_name vendor_name text in
  dict_has "error" result = false ->
  scored result
  /\ dict_get "vendor_name" result = Some (Scalar (VStr vendor_name))
  /\ dict_get "contract_file" result = Some (Scalar (VStr file_name))
  /\ dict_get "clauses" result
     = Some (ListOfDicts (find_clauses text vendor_name file_name))
  /\ dict_get "total_clauses" result
     = Some (Scalar (VInt (len (find_clauses text vendor_name file_name))))
  /\ (1 <= len (find_clauses text vendor_name file_name))%Z
  /\ (1000 <= String.length text)%nat.
Proof.
  intros result Herr.
  destruct (analyze_contract_file text vendor_name file_name)
    as [|first rest] eqn:E.
  - unfold result, assess_contract_file in Herr. rewrite E in Herr. discriminate.
  - unfold result.
    rewrite (assess_contract_file_success _ _ _ _ _ _ _ E).
    destruct (analyze_contract_file_clauses _ _ _ _ _ E) as [Ef Hlen].
    rewrite Ef.
    assert (Hv : dict_get_default "vendor_name" VNone first = VStr vendor_name).
    { assert (Hin : In first (find_clauses text vendor_name file_name))
        by (rewrite Ef; now left).
      rewrite find_clauses_numbered in Hin.
      apply In_numbered_clauses in Hin as (n & pair & _ & _ & ->).
      reflexivity. }
    rewrite Hv. rewrite score_contract_report.
    split.
    + rewrite <- score_contract_report.
      apply scored_extended;
        [apply score_contract_scored | reflexivity | intros k; apply dict_get_app_l].
    + repeat split; try reflexivity; auto.
      unfold len. simpl. lia.
Qed.

Lemma successful_assessment_is_complete_witness :
  dict_has "error"
    (assess_contract_file "contracts/acme_tos.html" "acme_tos" "acme_tos.html"
       "Acme" pricing_contract) = false
  /\ scored
       (assess_contract_file "contracts/acme_tos.html" "acme_tos" "acme_tos.html"
          "Acme" pricing_contract).
Proof.
  assert (H : dict_has "error"
                (assess_contract_file "contracts/acme_tos.html" "acme_tos"
                   "acme_tos.html" "Acme" pricing_contract) = false)
    by (vm_compute; reflexivity).
  split; [exact H|].
  exact (proj1 (successful_assessment_is_complete "contracts/acme_tos.html"
                  "acme_tos" "acme_tos.html" "Acme" pricing_contract H)).
Defined.

(** X15: an assessment without [error] covers at least one category: some
    category's detail record has [missing_coverage] false. *)
Theorem successful_assessment_covers_a_category
    (file_path file_stem file_name vendor_name text : string) :
  let result :=
    assess_contract_file file_path file_stem file_name vendor_name text in
  dict_has "error" result = false ->
  exists (details : dict pydict) (category : string) (detail : pydict),
    dict_get "category_details" result = Some (DictOfDicts details)
    /\ In category (dict_keys CATEGORY_WEIGHTS)
    /\ dict_get category details = Some detail
    /\ dict_get "missing_coverage" detail = Some (VBool false).
Proof.
  intros result Herr.
  destruct (analyze_contract_file text vendor_name file_name)
    as [|first rest] eqn:E.
  - unfold result, assess_contract_file in Herr. rewrite E in Herr. discriminate.
  - unfold result.
    rewrite (assess_contract_file_success _ _ _ _ _ _ _ E).
    destruct (analyze_contract_file_clauses _ _ _ _ _ E) as [Ef _].
    assert (Hin : In first (find_clauses text vendor_name file_name))
      by (rewrite Ef; now left).
    destruct (clause_record_fields text vendor_name file_name first Hin)
      as (_ & _ & _ & category & risk & ctext & k & section & Hc & Hcat & _).
    destruct (table_category_has_weight category Hcat) as [w Hw].
    assert (Hne : category_clauses (first :: rest) category <> []).
    { unfold category_clauses. cbn [filter].
      unfold in_category at 1. rewrite Hc. simpl.
      rewrite String.eqb_refl. discriminate. }
    exists (snd (calculate_category_score (first :: rest))), category,
           (category_detail (first :: rest) category w).
    rewrite score_contract_report.
    split; [reflexivity|].
    split; [change category with (fst (category, w)); now apply in_map|].
    split; [now apply category_details_get|].
    now rewrite (category_detail_counts _ _ _ Hne).
Qed.

Lemma successful_assessment_covers_a_category_witness :
  dict_has "error"
    (assess_contract_file "contracts/acme_tos.html" "acme_tos" "acme_tos.html"
       "Acme" pricing_contract) = false
  /\ exists (details : dict pydict) (category : string) (detail : pydict),
       dict_get "category_details"
         (assess_contract_file "contracts/acme_tos.html" "acme_tos"
            "acme_tos.html" "Acme" pricing_contract)
       = Some (DictOfDicts details)
       /\ In category (dict_keys CATEGORY_WEIGHTS)
       /\ dict_get category details = Some detail
       /\ dict_get "missing_coverage" detail = Some (VBool false).
Proof.
  assert (H : dict_has "error"
                (assess_contract_file "contracts/acme_tos.html" "acme_tos"
                   "acme_tos.html" "Acme" pricing_contract) = false)
    by (vm_compute; reflexivity).
  split; [exact H|].
  exact (successful_assessment_covers_a_category "contracts/acme_tos.html"
           "acme_tos" "acme_tos.html" "Acme" pricing_contract H).
Defined.

End AssessmentPayload.

(** ** Comparison of assessments *)

Section SortFacts.

Import Py Exn Scoring Pipeline Comparison.

Local Open Scope Q_scope.

Context {A : Type}.

Lemma insert_by_permutation (before : Q -> Q -> bool) (x : Q * A)
    (l : list (Q * A)) :
  Permutation (insert_by before x l) (x :: l).
Proof.
  induction l as [|y l IH]; simpl; [reflexivity|].
  destruct (before (fst x) (fst y)); [reflexivity|].
  rewrite IH. apply perm_swap.
Qed.

(** Sorting rearranges and neither drops nor repeats an element. *)
Lemma sort_by_permutation (before : Q -> Q -> bool) (l : list (Q * A)) :
  Permutation (sort_by before l) l.
Proof.
  unfold sort_by. induction l as [|x l IH]; simpl; [reflexivity|].
  rewrite insert_by_permutation. now constructor.
Qed.

Lemma insert_chain (before : Q -> Q -> bool) (R : Q -> Q -> Prop)
    (x : Q * A) (l : list (Q * A)) :
  (forall a b, before a b = true -> R a b) ->
  (forall a b, before a b = false -> R b a) ->
  chain R (map fst l) -> chain R (map fst (insert_by before x l)).
Proof.
  intros Ht Hf. induction l as [|y l IH]; intros H.
  - simpl. auto.
  - cbn [insert_by].
    destruct (before (fst x) (fst y)) eqn:E.
    + cbn [map chain]. split; [exact H | now apply Ht].
    + cbn [map chain] in *. destruct H as [Hl Hy].
      split; [now apply IH|].
      destruct l as [|z l]; [now apply Hf|].
      cbn [insert_by]. destruct (before (fst x) (fst z));
        [now apply Hf | exact Hy].
Qed.

Lemma sort_chain (before : Q -> Q -> bool) (R : Q -> Q -> Prop)
    (l : list (Q * A)) :
  (forall a b, before a b = true -> R a b) ->
  (forall a b, before a b = false -> R b a) ->
  chain R (map fst (sort_by before l)).
Proof.
  intros Ht Hf. unfold sort_by.
  induction l as [|x l IH]; simpl; [exact I|].
  now apply insert_chain.
Qed.

Lemma Qle_bool_total (a b : Q) : Qle_bool a b = false -> b <= a.
Proof.
  intros E. destruct (Qlt_le_dec b a) as [Hlt|Hle];
    [now apply Qlt_le_weak|].
  apply Qle_bool_iff in Hle. congruence.
Qed.

Lemma sort_ascending (l : list (Q * A)) :
  ascending (map fst (sort_by Qle_bool l)).
Proof.
  apply sort_chain.
  - intros a b H. now apply Qle_bool_iff.
  - apply Qle_bool_total.
Qed.

Lemma sort_descending (l : list (Q * A)) :
  descending (map fst (sort_by (fun a b => Qle_bool b a) l)).
Proof.
  apply (sort_chain (fun a b => Qle_bool b a) (fun a b => b <= a)).
  - intros a b H. now apply Qle_bool_iff.
  - intros a b H. now apply Qle_bool_total.
Qed.

End SortFacts.

Section ComparisonFacts.

Import Py Exn Scoring Reference Pipeline Comparison.

Local Open Scope Q_scope.

Lemma scored_number (a : report) :
  scored a ->
  number_at "total_score" a = Ok (total_of a) /\ 0 <= total_of a <= 100.
Proof.
  intros (total & tier & scores & _ & Ht & Hb & _).
  unfold number_at, getitem, total_of. rewrite Ht. cbn. auto.
Qed.

Lemma to_float_zero : to_float 0 = Ok 0.
Proof. reflexivity. Qed.

Lemma scored_operand (a : report) :
  scored a -> operand_at "total_score" a = Ok (NFloat (total_of a)).
Proof.
  intros (total & tier & scores & _ & Ht & _).
  unfold operand_at, getitem, total_of. rewrite Ht. reflexivity.
Qed.

Lemma sum_at_scored_from (l : list report) :
  Forall scored l ->
  forall t0 : Q,
    for_each (fun total a =>
                let* x := operand_at "total_score" a in add total x)
      l (NFloat t0)
    = Ok (NFloat (fold_left Qplus (map total_of l) t0)).
Proof.
  induction 1 as [|a l Ha _ IH]; intros t0; [reflexivity|].
  cbn [for_each map fold_left]. rewrite (scored_operand a Ha).
  cbn [bind add]. apply IH.
Qed.

(** The sum of the totals of scored assessments is a [float]. *)
Lemma sum_at_scored (l : list report) :
  Forall scored l -> l <> [] ->
  sum_at "total_score" l = Ok (NFloat (sum (map total_of l))).
Proof.
  intros Hl Hne. destruct Hl as [|a l Ha Hl]; [congruence|].
  unfold sum_at. cbn [for_each]. rewrite (scored_operand a Ha).
  cbn [bind add]. rewrite to_float_zero. cbn [bind].
  rewrite (sum_at_scored_from l Hl). reflexivity.
Qed.

Lemma len_nonzero {B : Type} (l : list B) : l <> [] -> (len l =? 0)%Z = false.
Proof.
  intros H. apply Z.eqb_neq. unfold len.
  destruct l; [congruence|]. cbn [List.length]. lia.
Qed.

Lemma sum_bounded (qs : list Q) :
  Forall (fun q => 0 <= q <= 100) qs ->
  0 <= sum qs <= 100 * inject_Z (len qs).
Proof.
  induction 1 as [|q qs Hq _ IH].
  - unfold sum, len. simpl. change (inject_Z 0) with 0. lra.
  - rewrite sum_cons.
    assert (E : inject_Z (len (q :: qs)) == 1 + inject_Z (len qs)).
    { unfold len. cbn [List.length]. rewrite Nat2Z.inj_succ, <- Z.add_1_l.
      rewrite inject_Z_plus. reflexivity. }
    rewrite E. cbn beta in Hq. lra.
Qed.

Lemma scored_level (level : string) (a : report) :
  scored a ->
  has_level level a = Ok (String.eqb (tier_of a) level)
  /\ In (tier_of a) tiers.
Proof.
  intros (total & tier & scores & _ & _ & _ & Hr & Hin & _).
  unfold has_level, getitem, tier_of. rewrite Hr. cbn. auto.
Qed.

Lemma count_level_scored (level : string) (l : list report) :
  Forall scored l ->
  forall n0 : Z,
    for_each (fun n a => let* b := has_level level a in
                         Ok (if b then (n + 1)%Z else n)) l n0
    = Ok (n0 + len (filter (fun a => String.eqb (tier_of a) level) l))%Z.
Proof.
  induction 1 as [|a l Ha _ IH]; intros n0; simpl.
  - unfold len. simpl. now rewrite Z.add_0_r.
  - destruct (scored_level level a Ha) as [-> _]. cbn [bind].
    rewrite IH. f_equal.
    destruct (String.eqb (tier_of a) level); unfold len; simpl; lia.
Qed.


Lemma keyed_scored (l : list report) :
  Forall scored l ->
  forall acc : list (Q * report),
    for_each (fun acc a => let* k := number_at "total_score" a in
                           Ok (acc ++ [(k, a)])%list) l acc
    = Ok (acc ++ map (fun a => (total_of a, a)) l)%list.
Proof.
  induction 1 as [|a l Ha _ IH]; intros acc; simpl.
  - now rewrite app_nil_r.
  - destruct (scored_number a Ha) as [-> _]. cbn [bind].
    rewrite IH. now rewrite <- app_assoc.
Qed.

Lemma sorted_keys (before : Q -> Q -> bool) (l : list report) :
  let sorted := sort_by before (map (fun a => (total_of a, a)) l) in
  Permutation (map snd sorted) l
  /\ map total_of (map snd sorted) = map fst sorted.
Proof.
  intros sorted.
  pose proof (sort_by_permutation before (map (fun a => (total_of a, a)) l))
    as Hp. fold sorted in Hp.
  split.
  - rewrite (Permutation_map snd Hp), map_map. cbn [snd]. now rewrite map_id.
  - assert (Hall : Forall (fun p : Q * report => fst p = total_of (snd p)) sorted).
    { apply (Permutation_Forall (Permutation_sym Hp)).
      apply Forall_forall. intros p Hin.
      apply in_map_iff in Hin as (a & <- & _). reflexivity. }
    clear Hp. induction Hall as [|p s Hp _ IH]; simpl; [reflexivity|].
    now rewrite IH, Hp.
Qed.

End ComparisonFacts.

Section AverageFacts.

Import Py Exn Scoring Reference Pipeline Comparison.

Local Open Scope Q_scope.

Lemma column_snoc (w : Z) (l : list pyobj) (q : Q) :
  (l = [] \/ column w l) -> 0 <= q <= inject_Z w ->
  column w (l ++ [Scalar (VFloat q)]).
Proof.
  intros Hl Hq. split.
  - destruct l; discriminate.
  - apply Forall_app. split.
    + destruct Hl as [->|[_ H]]; [constructor | exact H].
    + constructor; [|constructor]. now exists q.
Qed.

Lemma column_sum (w : Z) (l : list pyobj) :
  Forall (fun o => exists q, o = Scalar (VFloat q) /\ 0 <= q <= inject_Z w) l ->
  forall t0 : Q,
    exists t,
      for_each sum_step l (NFloat t0) = Ok (NFloat t)
      /\ t0 <= t <= t0 + inject_Z w * inject_Z (len l).
Proof.
  induction 1 as [|o l (q & -> & Hq) _ IH]; intros t0.
  - exists t0. split; [reflexivity|]. unfold len. simpl.
    change (inject_Z 0) with 0. lra.
  - cbn [for_each sum_step operand add bind].
    destruct (IH (t0 + q)) as (t & Ht & Hb).
    exists t. split; [exact Ht|].
    assert (E : inject_Z (len (Scalar (VFloat q) :: l)) == 1 + inject_Z (len l)).
    { unfold len. cbn [List.length]. rewrite Nat2Z.inj_succ, <- Z.add_1_l.
      rewrite inject_Z_plus. reflexivity. }
    rewrite E. lra.
Qed.

(** The mean of a column is defined and within the category's weight. *)
Lemma mean_score_column (w : Z) (l : list pyobj) :
  column w l ->
  exists m, mean_score l = Ok m /\ 0 <= m <= inject_Z w.
Proof.
  intros [Hne Hall]. unfold mean_score.
  assert (Hsum : exists t,
            for_each sum_step l (NInt 0) = Ok (NFloat t)
            /\ 0 <= t <= 0 + inject_Z w * inject_Z (len l)).
  { destruct Hall as [|o l (q & -> & Hq) Hall]; [congruence|].
    cbn [for_each sum_step operand add bind].
    rewrite to_float_zero. cbn [bind].
    destruct (column_sum w l Hall (0 + q)) as (t & Ht & Hb).
    exists t. split; [exact Ht|].
    assert (E : inject_Z (len (Scalar (VFloat q) :: l)) == 1 + inject_Z (len l)).
    { unfold len. cbn [List.length]. rewrite Nat2Z.inj_succ, <- Z.add_1_l.
      rewrite inject_Z_plus. reflexivity. }
    rewrite E. lra. }
  destruct Hsum as (t & -> & Hb). cbn [bind].
  unfold true_divide. rewrite (len_nonzero l Hne). cbn [bind].
  eexists. split; [reflexivity|].
  pose proof (len_pos l Hne) as Hpos.
  assert (H0 : 0 <= t / inject_Z (len l))
    by (apply Qle_shift_div_l; [exact Hpos | lra]).
  assert (H1 : t / inject_Z (len l) <= inject_Z w)
    by (apply Qle_shift_div_r; [exact Hpos | lra]).
  split.
  - change 0 with (inject_Z 0). now apply round_lower.
  - now apply round_upper.
Qed.

Lemma scored_items (a : report) :
  scored a ->
  exists q1 q2 q3 q4 q5,
    category_score_items a
    = Ok [ ("service_level", Scalar (VFloat q1));
           ("pricing_terms", Scalar (VFloat q2));
           ("termination_exit", Scalar (VFloat q3));
           ("data_portability", Scalar (VFloat q4));
           ("support_obligations", Scalar (VFloat q5)) ]
    /\ 0 <= q1 <= 25 /\ 0 <= q2 <= 25 /\ 0 <= q3 <= 20
    /\ 0 <= q4 <= 15 /\ 0 <= q5 <= 15.
Proof.
  intros (total & tier & scores & _ & _ & _ & _ & _ & Hs & Hf).
  unfold category_score_items. rewrite Hs.
  unfold CATEGORY_WEIGHTS in Hf.
  repeat match goal with
         | H : Forall2 _ _ (_ :: _) |- _ => inversion H; subst; clear H
         | H : Forall2 _ _ [] |- _ => inversion H; subst; clear H
         end.
  repeat match goal with
         | H : _ /\ _ |- _ => destruct H
         | x : (string * Q)%type |- _ => destruct x
         end.
  cbn [fst snd] in *. subst.
  do 5 eexists. split; [reflexivity|]. auto 10.
Qed.

(** One more assessment adds one score to every column. *)
Lemma accumulate_columns (a : report) (totals : dict (list pyobj)) :
  scored a -> totals = [] \/ columns totals ->
  exists items,
    category_score_items a = Ok items
    /\ columns (fold_left append_score items totals).
Proof.
  intros Ha Ht.
  destruct (scored_items a Ha)
    as (q1 & q2 & q3 & q4 & q5 & -> & H1 & H2 & H3 & H4 & H5).
  eexists. split; [reflexivity|].
  destruct Ht as [->|(l1 & l2 & l3 & l4 & l5 & -> & C1 & C2 & C3 & C4 & C5)].
  - exists [Scalar (VFloat q1)], [Scalar (VFloat q2)], [Scalar (VFloat q3)],
           [Scalar (VFloat q4)], [Scalar (VFloat q5)].
    split; [reflexivity|].
    split; [|split; [|split; [|split]]];
      apply (column_snoc _ [] _ (or_introl eq_refl)); assumption.
  - exists (l1 ++ [Scalar (VFloat q1)])%list, (l2 ++ [Scalar (VFloat q2)])%list,
           (l3 ++ [Scalar (VFloat q3)])%list, (l4 ++ [Scalar (VFloat q4)])%list,
           (l5 ++ [Scalar (VFloat q5)])%list.
    split; [reflexivity|].
    split; [|split; [|split; [|split]]];
      (apply column_snoc; [now right | assumption]).
Qed.

Lemma accumulate_all (l : list report) :
  Forall scored l ->
  forall totals, totals = [] \/ columns totals ->
    exists totals',
      for_each (fun totals a =>
                  let* items := category_score_items a in
                  Ok (fold_left append_score items totals)) l totals
      = Ok totals'
      /\ (l = [] /\ totals' = totals \/ columns totals').
Proof.
  induction 1 as [|a l Ha _ IH]; intros totals Ht.
  - exists totals. auto.
  - cbn [for_each].
    destruct (accumulate_columns a totals Ha Ht) as (items & -> & Hc).
    cbn [bind].
    destruct (IH _ (or_intror Hc)) as (totals' & E & Hcase).
    exists totals'. split; [exact E|]. right.
    destruct Hcase as [[_ ->]|Hc']; assumption.
Qed.

(** The averages of scored assessments: one per category, within the
    category's weight. *)
Lemma averages_of_scored (l : list report) :
  Forall scored l -> l <> [] ->
  exists averages,
    _calculate_category_averages l = Ok averages
    /\ Forall2 (fun entry weight =>
                  fst entry = fst weight
                  /\ 0 <= snd entry <= inject_Z (snd weight))
         averages CATEGORY_WEIGHTS.
Proof.
  intros Hl Hne. unfold _calculate_category_averages.
  destruct (accumulate_all l Hl [] (or_introl eq_refl))
    as (totals & -> & [[-> _]|Hc]); [congruence|].
  cbn [bind].
  destruct Hc as (l1 & l2 & l3 & l4 & l5 & -> & C1 & C2 & C3 & C4 & C5).
  destruct (mean_score_column _ _ C1) as (m1 & E1 & B1).
  destruct (mean_score_column _ _ C2) as (m2 & E2 & B2).
  destruct (mean_score_column _ _ C3) as (m3 & E3 & B3).
  destruct (mean_score_column _ _ C4) as (m4 & E4 & B4).
  destruct (mean_score_column _ _ C5) as (m5 & E5 & B5).
  cbn [for_each fst snd]. rewrite E1. cbn [bind].
  rewrite E2. cbn [bind]. rewrite E3. cbn [bind].
  rewrite E4. cbn [bind]. rewrite E5. cbn [bind].
  eexists. split; [reflexivity|].
  unfold CATEGORY_WEIGHTS. repeat constructor; cbn [fst snd]; tauto.
Qed.

End AverageFacts.

Section ComparisonReports.

Import Py Exn Scoring Analyzer Reference Pipeline Comparison Samples.

Local Open Scope Q_scope.

Lemma valid_scored (l : list report) :
  Forall (fun a => dict_has "error" a = true \/ scored a) l ->
  Forall scored (valid l).
Proof.
  intros H. unfold valid. apply Forall_forall. intros a Hin.
  apply filter_In in Hin as [Hin Hv].
  rewrite Forall_forall in H. destruct (H a Hin) as [He|Hs]; [|exact Hs].
  rewrite He in Hv. discriminate.
Qed.

Lemma generate_comparison_report_nonempty (l : list report) :
  l <> [] ->
  generate_comparison_report l
  = let* average :=
      match valid l with
      | [] => Ok 0
      | _ :: _ =>
          let* total := sum_at "total_score" (valid l) in
          true_divide total (len (valid l))
      end in
    let* low := count_level "LOW" (valid l) in
    let* medium := count_level "MEDIUM" (valid l) in
    let* high := count_level "HIGH" (valid l) in
    let* best := sorted_by_total false (valid l) in
    let* worst := sorted_by_total true (valid l) in
    let* averages := _calculate_category_averages (valid l) in
    Ok (Compared
          {| total_vendors := len (valid l);
             average_score := average;
             risk_distribution :=
               [("LOW", low); ("MEDIUM", medium); ("HIGH", high)];
             best_vendors := firstn 5 best;
             worst_vendors := firstn 5 worst;
             category_averages := averages |}).
Proof. destruct l; [congruence | reflexivity]. Qed.

(** The comparison of assessments that are errors or carry scores. *)
Lemma comparison_described (l : list report) :
  l <> [] ->
  Forall (fun a => dict_has "error" a = true \/ scored a) l ->
  exists (average : Q) (averages : dict Q),
    generate_comparison_report l
    = Ok (Compared
            {| total_vendors := len (valid l);
               average_score := average;
               risk_distribution :=
                 [ ("LOW",
                     len (filter (fun a => String.eqb (tier_of a) "LOW") (valid l)));
                   ("MEDIUM",
                     len (filter (fun a => String.eqb (tier_of a) "MEDIUM") (valid l)));
                   ("HIGH",
                     len (filter (fun a => String.eqb (tier_of a) "HIGH") (valid l))) ];
               best_vendors :=
                 firstn 5
                   (map snd (sort_by Qle_bool
                               (map (fun a => (total_of a, a)) (valid l))));
               worst_vendors :=
                 firstn 5
                   (map snd (sort_by (fun x y => Qle_bool y x)
                               (map (fun a => (total_of a, a)) (valid l))));
               category_averages := averages |})
    /\ 0 <= average <= 100
    /\ (valid l = [] /\ averages = []
        \/ Forall2 (fun entry weight =>
                      fst entry = fst weight
                      /\ 0 <= snd entry <= inject_Z (snd weight))
             averages CATEGORY_WEIGHTS).
Proof.
  intros Hne Hall. pose proof (valid_scored l Hall) as Hv.
  rewrite (generate_comparison_report_nonempty l Hne).
  set (v := valid l) in *.
  assert (Havg : exists average,
            match v with
            | [] => Ok 0
            | _ :: _ =>
                let* total := sum_at "total_score" v in
                true_divide total (len v)
            end = Ok average
            /\ 0 <= average <= 100).
  { destruct v as [|b v'] eqn:Ev.
    - exists 0. split; [reflexivity | lra].
    - rewrite (sum_at_scored _ Hv) by discriminate. cbn [bind].
      unfold true_divide. rewrite len_nonzero by discriminate.
      eexists. split; [reflexivity|].
      assert (Hb : Forall (fun q => 0 <= q <= 100) (map total_of (b :: v'))).
      { apply Forall_map. eapply Forall_impl; [|exact Hv].
        intros x Hx. now destruct (scored_number x Hx). }
      pose proof (sum_bounded _ Hb) as [Hlo Hhi].
      assert (Hlen : len (map total_of (b :: v')) = len (b :: v'))
        by (unfold len; now rewrite length_map).
      rewrite Hlen in Hhi.
      assert (Hpos : 0 < inject_Z (len (b :: v')))
        by (apply len_pos; discriminate).
      split.
      + apply Qle_shift_div_l; [exact Hpos | lra].
      + apply Qle_shift_div_r; [exact Hpos | lra]. }
  destruct Havg as (average & -> & Hbound). cbn [bind].
  unfold count_level. rewrite !(count_level_scored _ _ Hv). cbn [bind].
  unfold sorted_by_total. rewrite !(keyed_scored _ Hv). cbn [bind app].
  assert (Hmeans : exists averages,
            _calculate_category_averages v = Ok averages
            /\ (v = [] /\ averages = []
                \/ Forall2 (fun entry weight =>
                              fst entry = fst weight
                              /\ 0 <= snd entry <= inject_Z (snd weight))
                     averages CATEGORY_WEIGHTS)).
  { destruct v as [|b v'] eqn:Ev.
    - exists []. split; [reflexivity | now left].
    - destruct (averages_of_scored (b :: v') Hv) as (averages & E & Hf);
        [discriminate|].
      exists averages. split; [exact E | now right]. }
  destruct Hmeans as (averages & -> & Hm). cbn [bind].
  exists average, averages. rewrite !Z.add_0_l. auto.
Qed.

(** What the engine returns for each contract is an error or carries
    scores. *)
Lemma assessments_are_errors_or_scored
    (contracts : list (string * string * string * string * string)) :
  Forall (fun a => dict_has "error" a = true \/ scored a)
    (assess_multiple_contracts contracts).
Proof.
  unfold assess_multiple_contracts. apply Forall_map.
  apply Forall_forall. intros [[[[fp stem] name] vendor] text] _.
  destruct (dict_has "error" (assess_contract_file fp stem name vendor text))
    eqn:E; [now left | right].
  now apply assessment_without_error_is_scored.
Qed.

End ComparisonReports.

Section ComparisonTheorems.

Import Py Exn Scoring Analyzer Reference Pipeline Comparison Samples.

Local Open Scope Q_scope.


(** X17: the best vendors are the first five of the valid assessments put in
    ascending order of total score, the worst vendors the first five in
    descending order; both orders are rearrangements of the valid
    assessments, so every listed vendor is a valid assessment. *)
Theorem best_and_worst_vendors_are_sorted
    (contracts : list (string * string * string * string * string)) :
  contracts <> [] ->
  exists (c : comparison) (up down : list report),
    generate_comparison_report (assess_multiple_contracts contracts)
    = Ok (Compared c)
    /\ best_vendors c = firstn 5 up
    /\ Permutation up (valid (assess_multiple_contracts contracts))
    /\ ascending (map total_of up)
    /\ worst_vendors c = firstn 5 down
    /\ Permutation down (valid (assess_multiple_contracts contracts))
    /\ descending (map total_of down).
Proof.
  intros Hne.
  set (l := assess_multiple_contracts contracts).
  assert (Hl : l <> []) by (unfold l; destruct contracts; [congruence | discriminate]).
  pose proof (assessments_are_errors_or_scored contracts) as Hall. fold l in Hall.
  destruct (comparison_described l Hl Hall) as (average & averages & -> & _ & _).
  eexists. do 2 eexists. split; [reflexivity|]. cbn [best_vendors worst_vendors].
  destruct (sorted_keys Qle_bool (valid l)) as [Hp1 Hk1].
  destruct (sorted_keys (fun x y => Qle_bool y x) (valid l)) as [Hp2 Hk2].
  split; [reflexivity|]. split; [exact Hp1|].
  split; [rewrite Hk1; apply sort_ascending|].
  split; [reflexivity|]. split; [exact Hp2|].
  rewrite Hk2. apply sort_descending.
Qed.

(** X18: the category averages of a batch with at least one valid assessment
    name the five categories in the order of the weight table, and each
    average lies between 0 and the category's weight. *)
Theorem category_averages_are_bounded
    (contracts : list (string * string * string * string * string)) :
  valid (assess_multiple_contracts contracts) <> [] ->
  exists c : comparison,
    generate_comparison_report (assess_multiple_contracts contracts)
    = Ok (Compared c)
    /\ Forall2 (fun entry weight =>
                  fst entry = fst weight
                  /\ 0 <= snd entry <= inject_Z (snd weight))
         (category_averages c) CATEGORY_WEIGHTS.
Proof.
  intros Hv.
  set (l := assess_multiple_contracts contracts) in *.
  assert (Hl : l <> []) by (intros E; rewrite E in Hv; now apply Hv).
  pose proof (assessments_are_errors_or_scored contracts) as Hall. fold l in Hall.
  destruct (comparison_described l Hl Hall)
    as (average & averages & -> & _ & [[E _]|Hf]); [contradiction|].
  eexists. split; [reflexivity | exact Hf].
Qed.

End ComparisonTheorems.

Section ComparisonWitnesses.

Import Py Exn Scoring Analyzer Reference Pipeline Comparison Samples.

Local Open Scope Q_scope.


Lemma best_and_worst_vendors_are_sorted_witness :
  exists (c : comparison) (up down : list report),
    generate_comparison_report (assess_multiple_contracts two_contracts)
    = Ok (Compared c)
    /\ best_vendors c = firstn 5 up
    /\ Permutation up (valid (assess_multiple_contracts two_contracts))
    /\ ascending (map total_of up)
    /\ worst_vendors c = firstn 5 down
    /\ Permutation down (valid (assess_multiple_contracts two_contracts))
    /\ descending (map total_of down).
Proof.
  apply (best_and_worst_vendors_are_sorted two_contracts). discriminate.
Defined.

Lemma category_averages_are_bounded_witness :
  exists c : comparison,
    generate_comparison_report (assess_multiple_contracts two_contracts)
    = Ok (Compared c)
    /\ Forall2 (fun entry weight =>
                  fst entry = fst weight
                  /\ 0 <= snd entry <= inject_Z (snd weight))
         (category_averages c) CATEGORY_WEIGHTS.
Proof.
  apply (category_averages_are_bounded two_contracts).
  vm_compute. discriminate.
Defined.

End ComparisonWitnesses.

Section AverageErrors.

Import Py Exn Scoring Reference Pipeline Comparison.

Local Open Scope Q_scope.

(** A loop keeps an invariant of its state and raises only what its body
    raises. *)
Lemma for_each_outcome {A S : Type} (Inv : S -> Prop) (Bad : exn -> Prop)
    (body : S -> A -> result S) (xs : list A) :
  (forall s x, Inv s ->
     match body s x with
     | Ok s' => Inv s'
     | Raise e => Bad e
     end) ->
  forall s, Inv s ->
    match for_each body xs s with
    | Ok s' => Inv s'
    | Raise e => Bad e
    end.
Proof.
  intros Hbody. induction xs as [|x xs IH]; intros s Hs; simpl; [exact Hs|].
  specialize (Hbody s x Hs).
  destruct (body s x) as [s'|e]; simpl; [now apply IH | exact Hbody].
Qed.

Lemma append_score_nonempty (item : string * pyobj) (totals : dict (list pyobj)) :
  Forall (fun entry => snd entry <> []) totals ->
  Forall (fun entry => snd entry <> []) (append_score totals item).
Proof.
  intros H. unfold append_score.
  apply (dict_set_all (fun l : list pyobj => l <> [])); [|exact H].
  destruct (dict_get_default (fst item) [] totals); discriminate.
Qed.

Lemma sum_step_outcome (t : num) (o : pyobj) :
  match sum_step t o with
  | Ok _ => True
  | Raise e => e = TypeError \/ e = OverflowError
  end.
Proof.
  destruct o as [v|d|d|l]; cbn [sum_step]; auto.
  destruct v, t; cbn [operand bind add]; auto;
    unfold to_float;
    match goal with
    | |- context [(?a <? ?b)%Z] => destruct (a <? b)%Z
    end; cbn [bind]; auto.
Qed.

Lemma mean_score_raises (scores : list pyobj) (e : exn) :
  scores <> [] -> mean_score scores = Raise e ->
  e = TypeError \/ e = OverflowError.
Proof.
  intros Hne. unfold mean_score.
  pose proof (for_each_outcome (fun _ : num => True)
                (fun e => e = TypeError \/ e = OverflowError)
                sum_step scores
                (fun s x _ => sum_step_outcome s x) (NInt 0) I) as Hsum.
  match type of Hsum with
  | match ?c with _ => _ end => destruct c as [t|e']
  end; cbn [bind].
  - unfold true_divide. rewrite (len_nonzero scores Hne).
    destruct t as [x|q]; [|discriminate].
    destruct (Z.abs x <? float_limit * Z.abs (len scores))%Z; cbn [bind];
      [discriminate|].
    intros [= <-]. now right.
  - intros [= <-]. exact Hsum.
Qed.

(** X19: whatever dictionaries it is given, the averaging of category scores
    never divides by zero -- every category it has seen has at least one
    score.  It can only raise [AttributeError], for a [category_scores]
    entry that is not a dictionary, [TypeError], for a score that is not a
    number, or [OverflowError], for an [int] too large for a [float]. *)
Theorem category_averages_never_divide_by_zero
    (assessments : list report) (e : exn) :
  _calculate_category_averages assessments = Raise e ->
  e = AttributeError \/ e = TypeError \/ e = OverflowError.
Proof.
  unfold _calculate_category_averages.
  pose proof (for_each_outcome
                (fun totals : dict (list pyobj) =>
                   Forall (fun entry => snd entry <> []) totals)
                (fun e => e = AttributeError)
                (fun totals a =>
                   let* items := category_score_items a in
                   Ok (fold_left append_score items totals))
                assessments) as Hacc.
  assert (Hbody : forall (s : dict (list pyobj)) (x : report),
             Forall (fun entry => snd entry <> []) s ->
             match (let* items := category_score_items x in
                    Ok (fold_left append_score items s)) with
             | Ok s' => Forall (fun entry => snd entry <> []) s'
             | Raise e0 => e0 = AttributeError
             end).
  { intros s x Hs. unfold category_score_items.
    assert (Hfold : forall items s0,
               Forall (fun entry : string * list pyobj => snd entry <> []) s0 ->
               Forall (fun entry => snd entry <> [])
                 (fold_left append_score items s0)).
    { induction items as [|i items IH]; intros s0 H0; simpl; [exact H0|].
      apply IH. now apply append_score_nonempty. }
    destruct (dict_get "category_scores" x) as [[v|d|d|ds]|]; cbn [bind];
      try reflexivity; now apply Hfold. }
  specialize (Hacc Hbody [] (Forall_nil _)).
  match type of Hacc with
  | match ?c with _ => _ end => destruct c as [totals|e1]
  end; cbn [bind].
  - intros H. right.
    assert (Hgen : forall (entries : dict (list pyobj)) (acc : dict Q),
               Forall (fun entry => snd entry <> []) entries ->
               match for_each
                       (fun averages (entry : string * list pyobj) =>
                          let* m := mean_score (snd entry) in
                          Ok (dict_set (fst entry) m averages)) entries acc with
               | Ok _ => True
               | Raise e0 => e0 = TypeError \/ e0 = OverflowError
               end).
    { induction entries as [|entry entries IH]; intros acc Hn; simpl; [exact I|].
      inversion Hn as [|? ? Hh Ht]; subst.
      destruct (mean_score (snd entry)) as [m|e0] eqn:Em; cbn [bind].
      - now apply IH.
      - now apply (mean_score_raises (snd entry)). }
    specialize (Hgen totals [] Hacc). rewrite H in Hgen. exact Hgen.
  - intros [= <-]. now left.
Qed.

(** Each of the three exceptions occurs: a [category_scores] entry that is
    [None], a score that is a string, and a score of [10 ** 400]. *)
Lemma category_averages_raise :
  _calculate_category_averages [[("category_scores", Scalar VNone)]]
  = Raise AttributeError
  /\ _calculate_category_averages
       [[("category_scores", Dict [("pricing_terms", VStr "high")])]]
     = Raise TypeError
  /\ _calculate_category_averages
       [[("category_scores", Dict [("pricing_terms", VInt (10 ^ 400))])]]
     = Raise OverflowError.
Proof. repeat split; vm_compute; reflexivity. Qed.

(** Whole-number scores are added exactly: two scores that cancel leave
    no trace, however large. *)
Lemma category_averages_of_large_integers :
  _calculate_category_averages
    [ [("category_scores", Dict [("pricing_terms", VInt (10 ^ 400))])];
      [("category_scores", Dict [("pricing_terms", VInt (- 10 ^ 400))])];
      [("category_scores", Dict [("pricing_terms", VFloat 1)])] ]
  = Ok [("pricing_terms", round (1 / 3) 2)].
Proof. vm_compute. reflexivity. Qed.

End AverageErrors.

Section AverageErrorsWitness.

Import Py Exn Scoring Comparison.

Lemma category_averages_never_divide_by_zero_witness :
  _calculate_category_averages [[("category_scores", Scalar VNone)]]
  = Raise AttributeError
  /\ (AttributeError = AttributeError \/ AttributeError = TypeError
      \/ AttributeError = OverflowError).
Proof.
  split; [reflexivity|].
  apply (category_averages_never_divide_by_zero
           [[("category_scores", Scalar VNone)]] AttributeError).
  reflexivity.
Defined.

End AverageErrorsWitness.

(** ** The questionnaire's scores *)

Section QuestionnaireBounds.

Import Py Scoring Interactive Reference.

Variable py_int : string -> option Z.
Variable py_float : string -> option pyfloat.
Variable responses : dict string.

Local Open Scope Z_scope.

Ltac split_answers :=
  repeat match goal with
         | |- context [among (answer ?r ?k) ?l] => destruct (among (answer r k) l)
         | |- context [String.eqb (answer ?r ?k) ?s] =>
             destruct (String.eqb (answer r k) s)
         | |- context [py_int ?x] => destruct (py_int x)
         | |- context [py_float ?x] => destruct (py_float x)
         | |- context [Z.ltb ?a ?b] => destruct (Z.ltb a b)
         | |- context [float_lt ?a ?b] => destruct (float_lt a b)
         end.

Ltac block_bounds :=
  split_answers; cbn; (eexists; split; [reflexivity | lia]).

Lemma data_portability_block (a b c d e : Z) :
  exists a',
    data_portability_scoring responses
      [ ("data_portability", a); ("pricing_terms", b);
        ("support_obligations", c); ("termination_exit", d);
        ("service_level", e) ]
    = [ ("data_portability", a'); ("pricing_terms", b);
        ("support_obligations", c); ("termination_exit", d);
        ("service_level", e) ]
    /\ a <= a' <= a + 15.
Proof. unfold data_portability_scoring, when. block_bounds. Qed.

Lemma pricing_terms_block (a b c d e : Z) :
  exists b',
    pricing_terms_scoring py_int responses
      [ ("data_portability", a); ("pricing_terms", b);
        ("support_obligations", c); ("termination_exit", d);
        ("service_level", e) ]
    = [ ("data_portability", a); ("pricing_terms", b');
        ("support_obligations", c); ("termination_exit", d);
        ("service_level", e) ]
    /\ b <= b' <= b + 25.
Proof. unfold pricing_terms_scoring, when. block_bounds. Qed.

Lemma support_obligations_block (a b c d e : Z) :
  exists c',
    support_obligations_scoring responses
      [ ("data_portability", a); ("pricing_terms", b);
        ("support_obligations", c); ("termination_exit", d);
        ("service_level", e) ]
    = [ ("data_portability", a); ("pricing_terms", b);
        ("support_obligations", c'); ("termination_exit", d);
        ("service_level", e) ]
    /\ c <= c' <= c + 15.
Proof. unfold support_obligations_scoring, when. block_bounds. Qed.

Lemma termination_exit_block (a b c d e : Z) :
  exists d',
    termination_exit_scoring py_int responses
      [ ("data_portability", a); ("pricing_terms", b);
        ("support_obligations", c); ("termination_exit", d);
        ("service_level", e) ]
    = [ ("data_portability", a); ("pricing_terms", b);
        ("support_obligations", c); ("termination_exit", d');
        ("service_level", e) ]
    /\ d <= d' <= d + 20.
Proof. unfold termination_exit_scoring, when. block_bounds. Qed.

Lemma service_level_block (a b c d e : Z) :
  exists e',
    service_level_scoring py_float responses
      [ ("data_portability", a); ("pricing_terms", b);
        ("support_obligations", c); ("termination_exit", d);
        ("service_level", e) ]
    = [ ("data_portability", a); ("pricing_terms", b);
        ("support_obligations", c); ("termination_exit", d);
        ("service_level", e') ]
    /\ e <= e' <= e + 20.
Proof. unfold service_level_scoring, when. block_bounds. Qed.

(** The five scores after all scoring blocks, with their ranges. *)
Lemma questionnaire_scores_described :
  exists a b c d e : Z,
    questionnaire_category_scores py_int py_float responses
    = [ ("data_portability", a); ("pricing_terms", b);
        ("support_obligations", c); ("termination_exit", d);
        ("service_level", e) ]
    /\ 0 <= a <= 15 /\ 0 <= b <= 25 /\ 0 <= c <= 15
    /\ 0 <= d <= 20 /\ 0 <= e <= 20.
Proof.
  unfold questionnaire_category_scores.
  destruct (data_portability_block 0 0 0 0 0) as (a & -> & Ha).
  destruct (pricing_terms_block a 0 0 0 0) as (b & -> & Hb).
  destruct (support_obligations_block a b 0 0 0) as (c & -> & Hc).
  destruct (termination_exit_block a b c 0 0) as (d & -> & Hd).
  destruct (service_level_block a b c d 0) as (e & -> & He).
  exists a, b, c, d, e. split; [reflexivity|]. lia.
Qed.

(** X20: whatever the answers, every questionnaire category score lies
    between 0 and the category's maximum -- the service-level score never
    exceeds 20 of its 25 points -- and the total lies between 0 and 95. *)
Theorem questionnaire_scores_within_maximum :
  Forall2 (fun entry limit =>
             fst entry = fst limit /\ 0 <= snd entry <= snd limit)
    (questionnaire_category_scores py_int py_float responses) max_points
  /\ dict_get_default "service_level" 0
       (questionnaire_category_scores py_int py_float responses) <= 20
  /\ 0 <= questionnaire_total py_int py_float responses <= 95.
Proof.
  unfold questionnaire_total.
  destruct questionnaire_scores_described
    as (a & b & c & d & e & -> & Ha & Hb & Hc & Hd & He).
  split.
  - unfold max_points. repeat constructor; cbn [fst snd]; lia.
  - split; [cbn; lia|]. cbn. lia.
Qed.

End QuestionnaireBounds.

(** ** The questionnaire and the aggregator *)

Section QuestionnaireTiers.

Import Py Scoring Interactive Reference.

Variable py_int : string -> option Z.
Variable py_float : string -> option pyfloat.
Variable responses : dict string.

Local Open Scope Q_scope.





End QuestionnaireTiers.

(** ** The upload filter *)

Section UploadFilter.

Import Py PyStr Exn App Interactive.

Lemma rsplit1_whole (sep : ascii) (s : string) :
  contains (String sep "") s = false -> rsplit1 sep s = [s].
Proof.
  induction s as [|c s IH]; [reflexivity|].
  rewrite contains_char_cons. intros H.
  apply orb_false_iff in H as [Hc Hs].
  simpl. rewrite (IH Hs), Hc. reflexivity.
Qed.

Lemma rsplit1_last (sep : ascii) (stem ext : string) :
  contains (String sep "") ext = false ->
  rsplit1 sep (stem ++ String sep ext) = [stem; ext].
Proof.
  intros H. induction stem as [|c stem IH].
  - simpl. rewrite (rsplit1_whole _ _ H), Ascii.eqb_refl. reflexivity.
  - simpl. simpl in IH. rewrite IH. reflexivity.
Qed.

Lemma last_separator (sep : ascii) (s : string) :
  contains (String sep "") s = true ->
  exists stem ext,
    s = stem ++ String sep ext /\ contains (String sep "") ext = false.
Proof.
  induction s as [|c s IH]; [discriminate|].
  rewrite contains_char_cons. intros H.
  destruct (contains (String sep "") s) eqn:E.
  - destruct (IH eq_refl) as (stem & ext & -> & Hext).
    exists (String c stem), ext. split; [reflexivity | exact Hext].
  - rewrite orb_false_r in H. apply Ascii.eqb_eq in H as ->.
    exists "", s. split; [reflexivity | exact E].
Qed.

Lemma lower_char_full_stop (c : ascii) :
  Ascii.eqb (lower_char c) "." = Ascii.eqb c ".".
Proof.
  destruct c as [[] [] [] [] [] [] [] []]; vm_compute; reflexivity.
Qed.

Lemma lower_keeps_full_stops (s : string) :
  contains "." (lower s) = contains "." s.
Proof.
  induction s as [|c s IH]; [reflexivity|].
  cbn [lower]. rewrite !contains_char_cons, lower_char_full_stop, IH.
  reflexivity.
Qed.

Lemma allowed_extension_has_no_full_stop (ext : string) :
  In (lower ext) ALLOWED_EXTENSIONS -> contains "." ext = false.
Proof.
  rewrite <- lower_keeps_full_stops.
  intros [<- | [<- | []]]; reflexivity.
Qed.

Lemma among_In (s : string) (options : list string) :
  among s options = true <-> In s options.
Proof.
  unfold among. rewrite existsb_exists. split.
  - intros (x & Hin & Heq). apply String.eqb_eq in Heq. now subst.
  - intros Hin. exists s. split; [exact Hin | apply String.eqb_refl].
Qed.

(** X21: [allowed_file] never raises, and it accepts a file name exactly
    when the name is [stem.ext] with [ext], put in lower case, one of
    "html" and "htm"; such an extension holds no full stop, so it is the
    part after the last one. *)
Theorem allowed_file_accepts_exactly_html_names (filename : string) :
  exists accepted,
    allowed_file filename = Ok accepted
    /\ (accepted = true <->
        exists stem ext,
          filename = stem ++ "." ++ ext
          /\ In (lower ext) ALLOWED_EXTENSIONS).
Proof.
  unfold allowed_file.
  destruct (contains "." filename) eqn:E.
  - destruct (last_separator _ _ E) as (stem & ext & -> & Hext).
    rewrite (rsplit1_last _ _ _ Hext). cbn [index nth_error bind].
    eexists. split; [reflexivity|]. rewrite among_In. split.
    + intros Hin. exists stem, ext. split; [reflexivity | exact Hin].
    + intros (stem' & ext' & Heq & Hin).
      pose proof (allowed_extension_has_no_full_stop _ Hin) as Hext'.
      pose proof (rsplit1_last "." stem ext Hext) as H1.
      rewrite Heq in H1.
      change (stem' ++ "." ++ ext') with (stem' ++ String "." ext') in H1.
      rewrite (rsplit1_last _ _ _ Hext') in H1.
      injection H1 as _ ->. exact Hin.
  - exists false. split; [reflexivity|]. split; [discriminate|].
    intros (stem & ext & -> & _).
    assert (H : contains "." (stem ++ "." ++ ext) = true)
      by (apply contains_spec; now exists stem, ext).
    congruence.
Qed.

End UploadFilter.

(** ** The questionnaire endpoint *)

Section EndpointFacts.

Import Py Exn Scoring Interactive App.

Variable py_int : string -> option Z.
Variable py_float : string -> option pyfloat.
Variable responses : dict string.

Lemma percentage_bounds (score limit : Z) :
  (0 <= score <= limit)%Z -> (0 < limit)%Z ->
  0 <= round (inject_Z score / inject_Z limit * 100) 1 <= 100.
Proof.
  intros [Hlo Hhi] Hpos.
  assert (Hl : 0 < inject_Z limit).
  { change 0 with (inject_Z 0). now rewrite <- Zlt_Qlt. }
  assert (Hs : 0 <= inject_Z score).
  { change 0 with (inject_Z 0). now rewrite <- Zle_Qle. }
  assert (Hsl : inject_Z score <= inject_Z limit) by now rewrite <- Zle_Qle.
  assert (Hq0 : 0 <= inject_Z score / inject_Z limit).
  { apply Qle_shift_div_l; [exact Hl|]. lra. }
  assert (Hq1 : inject_Z score / inject_Z limit <= 1).
  { apply Qle_shift_div_r; [exact Hl|]. lra. }
  split.
  - apply (round_lower _ 0%Z). change (inject_Z 0) with 0. lra.
  - apply (round_upper _ 100%Z). change (inject_Z 100) with 100. lra.
Qed.

(** X22: on answers that are all strings the questionnaire endpoint
    never raises. Its report gives, for each of the five categories in
    table order, a detail record with no clauses, no missing coverage, a
    score between 0 and the category's maximum and a percentage between
    0 and 100. *)
Theorem questionnaire_endpoint_details :
  exists r details,
    calculate_risk_from_questionnaire py_int py_float responses = Ok r
    /\ dict_get "category_details" r = Some (DictOfDicts details)
    /\ Forall2
         (fun entry limit =>
            fst entry = fst limit
            /\ dict_get "clause_count" (snd entry) = Some (VInt 0)
            /\ dict_get "high_risk_count" (snd entry) = Some (VInt 0)
            /\ dict_get "missing_coverage" (snd entry) = Some (VBool false)
            /\ dict_get "max_points" (snd entry) = Some (VInt (snd limit))
            /\ exists score percentage,
                 dict_get "score" (snd entry) = Some (VInt score)
                 /\ (0 <= score <= snd limit)%Z
                 /\ dict_get "percentage" (snd entry) = Some (VFloat percentage)
                 /\ 0 <= percentage <= 100)
         details max_points.
Proof.
  unfold calculate_risk_from_questionnaire.
  destruct (questionnaire_scores_described py_int py_float responses)
    as (a & b & c & d & e & -> & Ha & Hb & Hc & Hd & He).
  cbn [for_each detail_step getitem bind fst snd max_points dict_get
       String.eqb Ascii.eqb Bool.eqb dict_set Z.ltb Z.compare].
  eexists. eexists. split; [reflexivity|]. split; [reflexivity|].
  unfold max_points.
  repeat (apply Forall2_cons || apply Forall2_nil);
    cbn [fst snd];
    (split; [reflexivity|]); (split; [reflexivity|]);
    (split; [reflexivity|]); (split; [reflexivity|]);
    (split; [reflexivity|]);
    eexists; eexists; (split; [reflexivity|]);
    (split; [lia|]); (split; [reflexivity|]);
    apply percentage_bounds; lia.
Qed.

End EndpointFacts.
